(** * ResumeAi backend: quota gate, resume lifecycle and output views

    A shallow embedding of the Express/Mongoose backend:

    - [models/User.js], [models/Resume.js]: the schemas, as records, with the
      validators and options they declare (required, trim, maxlength, min,
      max, select, timestamps);
    - [middleware/auth.js]: [authenticateToken] and [checkApiLimit];
    - [services/googleAI.js]: the generation service and its mock replies;
    - [routes/resume.js], [routes/ai.js], [routes/auth.js], [routes/user.js]:
      the request handlers.

    Handlers run in a small monad over the database: a computation returns a
    value, throws a JavaScript error, or sends the response and stops
    ([return res.status(..).json(..)]).

    Conventions of the model.
    - Numbers are integers ([Z]): every counter and score the code computes
      itself is one.
    - A string is a sequence of code units below 256.
    - A [Date] is the instant plus the two calendar fields the code reads.
    - What the runtime and the libraries decide (the clock, [Math.random],
      JWT verification, text extraction, the live model's reply, a failing
      database call) is an input: part of the request, of [Env.t] or of the
      [World.t] the handler starts in. *)

From Stdlib Require Import ZArith String Ascii List Lia Bool.
From stdpp Require Import base option list gmap strings pretty.

Set Warnings "-register-all".

Local Open Scope string_scope.
Local Open Scope Z_scope.

(* ================================================================== *)
(** * JavaScript values *)
(* ================================================================== *)

Module Js.

(** A Mongo ObjectId. *)
Abbreviation ObjectId := positive.

(** [Date]: [getTime] is the instant in milliseconds, [getFullYear] and
    [getMonth] the local calendar fields of that instant. *)
Record Date := mkDate { getFullYear : Z; getMonth : Z; getTime : Z }.

#[global] Instance Date_eq_dec : EqDecision Date.
Proof. solve_decision. Defined.

(** A thrown [Error]: its [name] and its [message]. *)
Record Error := mkError { errName : string; errMessage : string }.

(** A call into a library: it throws or it returns. *)
Inductive Try (A : Type) :=
| Fails (e : Error)
| Gives (a : A).
Arguments Fails {A} e.
Arguments Gives {A} a.

(** JSON as the handlers read it from [req.body] and write it to
    [res.json]. A key whose value is [undefined] is absent. *)
Inductive json :=
| JNull
| JBool (b : bool)
| JNum (n : Z)
| JStr (s : string)
| JId (o : ObjectId)
| JDate (d : Date)
| JArr (l : list json)
| JObj (o : list (string * json)).

(** [!v] is [negb (truthy v)]; [None] stands for [undefined]. *)
Definition truthy (v : option json) : bool :=
  match v with
  | None | Some JNull | Some (JBool false) | Some (JNum 0) | Some (JStr "") => false
  | Some _ => true
  end.

(** An object literal: the keys whose value is not [undefined]. *)
Fixpoint object (fields : list (string * option json)) : list (string * json) :=
  match fields with
  | [] => []
  | (k, Some v) :: rest => (k, v) :: object rest
  | (_, None) :: rest => object rest
  end.

(** [obj[k]] on a plain data object. *)
Fixpoint get (k : string) (o : list (string * json)) : option json :=
  match o with
  | [] => None
  | (k', v) :: rest => if String.eqb k k' then Some v else get k rest
  end.

(** [delete obj[k]]. *)
Fixpoint deleteProperty (k : string) (o : list (string * json)) : list (string * json) :=
  match o with
  | [] => []
  | (k', v) :: rest => if String.eqb k k' then deleteProperty k rest else (k', v) :: deleteProperty k rest
  end.

Definition strings (l : list string) : json := JArr (map JStr l).

(** ** Strings *)

(** White space of [String.prototype.trim] among the code units below 256:
    TAB, LF, VT, FF, CR, SP and NBSP. *)
Definition isWhiteSpace (c : ascii) : bool :=
  let n := Z.of_nat (nat_of_ascii c) in
  ((9 <=? n) && (n <=? 13)) || (n =? 32) || (n =? 160).

Fixpoint trimStart (s : string) : string :=
  match s with
  | EmptyString => EmptyString
  | String c rest => if isWhiteSpace c then trimStart rest else s
  end.

Definition trimEnd (s : string) : string := String.rev (trimStart (String.rev s)).

Definition trim (s : string) : string := trimEnd (trimStart s).

Definition strlen (s : string) : Z := Z.of_nat (String.length s).

(** [s.toLowerCase()] on the code units below 256. *)
Definition lowerChar (c : ascii) : ascii :=
  let n := Z.of_nat (nat_of_ascii c) in
  if ((65 <=? n) && (n <=? 90)) || ((192 <=? n) && (n <=? 222) && negb (n =? 215))
  then ascii_of_nat (Z.to_nat (n + 32))
  else c.

Fixpoint toLowerCase (s : string) : string :=
  match s with
  | EmptyString => EmptyString
  | String c rest => String (lowerChar c) (toLowerCase rest)
  end.

(** [s.split('.')[0]]: the part of [s] before its first dot. *)
Fixpoint beforeFirstDot (s : string) : string :=
  match s with
  | EmptyString => EmptyString
  | String c rest => if Ascii.eqb c "."%char then EmptyString else String c (beforeFirstDot rest)
  end.

(** [s.substring(0, n)]. *)
Definition prefix (n : nat) (s : string) : string := String.substring 0 n s.

(** ** Property lookup on an object literal

    [{ free: 5, premium: 100, enterprise: 1000 }[key]] finds the literal's
    own keys first and then what every object inherits from
    [Object.prototype]: functions, and for [__proto__] the prototype
    itself. *)
Inductive Value :=
| VNumber (n : Z)
| VUndefined
| VInherited.

Definition objectPrototypeKeys : list string :=
  [ "constructor"; "hasOwnProperty"; "isPrototypeOf"; "propertyIsEnumerable";
    "toLocaleString"; "toString"; "valueOf"; "__proto__";
    "__defineGetter__"; "__defineSetter__"; "__lookupGetter__"; "__lookupSetter__" ].

Definition inherited (key : string) : bool := existsb (String.eqb key) objectPrototypeKeys.

Fixpoint own (key : string) (literal : list (string * Z)) : option Z :=
  match literal with
  | [] => None
  | (k, n) :: rest => if String.eqb key k then Some n else own key rest
  end.

(** [literal[key]]; a missing key ([undefined] or [null]) names no property
    of the literal or of the prototype. *)
Definition property (literal : list (string * Z)) (key : option string) : Value :=
  match key with
  | None => VUndefined
  | Some k =>
      match own k literal with
      | Some n => VNumber n
      | None => if inherited k then VInherited else VUndefined
      end
  end.

(** [v || d]: [undefined] and [0] are falsy, functions and objects are not. *)
Definition orElse (v : Value) (d : Z) : Value :=
  match v with
  | VUndefined | VNumber 0 => VNumber d
  | _ => v
  end.

(** [m >= v]: a function or an object converts to [NaN], and every
    comparison with [NaN] is false. *)
Definition ge (m : Z) (v : Value) : bool :=
  match v with
  | VNumber n => n <=? m
  | _ => false
  end.

End Js.

Import Js.

(* ================================================================== *)
(** * models/User.js *)
(* ================================================================== *)

Module ApiUsage.
(** [apiUsageSchema]. *)
Record t := mk { monthly : Z; lastReset : Date; total : Z }.

#[global] Instance eq_dec : EqDecision t.
Proof. solve_decision. Defined.

Definition toObject (a : t) : json :=
  JObj [ ("monthly", JNum (monthly a)); ("lastReset", JDate (lastReset a));
         ("total", JNum (total a)) ].
End ApiUsage.

Module Preferences.
(** [preferenceSchema]. *)
Record t := mk { theme : string; language : string; notifications : bool }.

#[global] Instance eq_dec : EqDecision t.
Proof. solve_decision. Defined.

Definition toObject (p : t) : json :=
  JObj [ ("theme", JStr (theme p)); ("language", JStr (language p));
         ("notifications", JBool (notifications p)) ].
End Preferences.

Module User.
(** [userSchema], with the [_id], the version key and the two timestamps
    Mongoose adds. In the collection [password] is always present
    ([required]); in a document returned by a query it is present only when
    the query asked for it ([select: false]). The two embedded schemas have
    no default of their own: a user saved without them has none. A stored
    document may lack [subscriptionType] ([None]); a document held by the
    program never does, because [new User] and the hydration of a query
    result give a missing path the default of the schema. *)
Record t := mk {
  _id : ObjectId;
  email : string;
  password : option string;
  name : string;
  subscriptionType : option string;
  subscriptionExpiry : option Date;
  apiUsage : option ApiUsage.t;
  preferences : option Preferences.t;
  createdAt : Date;
  updatedAt : Date;
  __v : Z
}.

#[global] Instance eq_dec : EqDecision t.
Proof. solve_decision. Defined.

Definition set_password (p : option string) (u : t) : t :=
  mk (_id u) (email u) p (name u) (subscriptionType u) (subscriptionExpiry u)
     (apiUsage u) (preferences u) (createdAt u) (updatedAt u) (__v u).

Definition set_name (n : string) (u : t) : t :=
  mk (_id u) (email u) (password u) n (subscriptionType u) (subscriptionExpiry u)
     (apiUsage u) (preferences u) (createdAt u) (updatedAt u) (__v u).

Definition set_apiUsage (a : option ApiUsage.t) (u : t) : t :=
  mk (_id u) (email u) (password u) (name u) (subscriptionType u) (subscriptionExpiry u)
     a (preferences u) (createdAt u) (updatedAt u) (__v u).

Definition set_preferences (p : option Preferences.t) (u : t) : t :=
  mk (_id u) (email u) (password u) (name u) (subscriptionType u) (subscriptionExpiry u)
     (apiUsage u) p (createdAt u) (updatedAt u) (__v u).

Definition set_updatedAt (d : Date) (u : t) : t :=
  mk (_id u) (email u) (password u) (name u) (subscriptionType u) (subscriptionExpiry u)
     (apiUsage u) (preferences u) (createdAt u) d (__v u).

(** [this.toObject(options)]: the paths the document holds. *)
Definition toObject (versionKey : bool) (u : t) : list (string * json) :=
  object
    [ ("_id", Some (JId (_id u)));
      ("email", Some (JStr (email u)));
      ("password", JStr <$> password u);
      ("name", Some (JStr (name u)));
      ("subscriptionType", JStr <$> subscriptionType u);
      ("subscriptionExpiry", Some (from_option JDate JNull (subscriptionExpiry u)));
      ("apiUsage", ApiUsage.toObject <$> apiUsage u);
      ("preferences", Preferences.toObject <$> preferences u);
      ("createdAt", Some (JDate (createdAt u)));
      ("updatedAt", Some (JDate (updatedAt u)));
      ("__v", if versionKey then Some (JNum (__v u)) else None) ].

(** [userSchema.methods.toJSON]. *)
Definition toJSON (u : t) : list (string * json) :=
  let obj := toObject false u in
  deleteProperty "password" obj.

End User.

(* ================================================================== *)
(** * models/Resume.js *)
(* ================================================================== *)

(** A [Number] path with [min: 0, max: 100]; the validators skip a path
    that is not set. *)
Definition percent (n : option Z) : bool :=
  match n with
  | None => true
  | Some n => (0 <=? n) && (n <=? 100)
  end.

Module AnalysisResults.
(** [analysisSchema]. *)
Record t := mk {
  score : option Z;
  suggestions : list string;
  keywords : list string;
  strengths : list string;
  weaknesses : list string;
  atsCompatibility : option Z
}.

#[global] Instance eq_dec : EqDecision t.
Proof. solve_decision. Defined.

Definition valid (a : t) : bool := percent (score a) && percent (atsCompatibility a).

Definition toObject (a : t) : json :=
  JObj (object
    [ ("score", JNum <$> score a);
      ("suggestions", Some (strings (suggestions a)));
      ("keywords", Some (strings (keywords a)));
      ("strengths", Some (strings (strengths a)));
      ("weaknesses", Some (strings (weaknesses a)));
      ("atsCompatibility", JNum <$> atsCompatibility a) ]).
End AnalysisResults.

Module JobMatch.
(** [jobMatchSchema]. *)
Record t := mk {
  jobTitle : string;
  companyName : string;
  matchScore : Z;
  matchedKeywords : list string;
  suggestions : list string;
  strengthAreas : list string;
  improvementAreas : list string;
  salaryNegotiationPoints : list string;
  createdAt : Date
}.

#[global] Instance eq_dec : EqDecision t.
Proof. solve_decision. Defined.

Definition valid (j : t) : bool := percent (Some (matchScore j)).

Definition toObject (j : t) : json :=
  JObj [ ("jobTitle", JStr (jobTitle j));
         ("companyName", JStr (companyName j));
         ("matchScore", JNum (matchScore j));
         ("matchedKeywords", strings (matchedKeywords j));
         ("suggestions", strings (suggestions j));
         ("strengthAreas", strings (strengthAreas j));
         ("improvementAreas", strings (improvementAreas j));
         ("salaryNegotiationPoints", strings (salaryNegotiationPoints j));
         ("createdAt", JDate (createdAt j)) ].
End JobMatch.

Module Version.
(** [versionSchema]. *)
Record t := mk { versionName : string; content : string; createdAt : Date }.

#[global] Instance eq_dec : EqDecision t.
Proof. solve_decision. Defined.

Definition toObject (v : t) : json :=
  JObj [ ("versionName", JStr (versionName v)); ("content", JStr (content v));
         ("createdAt", JDate (createdAt v)) ].
End Version.

Inductive FileType := pdf | docx | txt.

#[global] Instance FileType_eq_dec : EqDecision FileType.
Proof. solve_decision. Defined.

Inductive Status := uploaded | analyzing | analyzed | enhanced.

#[global] Instance Status_eq_dec : EqDecision Status.
Proof. solve_decision. Defined.

Definition FileType_toString (f : FileType) : string :=
  match f with pdf => "pdf" | docx => "docx" | txt => "txt" end.

Definition Status_toString (s : Status) : string :=
  match s with
  | uploaded => "uploaded" | analyzing => "analyzing"
  | analyzed => "analyzed" | enhanced => "enhanced"
  end.

Module Resume.
(** [resumeSchema], with the [_id] and the two timestamps Mongoose adds
    ([timestamps: true]). These are all the paths of the schema: what a
    handler assigns under another name is a property of the JavaScript
    object only. [__v] is Mongoose's version key. *)
Record t := mk {
  _id : ObjectId;
  userId : ObjectId;
  title : string;
  originalText : string;
  enhancedText : option string;
  fileName : string;
  fileType : FileType;
  analysisResults : option AnalysisResults.t;
  jobMatching : list JobMatch.t;
  versions : list Version.t;
  status : Status;
  createdAt : Date;
  updatedAt : Date;
  __v : Z
}.

#[global] Instance eq_dec : EqDecision t.
Proof. solve_decision. Defined.

Definition set_title (x : string) (r : t) : t :=
  mk (_id r) (userId r) x (originalText r) (enhancedText r) (fileName r) (fileType r)
     (analysisResults r) (jobMatching r) (versions r) (status r) (createdAt r) (updatedAt r) (__v r).

Definition set_enhancedText (x : option string) (r : t) : t :=
  mk (_id r) (userId r) (title r) (originalText r) x (fileName r) (fileType r)
     (analysisResults r) (jobMatching r) (versions r) (status r) (createdAt r) (updatedAt r) (__v r).

Definition set_analysisResults (x : option AnalysisResults.t) (r : t) : t :=
  mk (_id r) (userId r) (title r) (originalText r) (enhancedText r) (fileName r) (fileType r)
     x (jobMatching r) (versions r) (status r) (createdAt r) (updatedAt r) (__v r).

Definition set_jobMatching (x : list JobMatch.t) (r : t) : t :=
  mk (_id r) (userId r) (title r) (originalText r) (enhancedText r) (fileName r) (fileType r)
     (analysisResults r) x (versions r) (status r) (createdAt r) (updatedAt r) (__v r).

Definition set_status (x : Status) (r : t) : t :=
  mk (_id r) (userId r) (title r) (originalText r) (enhancedText r) (fileName r) (fileType r)
     (analysisResults r) (jobMatching r) (versions r) x (createdAt r) (updatedAt r) (__v r).

Definition set_createdAt (x : Date) (r : t) : t :=
  mk (_id r) (userId r) (title r) (originalText r) (enhancedText r) (fileName r) (fileType r)
     (analysisResults r) (jobMatching r) (versions r) (status r) x (updatedAt r) (__v r).

Definition set_updatedAt (x : Date) (r : t) : t :=
  mk (_id r) (userId r) (title r) (originalText r) (enhancedText r) (fileName r) (fileType r)
     (analysisResults r) (jobMatching r) (versions r) (status r) (createdAt r) x (__v r).

Definition set___v (x : Z) (r : t) : t :=
  mk (_id r) (userId r) (title r) (originalText r) (enhancedText r) (fileName r) (fileType r)
     (analysisResults r) (jobMatching r) (versions r) (status r) (createdAt r) (updatedAt r) x.

(** What [save] does to the version key of a loaded document [old] changed
    to [doc]: a change of an array path ([push] on [jobMatching]) is written
    with [$inc: { __v: 1 }]; a change of the other paths leaves the key. *)
Definition versioned (old doc : t) : t :=
  if decide (jobMatching old = jobMatching doc /\ versions old = versions doc)
  then doc
  else set___v (__v doc + 1) doc.

(** The validators of the paths of a document: [required] on a string
    rejects the empty string, [maxlength] bounds the title, [min] and [max]
    bound the scores of the embedded documents; the two enums hold by type.
    [save] runs them on every path of a new document and on every path a
    loaded document holds, modified or not. *)
Definition validNew (r : t) : bool :=
  negb (String.eqb (title r) "") && (strlen (title r) <=? 200)
  && negb (String.eqb (originalText r) "")
  && negb (String.eqb (fileName r) "")
  && from_option AnalysisResults.valid true (analysisResults r)
  && forallb JobMatch.valid (jobMatching r).

(** [toJSON] of a document with every path selected. *)
Definition toJSON (r : t) : json :=
  JObj (object
    [ ("_id", Some (JId (_id r)));
      ("userId", Some (JId (userId r)));
      ("title", Some (JStr (title r)));
      ("originalText", Some (JStr (originalText r)));
      ("enhancedText", JStr <$> enhancedText r);
      ("fileName", Some (JStr (fileName r)));
      ("fileType", Some (JStr (FileType_toString (fileType r))));
      ("analysisResults", AnalysisResults.toObject <$> analysisResults r);
      ("jobMatching", Some (JArr (map JobMatch.toObject (jobMatching r))));
      ("versions", Some (JArr (map Version.toObject (versions r))));
      ("status", Some (JStr (Status_toString (status r))));
      ("createdAt", Some (JDate (createdAt r)));
      ("updatedAt", Some (JDate (updatedAt r)));
      ("__v", Some (JNum (__v r))) ]).

End Resume.

(* ================================================================== *)
(** * Requests, responses and the handler monad *)
(* ================================================================== *)

Module Res.
(** The response envelope: [res.status(status).json(body)]. *)
Record t := mk {
  status : Z;
  success : bool;
  message : option string;
  data : option json;
  error : option string;
  requestId : string
}.
End Res.

Module Req.

(** The [Authorization] header as [authenticateToken] sees it: no token,
    a token [jwt.verify] rejects, or the verified payload. *)
Inductive Authorization :=
| NoToken
| BadToken
| Verified (userId : ObjectId) (email : string).

(** [req.params.resumeId] as [mongoose.Types.ObjectId.isValid] sees it. *)
Inductive Param :=
| InvalidId
| ValidId (o : ObjectId).

(** [req.file] after multer's [fileFilter]: one of the three media types. *)
Record File := mkFile { mimetype : FileType; originalname : string; buffer : string }.

Record t := mk {
  requestId : string;
  authorization : Authorization;
  resumeId : Param;
  body : gmap string json;
  file : option File
}.

End Req.

(** The payload [jwt.verify] returns: [req.user]. *)
Record Claims := mkClaims { userId : ObjectId; claimedEmail : string }.

Module Live.
(** What the live model returns for a prompt, after [JSON.parse] where the
    service parses it: the call or the parse throws, or the reply is an
    object of the shape the prompt asks for, any key possibly missing. *)
Record Analysis := mkAnalysis {
  score : option Z;
  strengths : option (list string);
  weaknesses : option (list string);
  keywords : option (list string);
  atsCompatibility : option Z;
  suggestions : option (list string)
}.

Record Match := mkMatch {
  matchScore : option Z;
  matchedKeywords : option (list string);
  missingKeywords : option (list string);
  m_suggestions : option (list string);
  strengthAreas : option (list string);
  improvementAreas : option (list string);
  salaryNegotiationPoints : option (list string)
}.

Record Model := mkModel {
  analyze : string -> Try Analysis;
  enhance : string -> string -> string -> Try string;
  matchJob : string -> string -> string -> json -> Try Match
}.
End Live.

Module Env.
(** What a request reads from the process and its collaborators. *)
Record t := mk {
  now : Date;                               (* [new Date()] *)
  development : bool;                       (* [NODE_ENV === 'development'] *)
  newId : ObjectId;                         (* the [_id] of a [new] document *)
  pdfParse : string -> Try string;          (* [pdfParse(buffer)] then [.text] *)
  extractRawText : string -> Try string;    (* mammoth, then [.value] *)
  useMock : bool;                           (* [googleAI.useMock] *)
  model : Live.Model;                       (* [googleAI.model] *)
  hash : string -> string;                  (* [bcrypt.hash(_, 12)] *)
  compare : string -> string -> bool;       (* [bcrypt.compare] *)
  (* [jwt.sign({ userId, email }, secret, { expiresIn: '7d' })] at an
     instant: the token carries the second it was issued at *)
  sign : Date -> ObjectId -> string -> string;
  (* Joi: the message of the first error, or the validated name, email
     and password *)
  regSchema : gmap string json -> string + (string * string * string);
  logSchema : gmap string json -> string + (string * string)
}.
End Env.

(** What the history of a run records: the resumes collection at the
    moment the generation service is called. *)
Inductive Event :=
| Generate (collection : gmap ObjectId Resume.t).

Module World.
(** The two collections, and what the environment will do next: whether
    the coming database calls fail ([Some e]: the call throws [e]; nothing
    scheduled: it goes through) and the coming draws of [Math.random], each
    a numerator [k] of [k / 2^53]. *)
Record t := mk {
  users : gmap ObjectId User.t;
  resumes : gmap ObjectId Resume.t;
  faults : list (option Error);
  random : list Z;
  log : list Event
}.

Definition set_users (x : gmap ObjectId User.t) (w : t) : t :=
  mk x (resumes w) (faults w) (random w) (log w).

Definition set_resumes (x : gmap ObjectId Resume.t) (w : t) : t :=
  mk (users w) x (faults w) (random w) (log w).

Definition set_faults (x : list (option Error)) (w : t) : t :=
  mk (users w) (resumes w) x (random w) (log w).

Definition set_random (x : list Z) (w : t) : t :=
  mk (users w) (resumes w) (faults w) x (log w).

Definition set_log (x : list Event) (w : t) : t :=
  mk (users w) (resumes w) (faults w) (random w) x.
End World.

(** The three ways a piece of handler code ends. *)
Inductive Outcome (A : Type) :=
| Returns (a : A)
| Throws (e : Error)
| Sends (r : Res.t).
Arguments Returns {A} a.
Arguments Throws {A} e.
Arguments Sends {A} r.

Definition M (A : Type) : Type := World.t -> Outcome A * World.t.

Definition ret {A} (a : A) : M A := fun w => (Returns a, w).

Definition bind {A B} (m : M A) (k : A -> M B) : M B :=
  fun w =>
    match m w with
    | (Returns a, w') => k a w'
    | (Throws e, w') => (Throws e, w')
    | (Sends r, w') => (Sends r, w')
    end.

Notation "'let*' x ':=' m 'in' k" := (bind m (fun x => k))
  (at level 10, x name, m at level 200, k at level 200, only parsing).

Definition throw {A} (e : Error) : M A := fun w => (Throws e, w).

(** [return res.status(..).json(..)] *)
Definition send {A} (r : Res.t) : M A := fun w => (Sends r, w).

(** [try { body } catch (error) { handler }] *)
Definition tryCatch {A} (body : M A) (handler : Error -> M A) : M A :=
  fun w =>
    match body w with
    | (Throws e, w') => handler e w'
    | other => other
    end.

Definition gets {A} (f : World.t -> A) : M A := fun w => (Returns (f w), w).

Definition modify (f : World.t -> World.t) : M unit := fun w => (Returns tt, f w).

Definition attempt {A} (t : Try A) : M A :=
  match t with
  | Fails e => throw e
  | Gives a => ret a
  end.

Definition TypeError (msg : string) : Error := mkError "TypeError" msg.

(** The double nearest to [m / 2^53], as a numerator over [2^53], for
    [0 <= m]: a double holds 53 significant bits, so the [s] bits of [m]
    beyond them are rounded away, to nearest and on a tie to the even
    significand. *)
Definition nearestDouble (m : Z) : Z :=
  let s := Z.log2 m + 1 - 53 in
  if s <=? 0 then m
  else
    let q := m / 2 ^ s in
    let r := m mod 2 ^ s in
    let half := 2 ^ (s - 1) in
    if (half <? r) || ((r =? half) && Z.odd q) then (q + 1) * 2 ^ s else q * 2 ^ s.

(** [Math.floor(Math.random() * n)] for an integer [n]: the draw is the
    double [k / 2^53] with [0 <= k < 2^53] (the engines draw 52 or 53
    random bits), the product is rounded to a double, and the floor is
    that of the rounded product. With no draw scheduled the draw is 0. *)
Definition randomBelow (n : Z) : M Z :=
  fun w =>
    match World.random w with
    | [] => (Returns 0, w)
    | k :: rest =>
        (Returns (nearestDouble ((k mod 2 ^ 53) * n) / 2 ^ 53), World.set_random rest w)
    end.

(* ================================================================== *)
(** * Mongoose: queries and saves *)
(* ================================================================== *)

Module Db.

(** One round trip to MongoDB: it fails when the environment says so. *)
Definition call : M unit :=
  fun w =>
    match World.faults w with
    | [] => (Returns tt, w)
    | None :: rest => (Returns tt, World.set_faults rest w)
    | Some e :: rest => (Throws e, World.set_faults rest w)
    end.

(** What [save] throws when a validator fails. Mongoose's message goes on
    with the failing paths; the model keeps its head. *)
Definition ValidationError (model : string) : Error :=
  mkError "ValidationError" (model ++ " validation failed").

Definition DuplicateKey : Error := mkError "MongoServerError" "E11000 duplicate key error".

(** [save] on a document that is no longer in its collection. *)
Definition DocumentNotFound : Error :=
  mkError "DocumentNotFoundError" "No document found for query".

End Db.

Module Users.

(** The values of the two [enum] paths. *)
Definition tiers : list string := [ "free"; "premium"; "enterprise" ].
Definition themes : list string := [ "light"; "dark" ].

(** An [enum] validator: it accepts a path that is not set and the listed
    strings. *)
Definition enum (values : list string) (v : option string) : bool :=
  match v with
  | None => true
  | Some s => existsb (String.eqb s) values
  end.

(** Hydration: a path the stored document lacks takes the default of the
    schema, [subscriptionType: 'free'] ([subscriptionExpiry: null] is
    [None] already). Such a path is written with the next [save]. *)
Definition hydrate (u : User.t) : User.t :=
  User.mk (User._id u) (User.email u) (User.password u) (User.name u)
          (Some (default "free" (User.subscriptionType u))) (User.subscriptionExpiry u)
          (User.apiUsage u) (User.preferences u) (User.createdAt u) (User.updatedAt u)
          (User.__v u).

(** The document a query on [User] returns for a stored one: hydrated, and
    without [password] ([select: false]) unless it is asked for with
    [select('+password')]. *)
Definition project (withPassword : bool) (u : User.t) : User.t :=
  hydrate (if withPassword then u else User.set_password None u).

(** The document whose [_id] is [id]; the collection is indexed by [_id]. *)
Definition byId (id : ObjectId) (users : gmap ObjectId User.t) : option User.t :=
  match users !! id with
  | Some u => if decide (User._id u = id) then Some u else None
  | None => None
  end.

(** [User.findById(id)] *)
Definition findById (id : ObjectId) : M (option User.t) :=
  let* _ := Db.call in
  let* users := gets World.users in
  ret (project false <$> byId id users).

Definition byEmail (email : string) (users : gmap ObjectId User.t) : option User.t :=
  List.find (fun u => String.eqb (User.email u) email) (map_to_list users).*2.

(** The setters of the [email] path: [lowercase] and [trim]. *)
Definition castEmail (email : string) : string := toLowerCase (trim email).

(** [User.findOne({ email })], with or without [select('+password')]; the
    filter is cast like the path. *)
Definition findOne (withPassword : bool) (email : string) : M (option User.t) :=
  let* _ := Db.call in
  let* users := gets World.users in
  ret (project withPassword <$> byEmail (castEmail email) users).

(** The validators [save] runs on a document that a query loaded: those
    of every path it holds. [required] on a string rejects the empty
    string; [password] ([required], [minlength: 6]) is validated only when
    it was selected; the two enums are [subscriptionType] and
    [preferences.theme]. *)
Definition valid (u : User.t) : bool :=
  negb (String.eqb (User.email u) "")
  && negb (String.eqb (User.name u) "")
  && match User.password u with
     | Some p => 6 <=? strlen p
     | None => true
     end
  && enum tiers (User.subscriptionType u)
  && enum themes (Preferences.theme <$> User.preferences u).

(** The validators of a new user: those of every path, with [minlength: 6]
    on the password as it was given. *)
Definition validNew (u : User.t) : bool :=
  negb (String.eqb (User.email u) "")
  && negb (String.eqb (User.name u) "")
  && match User.password u with
     | Some p => 6 <=? strlen p
     | None => false
     end
  && enum tiers (User.subscriptionType u)
  && enum themes (Preferences.theme <$> User.preferences u).

(** [user.save()] on a new document: validation, then the [pre('save')]
    hook that hashes the password, then the insert. *)
Definition create (env : Env.t) (doc : User.t) : M User.t :=
  if negb (validNew doc) then throw (Db.ValidationError "User") else
  let hashed := User.set_password (Env.hash env <$> User.password doc) doc in
  let* _ := Db.call in
  let* users := gets World.users in
  match users !! User._id hashed, byEmail (User.email hashed) users with
  | None, None =>
      let* _ := modify (World.set_users (<[User._id hashed := hashed]> users)) in
      ret hashed
  | _, _ => throw Db.DuplicateKey
  end.

(** [user.save()] on a document [loaded] by a query and changed to [doc] on
    paths other than [password]: every path the document holds is
    validated; [updatedAt] is refreshed if a path was modified; then one
    round trip writes the modified paths and the defaults hydration filled
    in (and only looks the document up when there is nothing to write).
    The stored password is not among the paths written. *)
Definition save (env : Env.t) (loaded doc : User.t) : M User.t :=
  if negb (valid doc) then throw (Db.ValidationError "User") else
  let doc' := if decide (loaded = doc) then doc else User.set_updatedAt (Env.now env) doc in
  let* _ := Db.call in
  let* users := gets World.users in
  match byId (User._id doc) users with
  | None => throw Db.DocumentNotFound
  | Some stored =>
      let* _ :=
        modify (World.set_users
                  (<[User._id doc := User.set_password (User.password stored) doc']> users)) in
      ret doc'
  end.

(** [User.findByIdAndUpdate(id, update, { new: true })] for an update of
    [name] and of paths under [preferences]. *)
Definition findByIdAndUpdate (env : Env.t) (id : ObjectId) (update : User.t -> User.t)
  : M (option User.t) :=
  let* _ := Db.call in
  let* users := gets World.users in
  match byId id users with
  | None => ret None
  | Some u =>
      let u' := User.set_updatedAt (Env.now env) (update u) in
      let* _ := modify (World.set_users (<[id := u']> users)) in
      ret (Some (project false u'))
  end.

End Users.

Module Resumes.

(** The document whose [_id] is [id]; the collection is indexed by [_id]. *)
Definition byId (id : ObjectId) (resumes : gmap ObjectId Resume.t) : option Resume.t :=
  match resumes !! id with
  | Some r => if decide (Resume._id r = id) then Some r else None
  | None => None
  end.

(** The filter [{ _id: id, userId: owner }]. *)
Definition owned (id owner : ObjectId) (resumes : gmap ObjectId Resume.t) : option Resume.t :=
  match byId id resumes with
  | Some r => if decide (Resume.userId r = owner) then Some r else None
  | None => None
  end.

(** [Resume.findOne({ _id: id, userId: owner })] *)
Definition findOne (id owner : ObjectId) : M (option Resume.t) :=
  let* _ := Db.call in
  let* resumes := gets World.resumes in
  ret (owned id owner resumes).

(** [Resume.findOne({ userId: owner, fileName })] *)
Definition findOneByFileName (owner : ObjectId) (fileName : string) : M (option Resume.t) :=
  let* _ := Db.call in
  let* resumes := gets World.resumes in
  ret (List.find
         (fun r => bool_decide (Resume.userId r = owner) && String.eqb (Resume.fileName r) fileName)
         (map_to_list resumes).*2).

(** [Resume.countDocuments(filter)] *)
Definition countDocuments (filter : Resume.t -> bool) : M Z :=
  let* _ := Db.call in
  let* resumes := gets World.resumes in
  ret (Z.of_nat (List.length (List.filter filter (map_to_list resumes).*2))).

(** [resume.save()] on a new document: validation, the timestamps, the
    insert. *)
Definition create (env : Env.t) (doc : Resume.t) : M Resume.t :=
  if negb (Resume.validNew doc) then throw (Db.ValidationError "Resume") else
  let doc' := Resume.set_updatedAt (Env.now env) (Resume.set_createdAt (Env.now env) doc) in
  let* _ := Db.call in
  let* resumes := gets World.resumes in
  match resumes !! Resume._id doc' with
  | Some _ => throw Db.DuplicateKey
  | None =>
      let* _ := modify (World.set_resumes (<[Resume._id doc' := doc']> resumes)) in
      ret doc'
  end.

(** [resume.save()] on a document [loaded] by a query and changed to
    [doc]: every path is validated; if a path was modified [updatedAt] is
    refreshed and the version key is incremented when an array changed;
    then one round trip writes the modified paths (and only looks the
    document up when there is nothing to write). *)
Definition save (env : Env.t) (loaded doc : Resume.t) : M Resume.t :=
  if negb (Resume.validNew doc) then throw (Db.ValidationError "Resume") else
  let* _ := Db.call in
  let* resumes := gets World.resumes in
  match byId (Resume._id doc) resumes with
  | None => throw Db.DocumentNotFound
  | Some _ =>
      if decide (loaded = doc) then ret doc
      else
        let doc' := Resume.set_updatedAt (Env.now env) (Resume.versioned loaded doc) in
        let* _ := modify (World.set_resumes (<[Resume._id doc := doc']> resumes)) in
        ret doc'
  end.

(** [Resume.findOneAndUpdate({ _id: id, userId: owner }, { title }, { new: true })] *)
Definition findOneAndUpdateTitle (env : Env.t) (id owner : ObjectId) (title : string)
  : M (option Resume.t) :=
  let* _ := Db.call in
  let* resumes := gets World.resumes in
  match owned id owner resumes with
  | None => ret None
  | Some r =>
      let r' := Resume.set_updatedAt (Env.now env) (Resume.set_title title r) in
      let* _ := modify (World.set_resumes (<[id := r']> resumes)) in
      ret (Some r')
  end.

(** [Resume.findOneAndDelete({ _id: id, userId: owner })] *)
Definition findOneAndDelete (id owner : ObjectId) : M (option Resume.t) :=
  let* _ := Db.call in
  let* resumes := gets World.resumes in
  match owned id owner resumes with
  | None => ret None
  | Some r =>
      let* _ := modify (World.set_resumes (delete id resumes)) in
      ret (Some r)
  end.

(** [Resume.findByIdAndUpdate(id, { status })]: the filter is the [_id]
    alone. *)
Definition findByIdAndUpdateStatus (env : Env.t) (id : ObjectId) (status : Status)
  : M (option Resume.t) :=
  let* _ := Db.call in
  let* resumes := gets World.resumes in
  match byId id resumes with
  | None => ret None
  | Some r =>
      let r' := Resume.set_updatedAt (Env.now env) (Resume.set_status status r) in
      let* _ := modify (World.set_resumes (<[id := r']> resumes)) in
      ret (Some r)
  end.

End Resumes.

(* ================================================================== *)
(** * middleware/auth.js and the validation middleware of the routers *)
(* ================================================================== *)

Module Middleware.

(** [{ success: false, message, requestId }] *)
Definition failure (status : Z) (message : string) (req : Req.t) : Res.t :=
  Res.mk status false (Some message) None None (Req.requestId req).

(** [{ success: false, message, error, requestId }] *)
Definition failureWith (status : Z) (message error : string) (req : Req.t) : Res.t :=
  Res.mk status false (Some message) None (Some error) (Req.requestId req).

(** [{ success: true, message, data, requestId }], status 200 *)
Definition success (message : string) (data : json) (req : Req.t) : Res.t :=
  Res.mk 200 true (Some message) (Some data) None (Req.requestId req).

(** [process.env.NODE_ENV === 'development' ? error.message : 'Internal server error'] *)
Definition detail (env : Env.t) (e : Error) : string :=
  if Env.development env then errMessage e else "Internal server error".

Definition validateResumeId (req : Req.t) : M ObjectId :=
  match Req.resumeId req with
  | Req.InvalidId => send (failure 400 "Invalid resume ID format" req)
  | Req.ValidId id => ret id
  end.

Definition authenticateToken (req : Req.t) : M Claims :=
  match Req.authorization req with
  | Req.NoToken => send (failure 401 "Token required" req)
  | Req.BadToken => send (failure 403 "Invalid or expired token" req)
  | Req.Verified id email => ret (mkClaims id email)
  end.

(** [now.getMonth() !== reset.getMonth() || now.getFullYear() !== reset.getFullYear()] *)
Definition newMonth (now reset : Date) : bool :=
  negb (getMonth now =? getMonth reset) || negb (getFullYear now =? getFullYear reset).

(** The two assignments under that test. *)
Definition resetIfNewMonth (now : Date) (usage : ApiUsage.t) : ApiUsage.t :=
  if newMonth now (ApiUsage.lastReset usage)
  then ApiUsage.mk 0 now (ApiUsage.total usage)
  else usage.

(** [{ free: 5, premium: 100, enterprise: 1000 }] *)
Definition limits : list (string * Z) := [ ("free", 5); ("premium", 100); ("enterprise", 1000) ].

(** [user.apiUsage.monthly += 1] *)
Definition increment (usage : ApiUsage.t) : ApiUsage.t :=
  ApiUsage.mk (ApiUsage.monthly usage + 1) (ApiUsage.lastReset usage) (ApiUsage.total usage).

Definition checkApiLimit (env : Env.t) (req : Req.t) (claims : Claims) : M unit :=
  tryCatch
    (let* found := Users.findById (userId claims) in
     match found with
     | None => send (failure 404 "User not found" req)
     | Some user =>
         let now := Env.now env in
         match User.apiUsage user with
         | None => throw (TypeError "Cannot read properties of undefined (reading 'lastReset')")
         | Some usage =>
             let usage := resetIfNewMonth now usage in
             let limit := orElse (property limits (User.subscriptionType user)) 5 in
             if ge (ApiUsage.monthly usage) limit
             then send (failure 429 "Monthly API limit exceeded" req)
             else
               let* _ := Users.save env user (User.set_apiUsage (Some (increment usage)) user) in
               ret tt
         end
     end)
    (fun error => send (failureWith 500 "API limit check failed" (errMessage error) req)).

(** [!v || typeof v !== 'string' || v.trim().length === 0], and the
    trimmed string when the test fails. *)
Definition requiredString (v : option json) : option string :=
  match v with
  | Some (JStr s) => if strlen (trim s) =? 0 then None else Some (trim s)
  | _ => None
  end.

(** [validateEnhanceRequest]: the sanitized [targetRole] and
    [targetIndustry]. *)
Definition validateEnhanceRequest (req : Req.t) : M (string * string) :=
  match requiredString (Req.body req !! "targetRole") with
  | None => send (failure 400 "Target role is required and must be a valid string" req)
  | Some targetRole =>
      match requiredString (Req.body req !! "targetIndustry") with
      | None => send (failure 400 "Target industry is required and must be a valid string" req)
      | Some targetIndustry => ret (targetRole, targetIndustry)
      end
  end.

(** [if (companyName) req.body.companyName = companyName.trim()]: a truthy
    value that is not a string has no [trim]. *)
Definition sanitizeCompanyName (v : option json) : M (option json) :=
  if truthy v then
    match v with
    | Some (JStr s) => ret (Some (JStr (trim s)))
    | _ => throw (TypeError "companyName.trim is not a function")
    end
  else ret v.

(** [validateMatchRequest]: the sanitized [jobTitle], [jobDescription] and
    [companyName]. *)
Definition validateMatchRequest (req : Req.t) : M (string * string * option json) :=
  match requiredString (Req.body req !! "jobTitle") with
  | None => send (failure 400 "Job title is required and must be a valid string" req)
  | Some jobTitle =>
      match requiredString (Req.body req !! "jobDescription") with
      | None => send (failure 400 "Job description is required and must be a valid string" req)
      | Some jobDescription =>
          let* companyName := sanitizeCompanyName (Req.body req !! "companyName") in
          ret (jobTitle, jobDescription, companyName)
      end
  end.

(** The error-handling middleware of [server.js], for what a middleware
    throws outside any [try]: the errors of this model carry no [status].
    Of [err.stack] the model keeps the first line. *)
Definition errorHandler (env : Env.t) (req : Req.t) (err : Error) : Res.t :=
  Res.mk 500 false (Some (errMessage err)) None
         (if Env.development env then Some (errName err ++ ": " ++ errMessage err) else None)
         (Req.requestId req).

(** A route: the chain runs until a response is sent. *)
Definition route (env : Env.t) (req : Req.t) (chain : M Res.t) (w : World.t) : Res.t * World.t :=
  match chain w with
  | (Returns r, w') => (r, w')
  | (Sends r, w') => (r, w')
  | (Throws e, w') => (errorHandler env req e, w')
  end.

(** The answer of the route whose chain is [handler]. *)
Definition run (env : Env.t) (req : Req.t) (handler : Env.t -> Req.t -> M Res.t)
    (w : World.t) : Res.t * World.t :=
  route env req (handler env req) w.

End Middleware.

Import Middleware.

(* ================================================================== *)
(** * services/googleAI.js *)
(* ================================================================== *)

Module GoogleAI.

(** The call of a service method, recorded with the collection as it is
    at that moment. *)
Definition called : M unit :=
  modify (fun w => World.set_log (World.log w ++ [Generate (World.resumes w)]) w).

Definition getMockAnalysis : M Live.Analysis :=
  let* s := randomBelow 20 in
  let* a := randomBelow 15 in
  ret (Live.mkAnalysis
         (Some (s + 75))
         (Some ["Strong technical background"; "Relevant experience"; "Good education"])
         (Some ["Needs more metrics"; "Missing keywords"; "Could improve formatting"])
         (Some ["JavaScript"; "React"; "Node.js"; "MongoDB"; "Express"])
         (Some (a + 80))
         (Some ["Add quantified achievements"; "Include industry-specific keywords";
                "Improve ATS formatting"; "Use stronger action verbs"])).

Definition newline : string := String (ascii_of_nat 10) EmptyString.

Definition getMockEnhancement (resumeText targetRole targetIndustry : string) : string :=
  "[ENHANCED FOR " ++ targetRole ++ " IN " ++ targetIndustry ++ "]" ++ newline ++ newline
  ++ resumeText ++ newline ++ newline
  ++ "[This resume has been optimized with relevant keywords and improved formatting for the "
  ++ targetRole ++ " position in the " ++ targetIndustry ++ " industry.]".

Definition getMockJobMatch : M Live.Match :=
  let* s := randomBelow 30 in
  ret (Live.mkMatch
         (Some (s + 65))
         (Some ["JavaScript"; "React"; "Problem solving"; "Team work"])
         (Some ["Python"; "AWS"; "Docker"; "Kubernetes"])
         (Some ["Add cloud computing experience"; "Highlight leadership skills";
                "Include specific project metrics"; "Mention agile methodologies"])
         (Some ["Technical skills"; "Experience level"; "Education background"])
         (Some ["Cloud technologies"; "Leadership experience"; "Certifications"])
         (Some ["Strong technical foundation"; "Relevant project experience";
                "Industry knowledge"])).

Definition analyzeResume (env : Env.t) (resumeText : string) : M Live.Analysis :=
  let* _ := called in
  if Env.useMock env then getMockAnalysis
  else tryCatch (attempt (Live.analyze (Env.model env) resumeText))
                (fun _ => getMockAnalysis).

Definition enhanceResume (env : Env.t) (resumeText targetRole targetIndustry : string)
  : M string :=
  let* _ := called in
  if Env.useMock env then ret (getMockEnhancement resumeText targetRole targetIndustry)
  else tryCatch (attempt (Live.enhance (Env.model env) resumeText targetRole targetIndustry))
                (fun _ => ret (getMockEnhancement resumeText targetRole targetIndustry)).

(** [companyName = ''] is the default of the parameter: it replaces
    [undefined] only. *)
Definition matchJobDescription (env : Env.t) (resumeText jobTitle jobDescription : string)
    (companyName : option json) : M Live.Match :=
  let* _ := called in
  if Env.useMock env then getMockJobMatch
  else tryCatch
         (attempt (Live.matchJob (Env.model env) resumeText jobTitle jobDescription
                                 (from_option id (JStr "") companyName)))
         (fun _ => getMockJobMatch).

End GoogleAI.

(* ================================================================== *)
(** * routes/resume.js *)
(* ================================================================== *)

Module ResumeRoutes.

(** The text of the uploaded file, by media type. *)
Definition extraction (env : Env.t) (file : Req.File) : Try string :=
  match Req.mimetype file with
  | pdf => Env.pdfParse env (Req.buffer file)
  | docx => Env.extractRawText env (Req.buffer file)
  | txt => Gives (Req.buffer file)
  end.

(** [req.body.title || req.file.originalname.split('.')[0]] as the [title]
    path takes it ([trim: true]). The fields of a multipart body are
    strings, or arrays and objects, which the path cannot cast ([None]):
    [save] then throws. *)
Definition titleOf (req : Req.t) (file : Req.File) : option string :=
  let title := Req.body req !! "title" in
  if truthy title then
    match title with
    | Some (JStr s) => Some (trim s)
    | _ => None
    end
  else Some (trim (beforeFirstDot (Req.originalname file))).

(** [extractedText.substring(0, 500) + (extractedText.length > 500 ? '...' : '')] *)
Definition truncated (extractedText : string) : string :=
  prefix 500 extractedText ++ (if 500 <? strlen extractedText then "..." else "").

(** [POST /upload]; what multer itself rejects (no multipart body, a file
    over 10 MB, another media type) is answered before the handler. *)
Definition upload (env : Env.t) (req : Req.t) : M Res.t :=
  let* claims := authenticateToken req in
  tryCatch
    (match Req.file req with
     | None => send (failure 400 "No file uploaded" req)
     | Some file =>
         let* extractedText :=
           tryCatch (attempt (extraction env file))
             (fun parseError =>
                send (failureWith 400
                        "Error parsing file content. Please ensure the file is not corrupted."
                        (if Env.development env then errMessage parseError
                         else "File parsing failed") req)) in
         let fileType := Req.mimetype file in
         if strlen (trim extractedText) =? 0
         then send (failure 400 "No text content found in the uploaded file" req)
         else
           let* existingResume :=
             Resumes.findOneByFileName (userId claims) (Req.originalname file) in
           match existingResume with
           | Some _ => send (failure 409 "A resume with this filename already exists" req)
           | None =>
               let* title :=
                 match titleOf req file with
                 | Some title => ret title
                 | None => throw (Db.ValidationError "Resume")
                 end in
               let* resume :=
                 Resumes.create env
                   (Resume.mk (Env.newId env) (userId claims) title (trim extractedText) None
                              (Req.originalname file) fileType None [] [] uploaded
                              (Env.now env) (Env.now env) 0) in
               ret (success "Resume uploaded successfully"
                      (JObj [ ("resumeId", JId (Resume._id resume));
                              ("title", JStr (Resume.title resume));
                              ("extractedText", JStr (truncated extractedText));
                              ("fileName", JStr (Resume.fileName resume));
                              ("fileType", JStr (FileType_toString (Resume.fileType resume)));
                              ("status", JStr (Status_toString (Resume.status resume)));
                              ("createdAt", JDate (Resume.createdAt resume)) ])
                      req)
           end
     end)
    (fun error => ret (failureWith 500 "Error uploading resume" (detail env error) req)).

(** [GET /:resumeId] *)
Definition getResume (env : Env.t) (req : Req.t) : M Res.t :=
  let* resumeId := validateResumeId req in
  let* claims := authenticateToken req in
  tryCatch
    (let* found := Resumes.findOne resumeId (userId claims) in
     match found with
     | None => send (failure 404 "Resume not found" req)
     | Some resume =>
         ret (success "Resume retrieved successfully"
                (JObj [ ("resume", Resume.toJSON resume) ]) req)
     end)
    (fun error => ret (failureWith 500 "Error fetching resume" (detail env error) req)).

(** [{ resumeId: resume._id, title: resume.title }] *)
Definition idAndTitle (resume : Resume.t) : json :=
  JObj [ ("resumeId", JId (Resume._id resume)); ("title", JStr (Resume.title resume)) ].

(** [PUT /:resumeId/title] *)
Definition updateTitle (env : Env.t) (req : Req.t) : M Res.t :=
  let* resumeId := validateResumeId req in
  let* claims := authenticateToken req in
  tryCatch
    (let title := Req.body req !! "title" in
     if negb (truthy title) then send (failure 400 "Title is required" req)
     else
       match title with
       | Some (JStr s) =>
           if strlen (trim s) =? 0 then send (failure 400 "Title is required" req)
           else
             let* found :=
               Resumes.findOneAndUpdateTitle env resumeId (userId claims) (trim s) in
             match found with
             | None => send (failure 404 "Resume not found" req)
             | Some resume =>
                 ret (success "Resume title updated successfully" (idAndTitle resume) req)
             end
       | _ => throw (TypeError "title.trim is not a function")
       end)
    (fun error => ret (failureWith 500 "Error updating resume title" (detail env error) req)).

(** [DELETE /:resumeId] *)
Definition deleteResume (env : Env.t) (req : Req.t) : M Res.t :=
  let* resumeId := validateResumeId req in
  let* claims := authenticateToken req in
  tryCatch
    (let* found := Resumes.findOneAndDelete resumeId (userId claims) in
     match found with
     | None => send (failure 404 "Resume not found" req)
     | Some resume => ret (success "Resume deleted successfully" (idAndTitle resume) req)
     end)
    (fun error => ret (failureWith 500 "Error deleting resume" (detail env error) req)).

End ResumeRoutes.

(* ================================================================== *)
(** * routes/ai.js *)
(* ================================================================== *)

Module Document.
(** A hydrated document as a JavaScript object: the paths of the schema,
    and the properties assigned under names the schema does not declare.
    [save] writes the paths; a query hydrates a document with no such
    property. *)
Record t := mk { paths : Resume.t; properties : list (string * json) }.

Definition hydrate (r : Resume.t) : t := mk r [].

(** [doc[name] = value] for a name that is no path of the schema. *)
Definition assign (name : string) (value : json) (doc : t) : t :=
  mk (paths doc) ((name, value) :: deleteProperty name (properties doc)).

Definition update (f : Resume.t -> Resume.t) (doc : t) : t :=
  mk (f (paths doc)) (properties doc).
End Document.

Module AiRoutes.

Definition orEmpty (l : option (list string)) : list string := default [] l.

(** [resume.analysisResults = analysisResults]: the reply cast to
    [analysisSchema]. *)
Definition castAnalysis (a : Live.Analysis) : AnalysisResults.t :=
  AnalysisResults.mk (Live.score a) (orEmpty (Live.suggestions a)) (orEmpty (Live.keywords a))
                     (orEmpty (Live.strengths a)) (orEmpty (Live.weaknesses a))
                     (Live.atsCompatibility a).

(** The reply as it is written into a response. *)
Definition analysisJson (a : Live.Analysis) : json :=
  JObj (object
    [ ("score", JNum <$> Live.score a);
      ("strengths", strings <$> Live.strengths a);
      ("weaknesses", strings <$> Live.weaknesses a);
      ("keywords", strings <$> Live.keywords a);
      ("atsCompatibility", JNum <$> Live.atsCompatibility a);
      ("suggestions", strings <$> Live.suggestions a) ]).

Definition matchFields (m : Live.Match) : list (string * json) :=
  object
    [ ("matchScore", JNum <$> Live.matchScore m);
      ("matchedKeywords", strings <$> Live.matchedKeywords m);
      ("missingKeywords", strings <$> Live.missingKeywords m);
      ("suggestions", strings <$> Live.m_suggestions m);
      ("strengthAreas", strings <$> Live.strengthAreas m);
      ("improvementAreas", strings <$> Live.improvementAreas m);
      ("salaryNegotiationPoints", strings <$> Live.salaryNegotiationPoints m) ].

(** [POST /analyze/:resumeId] *)
Definition analyze (env : Env.t) (req : Req.t) : M Res.t :=
  let* resumeId := validateResumeId req in
  let* claims := authenticateToken req in
  let* _ := checkApiLimit env req claims in
  tryCatch
    (let* found := Resumes.findOne resumeId (userId claims) in
     match found with
     | None => send (failure 404 "Resume not found" req)
     | Some resume =>
         if String.eqb (Resume.originalText resume) ""
         then send (failure 400 "Resume has no content to analyze" req)
         else
           let* analyzingResume :=
             Resumes.save env resume (Resume.set_status analyzing resume) in
           let* analysisResults :=
             GoogleAI.analyzeResume env (Resume.originalText analyzingResume) in
           let* analyzedResume :=
             Resumes.save env analyzingResume
               (Resume.set_status analyzed
                  (Resume.set_analysisResults (Some (castAnalysis analysisResults))
                     analyzingResume)) in
           ret (success "Resume analyzed successfully"
                  (JObj [ ("resumeId", JId (Resume._id analyzedResume));
                          ("analysisResults", analysisJson analysisResults) ])
                  req)
     end)
    (fun error =>
       let* _ :=
         tryCatch (let* _ := Resumes.findByIdAndUpdateStatus env resumeId uploaded in ret tt)
                  (fun updateError => ret tt) in
       ret (failureWith 500 "Error analyzing resume" (detail env error) req)).

(** [POST /enhance/:resumeId] *)
Definition enhance (env : Env.t) (req : Req.t) : M Res.t :=
  let* resumeId := validateResumeId req in
  let* targets := validateEnhanceRequest req in
  let* claims := authenticateToken req in
  let* _ := checkApiLimit env req claims in
  tryCatch
    (let targetRole := fst targets in
     let targetIndustry := snd targets in
     let* found := Resumes.findOne resumeId (userId claims) in
     match found with
     | None => send (failure 404 "Resume not found" req)
     | Some resume =>
         if String.eqb (Resume.originalText resume) ""
         then send (failure 400 "Resume has no content to enhance" req)
         else
           let* enhancedText :=
             GoogleAI.enhanceResume env (Resume.originalText resume) targetRole targetIndustry in
           let document :=
             Document.assign "targetIndustry" (JStr targetIndustry)
               (Document.assign "targetRole" (JStr targetRole)
                  (Document.update (Resume.set_status enhanced)
                     (Document.update (Resume.set_enhancedText (Some enhancedText))
                        (Document.hydrate resume)))) in
           let* saved := Resumes.save env resume (Document.paths document) in
           ret (success "Resume enhanced successfully"
                  (JObj [ ("resumeId", JId (Resume._id saved));
                          ("enhancedText", JStr enhancedText);
                          ("targetRole", JStr targetRole);
                          ("targetIndustry", JStr targetIndustry) ])
                  req)
     end)
    (fun error => ret (failureWith 500 "Error enhancing resume" (detail env error) req)).

(** [companyName || 'Not specified']; the middleware left [companyName]
    falsy or a string. *)
Definition companyOrDefault (companyName : option json) : string :=
  match companyName with
  | Some (JStr s) => if String.eqb s "" then "Not specified" else s
  | _ => "Not specified"
  end.

(** The entry pushed on [jobMatching], cast to [jobMatchSchema]
    ([trim: true] on the two names). *)
Definition jobMatchOf (env : Env.t) (jobTitle : string) (companyName : option json)
    (matchResults : Live.Match) : JobMatch.t :=
  JobMatch.mk (trim jobTitle) (trim (companyOrDefault companyName))
              (default 0 (Live.matchScore matchResults))
              (orEmpty (Live.matchedKeywords matchResults))
              (orEmpty (Live.m_suggestions matchResults))
              (orEmpty (Live.strengthAreas matchResults))
              (orEmpty (Live.improvementAreas matchResults))
              (orEmpty (Live.salaryNegotiationPoints matchResults))
              (Env.now env).

(** [POST /match/:resumeId] *)
Definition matchResume (env : Env.t) (req : Req.t) : M Res.t :=
  let* resumeId := validateResumeId req in
  let* job := validateMatchRequest req in
  let* claims := authenticateToken req in
  let* _ := checkApiLimit env req claims in
  tryCatch
    (let jobTitle := fst (fst job) in
     let jobDescription := snd (fst job) in
     let companyName := snd job in
     let* found := Resumes.findOne resumeId (userId claims) in
     match found with
     | None => send (failure 404 "Resume not found" req)
     | Some resume =>
         if String.eqb (Resume.originalText resume) ""
         then send (failure 400 "Resume has no content to match" req)
         else
           let* matchResults :=
             GoogleAI.matchJobDescription env (Resume.originalText resume)
               jobTitle jobDescription companyName in
           let jobMatch := jobMatchOf env jobTitle companyName matchResults in
           let* saved :=
             Resumes.save env resume
               (Resume.set_jobMatching (Resume.jobMatching resume ++ [jobMatch]) resume) in
           ret (success "Job matching completed"
                  (JObj (("resumeId", JId (Resume._id saved)) :: matchFields matchResults))
                  req)
     end)
    (fun error => ret (failureWith 500 "Error matching resume with job" (detail env error) req)).

(** [GET /history/:resumeId] *)
Definition history (env : Env.t) (req : Req.t) : M Res.t :=
  let* resumeId := validateResumeId req in
  let* claims := authenticateToken req in
  tryCatch
    (let* found := Resumes.findOne resumeId (userId claims) in
     match found with
     | None => send (failure 404 "Resume not found" req)
     | Some selected =>
         let resume := Document.hydrate selected in
         let paths := Document.paths resume in
         ret (success "Resume history retrieved successfully"
                (JObj (object
                   [ ("resumeId", Some (JId (Resume._id paths)));
                     ("status", Some (JStr (Status_toString (Resume.status paths))));
                     ("targetRole", get "targetRole" (Document.properties resume));
                     ("targetIndustry", get "targetIndustry" (Document.properties resume));
                     ("analysisResults",
                      AnalysisResults.toObject <$> Resume.analysisResults paths);
                     ("jobMatching",
                      Some (JArr (map JobMatch.toObject (Resume.jobMatching paths))));
                     ("updatedAt", Some (JDate (Resume.updatedAt paths))) ]))
                req)
     end)
    (fun error => ret (failureWith 500 "Error retrieving resume history" (detail env error) req)).

End AiRoutes.

(* ================================================================== *)
(** * routes/auth.js and routes/user.js *)
(* ================================================================== *)

Module AuthRoutes.

(** [{ id: user._id, name: user.name, email: user.email,
       subscriptionType: user.subscriptionType }] *)
Definition publicUser (user : User.t) : json :=
  JObj (object
    [ ("id", Some (JId (User._id user)));
      ("name", Some (JStr (User.name user)));
      ("email", Some (JStr (User.email user)));
      ("subscriptionType", JStr <$> User.subscriptionType user) ]).

(** [{ token, user }] *)
Definition session (env : Env.t) (user : User.t) : json :=
  JObj [ ("token", JStr (Env.sign env (Env.now env) (User._id user) (User.email user)));
         ("user", publicUser user) ].

(** [new User({ name, email, password })]: the setters and the defaults of
    the schema. *)
Definition newUser (env : Env.t) (name email password : string) : User.t :=
  User.mk (Env.newId env) (Users.castEmail email) (Some password) (trim name)
          (Some "free") None None None (Env.now env) (Env.now env) 0.

(** [POST /register] *)
Definition register (env : Env.t) (req : Req.t) : M Res.t :=
  tryCatch
    (match Env.regSchema env (Req.body req) with
     | inl message => send (failure 400 message req)
     | inr (name, email, password) =>
         let* existingUser := Users.findOne false email in
         match existingUser with
         | Some _ => send (failure 400 "Email already exists" req)
         | None =>
             let* user := Users.create env (newUser env name email password) in
             ret (Res.mk 201 true (Some "User registered successfully")
                         (Some (session env user)) None (Req.requestId req))
         end
     end)
    (fun error =>
       ret (failureWith 500 "Server error during registration" (detail env error) req)).

(** [user.comparePassword(candidate)] *)
Definition comparePassword (env : Env.t) (user : User.t) (candidate : string) : M bool :=
  match User.password user with
  | Some hashed => ret (Env.compare env candidate hashed)
  | None => throw (mkError "Error" "Illegal arguments: string, undefined")
  end.

(** [POST /login] *)
Definition login (env : Env.t) (req : Req.t) : M Res.t :=
  tryCatch
    (match Env.logSchema env (Req.body req) with
     | inl message => send (failure 400 message req)
     | inr (email, password) =>
         let* found := Users.findOne true email in
         match found with
         | None => send (failure 401 "Invalid credentials" req)
         | Some user =>
             let* matches := comparePassword env user password in
             if negb matches then send (failure 401 "Invalid credentials" req)
             else ret (success "Login successful" (session env user) req)
         end
     end)
    (fun error => ret (failureWith 500 "Server error during login" (detail env error) req)).

(** [GET /me] *)
Definition me (env : Env.t) (req : Req.t) : M Res.t :=
  let* claims := authenticateToken req in
  tryCatch
    (let* found := Users.findById (userId claims) in
     match found with
     | None => send (failure 404 "User not found" req)
     | Some user =>
         ret (Res.mk 200 true None (Some (JObj [ ("user", JObj (User.toJSON user)) ])) None
                     (Req.requestId req))
     end)
    (fun error => ret (failureWith 500 "Server error" (detail env error) req)).

End AuthRoutes.

Module UserRoutes.

(** [GET /profile] *)
Definition getProfile (env : Env.t) (req : Req.t) : M Res.t :=
  let* claims := authenticateToken req in
  tryCatch
    (let* found := Users.findById (userId claims) in
     match found with
     | None => send (failure 404 "User not found" req)
     | Some user =>
         let* totalResumes :=
           Resumes.countDocuments
             (fun r => bool_decide (Resume.userId r = userId claims)) in
         let* analyzedResumes :=
           Resumes.countDocuments
             (fun r => bool_decide (Resume.userId r = userId claims)
                       && bool_decide (Resume.status r = analyzed ∨ Resume.status r = enhanced)) in
         let stats :=
           JObj (object
             [ ("totalResumes", Some (JNum totalResumes));
               ("analyzedResumes", Some (JNum analyzedResumes));
               ("apiUsage", ApiUsage.toObject <$> User.apiUsage user) ]) in
         ret (success "Profile retrieved successfully"
                (JObj [ ("user", JObj (User.toObject true user ++ [ ("stats", stats) ])) ])
                req)
     end)
    (fun error => ret (failureWith 500 "Error fetching profile" (detail env error) req)).

(** The schema's defaults, which hydration gives the paths of an embedded
    [preferences] that the update created. *)
Definition defaultPreferences : Preferences.t := Preferences.mk "light" "en" true.

Definition setPreference (f : Preferences.t -> Preferences.t) (u : User.t) : User.t :=
  User.set_preferences (Some (f (default defaultPreferences (User.preferences u)))) u.

(** [updateData.name]: [if (name && name.trim().length > 0)] *)
Definition nameUpdate (name : option json) : Try (User.t -> User.t) :=
  if truthy name then
    match name with
    | Some (JStr s) => Gives (if 0 <? strlen (trim s) then User.set_name (trim s) else id)
    | _ => Fails (TypeError "name.trim is not a function")
    end
  else Gives id.

(** [updateData['preferences.theme']] *)
Definition themeUpdate (preferences : list (string * json)) : User.t -> User.t :=
  match get "theme" preferences with
  | Some (JStr s) =>
      if String.eqb s "light" || String.eqb s "dark"
      then setPreference (fun p => Preferences.mk s (Preferences.language p)
                                                  (Preferences.notifications p))
      else id
  | _ => id
  end.

(** The cast of a value to a [String] path: an array or an object has none
    (a parsed body holds no other kind of value). *)
Definition castString (v : json) : option string :=
  match v with
  | JStr s => Some s
  | JNum n => Some (pretty n)
  | JBool b => Some (if b then "true" else "false")
  | _ => None
  end.

(** [updateData['preferences.language']]; the update fails on a value the
    path cannot cast. *)
Definition languageUpdate (preferences : list (string * json)) : option (User.t -> User.t) :=
  let language := get "language" preferences in
  if truthy language then
    match language ≫= castString with
    | Some s => Some (setPreference (fun p => Preferences.mk (Preferences.theme p) s
                                                             (Preferences.notifications p)))
    | None => None
    end
  else Some id.

(** [updateData['preferences.notifications']] *)
Definition notificationsUpdate (preferences : list (string * json)) : User.t -> User.t :=
  match get "notifications" preferences with
  | Some (JBool b) =>
      setPreference (fun p => Preferences.mk (Preferences.theme p) (Preferences.language p) b)
  | _ => id
  end.

Definition CastError : Error := mkError "CastError" "Cast to string failed".

(** [updateData], as the update it stands for. Building it throws on a
    [name] without [trim]; casting it fails on a [language] that is no
    string. *)
Definition updateData (body : gmap string json) : Try (User.t -> User.t) :=
  match nameUpdate (body !! "name") with
  | Fails e => Fails e
  | Gives setName =>
      let preferences :=
        match body !! "preferences" with
        | Some (JObj o) => o
        | _ => []
        end in
      match languageUpdate preferences with
      | None => Fails CastError
      | Some setLanguage =>
          Gives (fun u => notificationsUpdate preferences
                            (setLanguage (themeUpdate preferences (setName u))))
      end
  end.

(** [PUT /profile] *)
Definition updateProfile (env : Env.t) (req : Req.t) : M Res.t :=
  let* claims := authenticateToken req in
  tryCatch
    (match updateData (Req.body req) with
     | Fails e => throw e
     | Gives update =>
         let* found := Users.findByIdAndUpdate env (userId claims) update in
         match found with
         | None => send (failure 404 "User not found" req)
         | Some user =>
             ret (success "Profile updated successfully"
                    (JObj [ ("user", JObj (User.toJSON user)) ]) req)
         end
     end)
    (fun error => ret (failureWith 500 "Error updating profile" (detail env error) req)).

End UserRoutes.

(* ================================================================== *)
(** * routes/resume.js: multer, its filter and its error handler *)
(* ================================================================== *)

Module Multer.

(** [allowedTypes] of [fileFilter]. *)
Definition allowedTypes : list string :=
  [ "application/pdf";
    "application/vnd.openxmlformats-officedocument.wordprocessingml.document";
    "text/plain" ].

(** [list.includes(x)] on strings. *)
Definition includes (x : string) (l : list string) : bool := existsb (String.eqb x) l.

(** [s.includes(t)] *)
Definition contains (t s : string) : bool := bool_decide (is_Some (String.index 0 t s)).

(** [fileFilter]: [cb(null, true)], or [cb(new Error(..))]. *)
Definition fileFilter (mimetype : string) : Try unit :=
  if includes mimetype allowedTypes then Gives tt
  else Fails (mkError "Error" "Invalid file type. Only PDF, DOCX, and TXT files are allowed.").

(** The file part of the multipart body as multer meets it; [tooLarge]:
    busboy found it over [limits.fileSize]. *)
Record Part := mkPart {
  mimetype : string;
  originalname : string;
  buffer : string;
  tooLarge : bool
}.

(** An error passed to [next]: [code] is the code of a [MulterError], and
    absent when the error is no instance of it. *)
Record Failure := mkFailure { code : option string; error : Error }.

(** [upload.single('resume')]: no file part leaves [req.file] undefined;
    the filter is asked when the part starts, the size limit is met while
    it is read. *)
Definition single (part : option Part) : Failure + option Part :=
  match part with
  | None => inr None
  | Some p =>
      match fileFilter (mimetype p) with
      | Fails e => inl (mkFailure None e)
      | Gives _ =>
          if tooLarge p
          then inl (mkFailure (Some "LIMIT_FILE_SIZE") (mkError "MulterError" "File too large"))
          else inr (Some p)
      end
  end.

(** [handleMulterError]: the response it sends, or the error it passes to
    [next]. *)
Definition handleMulterError (failed : Failure) (req : Req.t) : Res.t + Error :=
  match code failed with
  | Some c =>
      if String.eqb c "LIMIT_FILE_SIZE"
      then inl (failure 400 "File size too large. Maximum size is 10MB." req)
      else inl (failureWith 400 "File upload error" (errMessage (error failed)) req)
  | None =>
      if contains "Invalid file type" (errMessage (error failed))
      then inl (failure 400 (errMessage (error failed)) req)
      else inr (error failed)
  end.

(** The chain of tests on [req.file.mimetype] in the handler of
    [POST /upload]: the [fileType] it assigns, or none when [fileType]
    stays the empty string. *)
Definition fileTypeOf (mimetype : string) : option FileType :=
  if String.eqb mimetype "application/pdf" then Some pdf
  else if String.eqb mimetype
            "application/vnd.openxmlformats-officedocument.wordprocessingml.document"
       then Some docx
  else if String.eqb mimetype "text/plain" then Some txt
  else None.

End Multer.

(* ================================================================== *)
(** * middleware/auth.js: the token of the request *)
(* ================================================================== *)

Module Header.

(** [s.split(' ')] *)
Fixpoint split (s : string) : list string :=
  match s with
  | EmptyString => [EmptyString]
  | String c rest =>
      if Ascii.eqb c " "%char then EmptyString :: split rest
      else
        match split rest with
        | piece :: pieces => String c piece :: pieces
        | [] => [String c EmptyString]
        end
  end.

(** [authHeader && authHeader.split(' ')[1]]: [None] is [undefined]. *)
Definition token (authHeader : option string) : option string :=
  match authHeader with
  | None => None
  | Some header => if String.eqb header "" then Some header else split header !! 1%nat
  end.

(** [authenticateToken] from the header: [verify] is [jwt.verify] with the
    secret of the process. *)
Definition authorization (verify : string -> Try Claims) (authHeader : option string)
  : Req.Authorization :=
  match token authHeader with
  | None => Req.NoToken
  | Some t =>
      if String.eqb t "" then Req.NoToken
      else
        match verify t with
        | Fails _ => Req.BadToken
        | Gives payload => Req.Verified (userId payload) (claimedEmail payload)
        end
  end.

End Header.

(* ================================================================== *)
(** * The vocabulary of the properties *)
(* ================================================================== *)

Import Js Middleware.

(** ** The quota gate *)

(** The world after [n] database calls. *)
Definition after (n : nat) (w : World.t) : World.t :=
  World.set_faults (drop n (World.faults w)) w.

(** A scheduled database call that goes through. *)
Definition answers (f : option Error) : bool :=
  match f with None => true | Some _ => false end.

(** The next [n] database calls go through. *)
Definition healthy (n : nat) (w : World.t) : bool :=
  forallb answers (take n (World.faults w)).

(** The limit as the specification gives it: the table, and 5 for any
    other tier or none. *)
Definition specLimit (tier : option string) : Z :=
  match tier with
  | Some t =>
      if String.eqb t "free" then 5
      else if String.eqb t "premium" then 100
      else if String.eqb t "enterprise" then 1000
      else 5
  | None => 5
  end.

(** The tier is a name that every JavaScript object inherits from
    [Object.prototype]. *)
Definition inheritedName (tier : option string) : bool := from_option inherited false tier.

(** Sample data: three users in March 2025, a request, an environment
    without a configured mock whose live model is unreachable. *)
Module Examples.

Definition january : Date := mkDate 2025 0 1736000000000.

Definition march : Date := mkDate 2025 2 1741000000000.

Definition lateMarch : Date := mkDate 2025 2 1743000000000.

Definition offline : Error := mkError "Error" "fetch failed".

Definition noModel : Live.Model :=
  Live.mkModel (fun _ => Fails offline) (fun _ _ _ => Fails offline)
               (fun _ _ _ _ => Fails offline).

Definition env : Env.t :=
  Env.mk lateMarch false 90 (fun _ => Fails (mkError "Error" "Invalid PDF structure"))
         (fun _ => Fails (mkError "Error" "Could not find file in options"))
         false noModel (fun p => "$2a$12$" ++ p) (fun p h => String.eqb ("$2a$12$" ++ p) h)
         (fun now id email => "jwt." ++ email ++ "." ++ pretty (getTime now / 1000))
         (fun _ => inl "name is required") (fun _ => inl "email is required").

Definition user (id : ObjectId) (email name : string) (tier : option string)
    (usage : option ApiUsage.t) : User.t :=
  User.mk id email (Some "$2a$12$secret") name tier None usage None january january 0.

Definition alice : User.t :=
  user 1 "alice@example.com" "Alice" (Some "free") (Some (ApiUsage.mk 5 march 5)).

Definition bob : User.t :=
  user 2 "bob@example.com" "Bob" (Some "premium") (Some (ApiUsage.mk 3 march 40)).

Definition carol : User.t :=
  user 3 "carol@example.com" "Carol" (Some "constructor") (Some (ApiUsage.mk 7 march 7)).

Definition users : gmap ObjectId User.t := <[1%positive := alice]> (<[2%positive := bob]> (<[3%positive := carol]> ∅)).

Definition request (token : Req.Authorization) (id : Req.Param) (body : gmap string json)
  : Req.t :=
  Req.mk "req-1" token id body None.

Definition asAlice : Req.Authorization := Req.Verified 1 "alice@example.com".

Definition asBob : Req.Authorization := Req.Verified 2 "bob@example.com".

Definition asCarol : Req.Authorization := Req.Verified 3 "carol@example.com".

Definition world (resumes : gmap ObjectId Resume.t) : World.t :=
  World.mk users resumes [] [] [].

End Examples.

(** The quota gate with the specification's limit for every tier. *)
Definition quota_claim_as_stated : Prop :=
  forall env req claims w u usage,
    Users.byId (userId claims) (World.users w) = Some u ->
    User.apiUsage u = Some usage ->
    healthy 2 w = true ->
    let counter := ApiUsage.monthly (resetIfNewMonth (Env.now env) usage) in
    let limit := specLimit (User.subscriptionType u) in
    (limit <= counter ->
       fst (checkApiLimit env req claims w)
       = Sends (failure 429 "Monthly API limit exceeded" req)
       /\ World.users (snd (checkApiLimit env req claims w)) = World.users w)
    /\ (counter < limit ->
       fst (checkApiLimit env req claims w) = Returns tt
       /\ ApiUsage.monthly
            <$> (Users.byId (userId claims) (World.users (snd (checkApiLimit env req claims w)))
                 ≫= User.apiUsage)
          = Some (counter + 1)).

(** A user on a tier the schema does not list, with three calls this
    month. *)
Definition dave : User.t :=
  Examples.user 4 "dave@example.com" "Dave" (Some "gold") (Some (ApiUsage.mk 3 Examples.march 3)).

(** A request of Dave, with his token. *)
Definition asDave : Req.t :=
  Examples.request (Req.Verified 4 "dave@example.com") Req.InvalidId ∅.

(** A world that holds Dave and no resume. *)
Definition daveAlone : World.t := World.mk (<[4%positive := dave]> ∅) ∅ [] [] [].

(** Alice with a ledger last reset in January. *)
Definition staleAlice : User.t :=
  Examples.user 1 "alice@example.com" "Alice" (Some "free")
                (Some (ApiUsage.mk 5 Examples.january 17)).

(** ** Upload *)

(** A record of [owner] with the file name [fileName] exists. *)
Definition duplicate (owner : positive) (fileName : string) (resumes : gmap positive Resume.t) : Prop :=
  exists id r, resumes !! id = Some r /\ Resume.userId r = owner /\ Resume.fileName r = fileName.

(** The record [upload] creates. *)
Definition uploadedRecord (env : Env.t) (owner : positive) (file : Req.File)
    (text title : string) : Resume.t :=
  Resume.mk (Env.newId env) owner title (trim text) None (Req.originalname file)
            (Req.mimetype file) None [] [] uploaded (Env.now env) (Env.now env) 0.

(** The three outcomes of an upload with no condition on the title. *)
Definition upload_claim_as_stated : Prop :=
  forall env req w owner email file text,
    Req.authorization req = Req.Verified owner email ->
    Req.file req = Some file ->
    ResumeRoutes.extraction env file = Gives text ->
    healthy 2 w = true ->
    World.resumes w !! Env.newId env = None ->
    (trim text = "" ->
       Res.status (fst (route env req (ResumeRoutes.upload env req) w)) = 400
       /\ World.resumes (snd (route env req (ResumeRoutes.upload env req) w)) = World.resumes w)
    /\ (trim text <> "" -> duplicate owner (Req.originalname file) (World.resumes w) ->
       Res.status (fst (route env req (ResumeRoutes.upload env req) w)) = 409
       /\ World.resumes (snd (route env req (ResumeRoutes.upload env req) w)) = World.resumes w)
    /\ (trim text <> "" -> ~ duplicate owner (Req.originalname file) (World.resumes w) ->
       exists record,
         World.resumes (snd (route env req (ResumeRoutes.upload env req) w)) !! Env.newId env
         = Some record
         /\ Resume.status record = uploaded
         /\ Resume.originalText record = trim text).

(** [c.repeat(n)] *)
Fixpoint repeated (n : nat) (c : ascii) : string :=
  match n with O => EmptyString | S n => String c (repeated n c) end.

(** An upload with a [title] field of 201 characters. *)
Definition longTitleUpload : Req.t :=
  Req.mk "req-1" Examples.asAlice Req.InvalidId
         {[ "title" := JStr (repeated 201 "x"%char) ]}
         (Some (Req.mkFile txt "cv.txt" "Ten years of experience")).

(** The answer of [upload] for the record it creates. *)
Definition uploadResponse (env : Env.t) (req : Req.t) (file : Req.File) (text title : string)
  : Res.t :=
  success "Resume uploaded successfully"
    (JObj [ ("resumeId", JId (Env.newId env));
            ("title", JStr title);
            ("extractedText", JStr (ResumeRoutes.truncated text));
            ("fileName", JStr (Req.originalname file));
            ("fileType", JStr (FileType_toString (Req.mimetype file)));
            ("status", JStr "uploaded");
            ("createdAt", JDate (Env.now env)) ]) req.

(** ** The generation service *)

(** The world after a call of the service is recorded. *)
Definition generated (w : World.t) : World.t :=
  World.set_log ((World.log w ++ [Generate (World.resumes w)])%list) w.

(** The collections and the coming database calls are the same. *)
Definition sameStore (w w' : World.t) : Prop :=
  World.users w' = World.users w /\ World.resumes w' = World.resumes w
  /\ World.faults w' = World.faults w.

(** A list that is present and has an entry. *)
Definition nonEmpty (l : option (list string)) : Prop :=
  exists x rest, l = Some (x :: rest).

(** A number that is present and lies between [lo] and [hi]. *)
Definition within (lo hi : Z) (n : option Z) : Prop :=
  exists k, n = Some k /\ lo <= k <= hi.

(** The mock analysis: both scores are percentages, every list has an entry. *)
Definition mockAnalysis (a : Live.Analysis) : Prop :=
  within 75 94 (Live.score a) /\ within 80 94 (Live.atsCompatibility a)
  /\ nonEmpty (Live.strengths a) /\ nonEmpty (Live.weaknesses a)
  /\ nonEmpty (Live.keywords a) /\ nonEmpty (Live.suggestions a).

(** The mock job match: the score is a percentage, every list has an entry. *)
Definition mockMatch (m : Live.Match) : Prop :=
  within 65 94 (Live.matchScore m)
  /\ nonEmpty (Live.matchedKeywords m) /\ nonEmpty (Live.missingKeywords m)
  /\ nonEmpty (Live.m_suggestions m) /\ nonEmpty (Live.strengthAreas m)
  /\ nonEmpty (Live.improvementAreas m) /\ nonEmpty (Live.salaryNegotiationPoints m).

(** The service answers with the model's reply, or with the mock when it is
    configured so or when the model fails. *)
Definition fallback {A} (useMock : bool) (reply : Try A) : Prop :=
  useMock = true \/ exists e, reply = Fails e.

(** ** Analyze *)

(** The quota gate admits the caller: the caller has a ledger below the
    limit and a document that passes the validators of its schema, so
    that the gate can save it. *)
Definition admitted (env : Env.t) (owner : positive) (w : World.t) : Prop :=
  exists u usage,
    Users.byId owner (World.users w) = Some u
    /\ User.apiUsage u = Some usage
    /\ Users.valid (Users.project false u) = true
    /\ ge (ApiUsage.monthly (resetIfNewMonth (Env.now env) usage))
          (orElse (property limits (User.subscriptionType u)) 5) = false.





(** ** Enhance, history and match *)

(** The record [enhance] leaves in the collection. *)
Definition enhancedRecord (env : Env.t) (r : Resume.t) (t : string) : Resume.t :=
  let doc := Resume.set_status enhanced (Resume.set_enhancedText (Some t) r) in
  if decide (r = doc) then r else Resume.set_updatedAt (Env.now env) doc.

(** What [GET /history/:resumeId] sends for a record of the caller. *)
Definition historyData (r : Resume.t) : list (string * json) :=
  object
    [ ("resumeId", Some (JId (Resume._id r)));
      ("status", Some (JStr (Status_toString (Resume.status r))));
      ("targetRole", None);
      ("targetIndustry", None);
      ("analysisResults", AnalysisResults.toObject <$> Resume.analysisResults r);
      ("jobMatching", Some (JArr (map JobMatch.toObject (Resume.jobMatching r))));
      ("updatedAt", Some (JDate (Resume.updatedAt r))) ].

(** The record [match] leaves in the collection. *)
Definition matchedRecord (env : Env.t) (r : Resume.t) (j : JobMatch.t) : Resume.t :=
  Resume.set_updatedAt (Env.now env)
    (Resume.set___v (Resume.__v r + 1)
       (Resume.set_jobMatching (Resume.jobMatching r ++ [j]) r)).

(** ** Lookups scoped to the caller *)

(** What a handler answers when its scoped lookup finds nothing: the
    lookup fails, or there is no such record. *)
Definition notFoundOr (env : Env.t) (req : Req.t) (message : string) (w : World.t)
  : Res.t :=
  match World.faults w with
  | Some e :: _ => failureWith 500 message (detail env e) req
  | _ => failure 404 "Resume not found" req
  end.

(** [PUT /:resumeId/title] checks the title before the lookup. *)
Definition titleAnswer (env : Env.t) (req : Req.t) (otherwise : Res.t) : Res.t :=
  let title := Req.body req !! "title" in
  if negb (truthy title) then failure 400 "Title is required" req
  else
    match title with
    | Some (JStr s) =>
        if strlen (trim s) =? 0 then failure 400 "Title is required" req else otherwise
    | _ =>
        failureWith 500 "Error updating resume title"
                    (detail env (TypeError "title.trim is not a function")) req
    end.

(** The answer of a route that runs the quota gate first. *)
Definition gated (env : Env.t) (req : Req.t) (claims : Claims) (w : World.t)
    (otherwise : World.t -> Res.t) : Res.t :=
  match checkApiLimit env req claims w with
  | (Returns _, w1) => otherwise w1
  | (Sends r, _) => r
  | (Throws e, _) => errorHandler env req e
  end.

(** ** The stored password hash and the views of a user *)

Definition erase (u : User.t) : User.t := User.set_password None u.

(** Two worlds that differ in stored password hashes only. *)
Definition samePublic (w1 w2 : World.t) : Prop :=
  erase <$> World.users w1 = erase <$> World.users w2
  /\ World.resumes w1 = World.resumes w2
  /\ World.faults w1 = World.faults w2
  /\ World.random w1 = World.random w2
  /\ World.log w1 = World.log w2.


(** A computation that leaves the users alone. *)
Definition UsersFree {A} (m : M A) : Prop :=
  forall us w, m (World.set_users us w) = (fst (m w), World.set_users us (snd (m w))).


(** ** Sample records and requests *)

(** Sample data: two resumes, one of Alice and one of Bob, an environment
    with the mock configured and one with a live model. *)
Module Samples.

Import Examples.

Definition cv : Resume.t :=
  Resume.mk 7 1 "Backend engineer" "Ten years of experience" None "cv.txt" txt None [] []
            uploaded january january 0.

Definition polished : Resume.t :=
  Resume.mk 8 2 "Data analyst" "SQL and statistics" (Some "SQL, statistics and dashboards")
            "bob.pdf" pdf None [] [] enhanced january march 0.

Definition resumes : gmap positive Resume.t := <[7%positive := cv]> (<[8%positive := polished]> ∅).

(** Bob, on the premium tier with 3 calls this month, and the two resumes. *)
Definition world : World.t := Examples.world resumes.

Definition mocked : Env.t :=
  Env.mk lateMarch false 90 (Env.pdfParse env) (Env.extractRawText env) true noModel
         (Env.hash env) (Env.compare env) (Env.sign env) (Env.regSchema env) (Env.logSchema env).

(** A live model that answers with a score out of range. *)
Definition overshooting : Live.Model :=
  Live.mkModel
    (fun _ => Gives (Live.mkAnalysis (Some 150) None None None (Some 60) None))
    (fun _ _ _ => Gives "SQL, statistics and dashboards")
    (fun _ _ _ _ => Gives (Live.mkMatch (Some 40) None None None None None None)).


Definition bobOn (id : positive) (body : gmap string json) : Req.t :=
  request asBob (Req.ValidId id) body.

Definition targets : gmap string json :=
  {[ "targetRole" := JStr "Analyst"; "targetIndustry" := JStr " Retail " ]}.

Definition job : gmap string json :=
  {[ "jobTitle" := JStr "Analyst"; "jobDescription" := JStr "Dashboards for stores" ]}.


(** The mock job match when no random draw is scheduled, and the sample
    record of Bob after one match against it. *)
Definition firstMatch : Live.Match :=
  Eval vm_compute in
    match fst (GoogleAI.getMockJobMatch world) with
    | Returns m => m
    | _ => Live.mkMatch None None None None None None None
    end.

Definition matched : Resume.t :=
  matchedRecord mocked polished (AiRoutes.jobMatchOf mocked "Analyst" None firstMatch).


End Samples.



(** A successful match changes the job-match list and nothing else. *)
Definition match_claim_as_stated : Prop :=
  forall env req w id owner email r answer w' stored,
    Req.resumeId req = Req.ValidId id ->
    Req.authorization req = Req.Verified owner email ->
    Resumes.owned id owner (World.resumes w) = Some r ->
    Resume.originalText r <> "" ->
    run env req AiRoutes.matchResume w = (answer, w') ->
    Res.status answer = 200 ->
    Resumes.byId id (World.resumes w') = Some stored ->
    Resume.status stored = Resume.status r
    /\ List.length (Resume.jobMatching stored) = S (List.length (Resume.jobMatching r))
    /\ take (List.length (Resume.jobMatching r)) (Resume.jobMatching stored)
       = Resume.jobMatching r
    /\ stored = Resume.set_jobMatching (Resume.jobMatching stored) r.

(** The reply of the service as [res.json] writes it after [resumeId]. *)
Definition matchReply (m : Live.Match) : list (string * json) :=
  object
    [ ("matchScore", JNum <$> Live.matchScore m);
      ("matchedKeywords", strings <$> Live.matchedKeywords m);
      ("missingKeywords", strings <$> Live.missingKeywords m);
      ("suggestions", strings <$> Live.m_suggestions m);
      ("strengthAreas", strings <$> Live.strengthAreas m);
      ("improvementAreas", strings <$> Live.improvementAreas m);
      ("salaryNegotiationPoints", strings <$> Live.salaryNegotiationPoints m) ].







(** The routes that work on one record. *)
Definition recordScoped : list (Env.t -> Req.t -> M Res.t) :=
  [ ResumeRoutes.getResume; ResumeRoutes.updateTitle; ResumeRoutes.deleteResume;
    AiRoutes.analyze; AiRoutes.enhance; AiRoutes.matchResume; AiRoutes.history ].

(** The world without the record [id]. *)
Definition without (id : positive) (w : World.t) : World.t :=
  World.set_resumes (delete id (World.resumes w)) w.

(** A report of Alice that has been analyzed. *)
Definition report : Resume.t :=
  Resume.mk 9 1 "Annual report" "Figures of the year" None "report.txt" txt None [] []
            analyzed Examples.january Examples.march 0.

(** The samples and the report, with a database that fails at the third
    call and answers the fourth. *)
Definition failingLookup : World.t :=
  World.mk Examples.users (<[9%positive := report]> Samples.resumes)
           [None; None; Some Examples.offline; None] [] [].

(** The upload of a text file [cv.txt] by Alice, without a title. *)
Definition plainUpload (text : string) : Req.t :=
  Req.mk "req-1" Examples.asAlice Req.InvalidId ∅ (Some (Req.mkFile txt "cv.txt" text)).

(** ** Sequences of requests and what every route keeps *)

(** The requests of one caller, checked one after the other, each at its
    own time: how many the gate lets through, and the world they leave. *)
Fixpoint admissions (checks : list Env.t) (req : Req.t) (claims : Claims) (w : World.t)
  : nat * World.t :=
  match checks with
  | [] => (0%nat, w)
  | env :: rest =>
      match checkApiLimit env req claims w with
      | (Returns _, w') =>
          let '(n, w'') := admissions rest req claims w' in (S n, w'')
      | (_, w') => admissions rest req claims w'
      end
  end.

(** Alice on the free tier with four of her five calls of March spent. *)
Definition lastCall : User.t :=
  Examples.user 1 "alice@example.com" "Alice" (Some "free")
                (Some (ApiUsage.mk 4 Examples.march 4)).

(** A caller stored without a tier: the first admitted call writes the
    default into the document. *)
Definition untiered : User.t :=
  Examples.user 4 "erin@example.com" "Erin" None (Some (ApiUsage.mk 0 Examples.march 0)).

(** The user [register] stores. *)
Definition registered (env : Env.t) (name email password : string) : User.t :=
  User.set_password (Some (Env.hash env password)) (AuthRoutes.newUser env name email password).

(** Sample data: the two Joi schemas of the auth routes on the bodies
    the examples send, an environment with them at two instants, a
    registration form and a login form. *)
Module Signup.

(** The key as Joi writes it in a message, between double quotes. *)
Definition quoted (key : string) : string :=
  String (ascii_of_nat 34) (key ++ String (ascii_of_nat 34) "").

Definition alnum (c : ascii) : bool :=
  let n := Z.of_nat (nat_of_ascii c) in
  ((48 <=? n) && (n <=? 57)) || ((65 <=? n) && (n <=? 90)) || ((97 <=? n) && (n <=? 122)).

Fixpoint word (s : string) : bool :=
  match s with
  | EmptyString => true
  | String c rest => alnum c && word rest
  end.

(** What stands before the first [c] of [s], and what stands after it. *)
Fixpoint cut (c : ascii) (s : string) : option (string * string) :=
  match s with
  | EmptyString => None
  | String x rest =>
      if Ascii.eqb x c then Some (EmptyString, rest)
      else match cut c rest with
           | Some (before, behind) => Some (String x before, behind)
           | None => None
           end
  end.

(** [Joi.string().email()] on the addresses the examples need: letters
    and digits, an at sign, one label of letters and digits and the
    top-level domain [com] in any case.  Joi accepts each of them; an address
    with white space, without an at sign or without a dot-separated domain is
    refused here as it is by Joi.  Joi accepts more (dots and hyphens, the
    other top-level domains), which this test refuses. *)
Definition isEmail (s : string) : bool :=
  match cut "@" s with
  | Some (mailbox, domain) =>
      match cut "." domain with
      | Some (label, tld) =>
          negb (String.eqb mailbox "") && word mailbox && (strlen mailbox <=? 64)
          && negb (String.eqb label "") && word label && (strlen label <=? 63)
          && String.eqb (toLowerCase tld) "com"
      | None => false
      end
  | None => false
  end.

(** One key of a Joi object, [Joi.string()...required()] with [.min],
    [.max] and [.email]: the message of the first rule that fails, or the
    string, which Joi leaves as it is (the schemas ask for no conversion). *)
Definition text (key : string) (least : Z) (most : option Z) (email : bool)
    (v : option json) : string + string :=
  match v with
  | None => inl (quoted key ++ " is required")
  | Some (JStr s) =>
      if String.eqb s "" then inl (quoted key ++ " is not allowed to be empty")
      else if strlen s <? least
      then inl (quoted key ++ " length must be at least " ++ pretty least
                ++ " characters long")
      else if match most with Some m => m <? strlen s | None => false end
      then inl (quoted key ++ " length must be less than or equal to "
                ++ pretty (default 0 most) ++ " characters long")
      else if email && negb (isEmail s) then inl (quoted key ++ " must be a valid email")
      else inr s
  | Some _ => inl (quoted key ++ " must be a string")
  end.

(** A key of the body that the schema does not list.  Of several, Joi
    names the first in the order of the object; the map keeps its own. *)
Definition unknown (keys : list string) (body : gmap string json) : option string :=
  List.find (fun key => negb (existsb (String.eqb key) keys)) (map_to_list body).*1.

(** [regSchema.validate(req.body)]: the keys in the order of the schema,
    then the keys it does not list. *)
Definition regSchema (body : gmap string json) : string + (string * string * string) :=
  match text "name" 2 (Some 50) false (body !! "name") with
  | inl message => inl message
  | inr name =>
      match text "email" 1 None true (body !! "email") with
      | inl message => inl message
      | inr email =>
          match text "password" 6 None false (body !! "password") with
          | inl message => inl message
          | inr password =>
              match unknown [ "name"; "email"; "password" ] body with
              | Some key => inl (quoted key ++ " is not allowed")
              | None => inr (name, email, password)
              end
          end
      end
  end.

(** [logSchema.validate(req.body)] *)
Definition logSchema (body : gmap string json) : string + (string * string) :=
  match text "email" 1 None true (body !! "email") with
  | inl message => inl message
  | inr email =>
      match text "password" 1 None false (body !! "password") with
      | inl message => inl message
      | inr password =>
          match unknown [ "email"; "password" ] body with
          | Some key => inl (quoted key ++ " is not allowed")
          | None => inr (email, password)
          end
      end
  end.

Definition env : Env.t :=
  Env.mk Examples.lateMarch false 90 (Env.pdfParse Examples.env)
         (Env.extractRawText Examples.env) true Examples.noModel
         (Env.hash Examples.env) (Env.compare Examples.env) (Env.sign Examples.env)
         regSchema logSchema.

(** The same process ten minutes later. *)
Definition later : Env.t :=
  Env.mk (mkDate 2025 2 1743000600000) false 91 (Env.pdfParse Examples.env)
         (Env.extractRawText Examples.env) true Examples.noModel
         (Env.hash Examples.env) (Env.compare Examples.env) (Env.sign Examples.env)
         regSchema logSchema.

(** The body of a registration. *)
Definition form (email password : string) : Req.t :=
  Req.mk "req-2" Req.NoToken Req.InvalidId
         {[ "name" := JStr "Dana"; "email" := JStr email; "password" := JStr password ]}
         None.

(** The body of a login. *)
Definition credentials (email password : string) : Req.t :=
  Req.mk "req-3" Req.NoToken Req.InvalidId
         {[ "email" := JStr email; "password" := JStr password ]}
         None.

End Signup.

(** A body whose [title] has 201 characters. *)
Definition longTitle : gmap string json := {[ "title" := JStr (repeated 201 "x"%char) ]}.

(** The routes behind [authenticateToken]. *)
Definition guardedRoutes : list (Env.t -> Req.t -> M Res.t) :=
  [ ResumeRoutes.upload; ResumeRoutes.getResume; ResumeRoutes.updateTitle;
    ResumeRoutes.deleteResume; AiRoutes.analyze; AiRoutes.enhance; AiRoutes.matchResume;
    AiRoutes.history; AuthRoutes.me; UserRoutes.getProfile; UserRoutes.updateProfile ].

(** Sample data: an environment whose live model scores a match at 150. *)
Module Overshoot.

(** A live model whose match score is out of range. *)
Definition model : Live.Model :=
  Live.mkModel (Live.analyze Samples.overshooting) (Live.enhance Samples.overshooting)
    (fun _ _ _ _ => Gives (Live.mkMatch (Some 150) None None None None None None)).

Definition env : Env.t :=
  Env.mk Examples.lateMarch false 90 (Env.pdfParse Examples.env)
         (Env.extractRawText Examples.env) false model
         (Env.hash Examples.env) (Env.compare Examples.env) (Env.sign Examples.env)
         (Env.regSchema Examples.env) (Env.logSchema Examples.env).

End Overshoot.

(** The string holds no space. *)
Fixpoint spaceless (s : string) : bool :=
  match s with
  | EmptyString => true
  | String c rest => negb (Ascii.eqb c " "%char) && spaceless rest
  end.

(** What [authenticateToken] does with a token it found. *)
Definition verified (verify : string -> Try Claims) (t : string) : Req.Authorization :=
  match verify t with
  | Fails _ => Req.BadToken
  | Gives payload => Req.Verified (userId payload) (claimedEmail payload)
  end.

(** An update that leaves the account of a user alone: it changes the
    name and the preferences at most. *)
Definition keepsAccount (update : User.t -> User.t) : Prop :=
  forall u,
    User._id (update u) = User._id u /\ User.email (update u) = User.email u
    /\ User.password (update u) = User.password u
    /\ User.subscriptionType (update u) = User.subscriptionType u
    /\ User.subscriptionExpiry (update u) = User.subscriptionExpiry u
    /\ User.apiUsage (update u) = User.apiUsage u
    /\ User.createdAt (update u) = User.createdAt u.

(** The resumes of [caller], and those of them that were analyzed or
    enhanced. *)
Definition resumesOf (caller : positive) (w : World.t) : list Resume.t :=
  List.filter (fun r => bool_decide (Resume.userId r = caller))
              (map_to_list (World.resumes w)).*2.

(** The resumes of [caller] that are analyzed or enhanced. *)
Definition analyzedOf (caller : positive) (w : World.t) : list Resume.t :=
  List.filter (fun r => bool_decide (Resume.status r = analyzed \/ Resume.status r = enhanced))
              (resumesOf caller w).

(** The part of a user that only registration sets, but for the tier. *)
Definition account (u : User.t)
  : positive * string * option string * option Date * Date * option Z :=
  (User._id u, User.email u, User.password u,
   User.subscriptionExpiry u, User.createdAt u, ApiUsage.total <$> User.apiUsage u).

(** The tier is the one it was; a document stored without a tier may have
    been given the default of the schema by a save. *)
Definition tierKept (before after : option string) : Prop :=
  after = before \/ (before = None /\ after = Some "free").

(** Every user is still there, with the same account and tier. *)
Definition accountsKept (before after : gmap positive User.t) : Prop :=
  forall id u, before !! id = Some u ->
    exists u', after !! id = Some u' /\ account u' = account u
               /\ tierKept (User.subscriptionType u) (User.subscriptionType u').

(** A computation that keeps every account. *)
Definition Keeper {A} (m : M A) : Prop :=
  forall w, accountsKept (World.users w) (World.users (snd (m w))).

(** The routes of the four routers, but [GET /list] and the [/test] probes. *)
Definition allRoutes : list (Env.t -> Req.t -> M Res.t) :=
  [ AuthRoutes.register; AuthRoutes.login; AuthRoutes.me;
    UserRoutes.getProfile; UserRoutes.updateProfile;
    ResumeRoutes.upload; ResumeRoutes.getResume; ResumeRoutes.updateTitle;
    ResumeRoutes.deleteResume;
    AiRoutes.analyze; AiRoutes.enhance; AiRoutes.matchResume; AiRoutes.history ].

(** The part of a record that only the upload sets. *)
Definition core (r : Resume.t) : positive * positive * string * string * FileType * Date :=
  (Resume._id r, Resume.userId r, Resume.originalText r, Resume.fileName r,
   Resume.fileType r, Resume.createdAt r).

(** Every record is still there, with the same core. *)
Definition recordsKept (before after : gmap positive Resume.t) : Prop :=
  forall id r, before !! id = Some r -> exists r', after !! id = Some r' /\ core r' = core r.

(** From a world that keeps the records of [base] and satisfies [P], the
    computation leads to a world that keeps them, and to a result that
    satisfies [Q] when it returns one. *)
Definition Holds {A} (base : gmap positive Resume.t) (P : World.t -> Prop) (m : M A)
    (Q : A -> World.t -> Prop) : Prop :=
  forall w, recordsKept base (World.resumes w) -> P w ->
    recordsKept base (World.resumes (snd (m w)))
    /\ forall a, fst (m w) = Returns a -> Q a (snd (m w)).

(** A computation that leaves the resumes alone. *)
Definition Quiet {A} (m : M A) : Prop :=
  forall w, World.resumes (snd (m w)) = World.resumes w.

(** The routes that write no resume. *)
Definition readingRoutes : list (Env.t -> Req.t -> M Res.t) :=
  [ AuthRoutes.register; AuthRoutes.login; AuthRoutes.me;
    UserRoutes.getProfile; UserRoutes.updateProfile;
    ResumeRoutes.getResume; AiRoutes.history ].

(** The computation keeps the records of [base], whatever it starts from. *)
Definition Kept {A} (base : gmap positive Resume.t) (m : M A) : Prop :=
  Holds base (fun _ => True) m (fun _ _ => True).

(** The routes that write a resume and delete none. *)
Definition writingRoutes : list (Env.t -> Req.t -> M Res.t) :=
  [ ResumeRoutes.upload; ResumeRoutes.updateTitle;
    AiRoutes.analyze; AiRoutes.enhance; AiRoutes.matchResume ].

(* ================================================================== *)
(** * Properties *)
(* ================================================================== *)

(** ** The quota gate: C1, C2 and C10 *)

Lemma call_healthy n w :
  healthy (S n) w = true ->
  Db.call w = (Returns tt, World.set_faults (drop 1 (World.faults w)) w)
  /\ healthy n (World.set_faults (drop 1 (World.faults w)) w) = true.
Proof.
  unfold healthy, Db.call. destruct w as [us rs fs rd lg]; simpl.
  destruct fs as [|[e|] fs]; simpl; intros H.
  - split; [reflexivity|]. destruct n; reflexivity.
  - discriminate.
  - split; [reflexivity| assumption].
Qed.

Lemma healthy_S n w : healthy (S n) w = true -> healthy n w = true.
Proof.
  unfold healthy. generalize (World.faults w). induction n as [|n IH]; intros fs; [reflexivity|].
  destruct fs as [|f fs]; [reflexivity|]. simpl. destruct (answers f); [|discriminate].
  simpl. destruct fs as [|g fs]; [destruct n; reflexivity|].
  intros H. apply (IH (g :: fs)). exact H.
Qed.

Lemma limit_positive tier : ge 0 (orElse (property limits tier) 5) = false.
Proof.
  destruct tier as [k|]; [|reflexivity]. unfold property.
  destruct (own k limits) as [n|] eqn:E.
  - simpl in E.
    repeat match type of E with
    | (if ?b then _ else _) = _ => destruct b
    end; inversion E; subst; reflexivity.
  - destruct (inherited k); reflexivity.
Qed.

Lemma limit_spec tier :
  inheritedName tier = false -> orElse (property limits tier) 5 = VNumber (specLimit tier).
Proof.
  destruct tier as [k|]; [|reflexivity]. simpl. intros Hk. unfold property. simpl.
  destruct (String.eqb k "free"); [reflexivity|].
  destruct (String.eqb k "premium"); [reflexivity|].
  destruct (String.eqb k "enterprise"); [reflexivity|].
  rewrite Hk. reflexivity.
Qed.

Lemma findById_healthy id w :
  healthy 1 w = true ->
  Users.findById id w
  = (Returns (Users.project false <$> Users.byId id (World.users w)),
     World.set_faults (drop 1 (World.faults w)) w).
Proof.
  intros H. apply call_healthy in H as [H _].
  unfold Users.findById, bind. rewrite H. reflexivity.
Qed.

Lemma byId_id id users u : Users.byId id users = Some u -> User._id u = id /\ users !! id = Some u.
Proof.
  unfold Users.byId. destruct (users !! id) as [u'|]; [|discriminate].
  destruct (decide _); [|discriminate]. intros [= ->]. auto.
Qed.

(** The limit of a hydrated document is the limit of the stored one: the
    default tier has the default limit. *)
Lemma limit_hydrate tier :
  orElse (property limits (Some (default "free" tier))) 5 = orElse (property limits tier) 5.
Proof. destruct tier; reflexivity. Qed.

Lemma enum_tiers tier :
  Users.enum Users.tiers (Some tier) = true ->
  tier = "free" \/ tier = "premium" \/ tier = "enterprise".
Proof.
  simpl. destruct (String.eqb_spec tier "free"); [auto|].
  destruct (String.eqb_spec tier "premium"); [auto|].
  destruct (String.eqb_spec tier "enterprise"); [auto|]. discriminate.
Qed.

(** A tier that passes the schema is no inherited name. *)
Lemma valid_tier u :
  Users.valid (Users.project false u) = true ->
  inheritedName (User.subscriptionType u) = false
  /\ (User.subscriptionType u = None \/ User.subscriptionType u = Some "free"
      \/ User.subscriptionType u = Some "premium"
      \/ User.subscriptionType u = Some "enterprise").
Proof.
  unfold Users.valid, Users.project, Users.hydrate. simpl. rewrite !andb_true_iff.
  intros [[_ Ht] _]. destruct (User.subscriptionType u) as [k|]; [|auto].
  apply enum_tiers in Ht. simpl in Ht.
  destruct Ht as [-> | [-> | ->]]; auto.
Qed.

(** An inherited name is none of the three tiers. *)
Lemma inherited_invalid u :
  inheritedName (User.subscriptionType u) = true ->
  Users.valid (Users.project false u) = false.
Proof.
  intros Hi. destruct (Users.valid _) eqn:E; [|reflexivity].
  apply valid_tier in E as [E _]. congruence.
Qed.

(** The paths of a document as a query returns it. *)
Lemma project_fields u :
  User._id (Users.project false u) = User._id u
  /\ User.apiUsage (Users.project false u) = User.apiUsage u
  /\ User.subscriptionType (Users.project false u)
     = Some (default "free" (User.subscriptionType u))
  /\ User.password (Users.project false u) = None.
Proof. destruct u; repeat split. Qed.

(** The gate up to the limit test, when the lookup goes through. *)
Lemma checkApiLimit_found env req claims w u usage :
  Users.byId (userId claims) (World.users w) = Some u ->
  User.apiUsage u = Some usage ->
  healthy 1 w = true ->
  checkApiLimit env req claims w
  = tryCatch
      (let ledger := resetIfNewMonth (Env.now env) usage in
       if ge (ApiUsage.monthly ledger) (orElse (property limits (User.subscriptionType u)) 5)
       then send (failure 429 "Monthly API limit exceeded" req)
       else
         let* _ := Users.save env (Users.project false u)
                     (User.set_apiUsage (Some (increment ledger)) (Users.project false u)) in
         ret tt)
      (fun error => send (failureWith 500 "API limit check failed" (errMessage error) req))
      (after 1 w).
Proof.
  intros Hu Ha Hh. unfold checkApiLimit, tryCatch, bind.
  rewrite (findById_healthy _ _ Hh), Hu.
  change (Users.project false <$> Some u) with (Some (Users.project false u)).
  cbv beta iota zeta.
  destruct (project_fields u) as (_ & -> & -> & _). rewrite Ha, limit_hydrate.
  reflexivity.
Qed.

(** The validators do not look at the usage ledger. *)
Lemma valid_set_apiUsage a u : Users.valid (User.set_apiUsage a u) = Users.valid u.
Proof. destruct u; reflexivity. Qed.

Lemma newMonth_same d : newMonth d d = false.
Proof. unfold newMonth. rewrite !Z.eqb_refl. reflexivity. Qed.

Lemma increment_changes now usage : usage <> increment (resetIfNewMonth now usage).
Proof.
  unfold resetIfNewMonth. destruct (newMonth _ _) eqn:E; intros H.
  - rewrite H in E. simpl in E. rewrite newMonth_same in E. discriminate.
  - apply (f_equal ApiUsage.monthly) in H. simpl in H. lia.
Qed.

(** What the gate does on a user that has a ledger, as long as the database answers. *)
Lemma checkApiLimit_reject env req claims w u usage :
  Users.byId (userId claims) (World.users w) = Some u ->
  User.apiUsage u = Some usage ->
  healthy 1 w = true ->
  ge (ApiUsage.monthly (resetIfNewMonth (Env.now env) usage))
     (orElse (property limits (User.subscriptionType u)) 5) = true ->
  checkApiLimit env req claims w
  = (Sends (failure 429 "Monthly API limit exceeded" req),
     World.set_faults (drop 1 (World.faults w)) w).
Proof.
  intros Hu Ha Hh Hge. rewrite (checkApiLimit_found env req claims w u usage Hu Ha Hh).
  unfold tryCatch. cbv zeta. rewrite Hge. reflexivity.
Qed.

Lemma checkApiLimit_admit env req claims w u usage :
  Users.byId (userId claims) (World.users w) = Some u ->
  User.apiUsage u = Some usage ->
  healthy 2 w = true ->
  Users.valid (Users.project false u) = true ->
  ge (ApiUsage.monthly (resetIfNewMonth (Env.now env) usage))
     (orElse (property limits (User.subscriptionType u)) 5) = false ->
  checkApiLimit env req claims w
  = (Returns tt,
     World.set_users
       (<[userId claims :=
            User.set_updatedAt (Env.now env)
              (User.set_apiUsage (Some (increment (resetIfNewMonth (Env.now env) usage)))
                 (Users.hydrate u))]>
          (World.users w))
       (World.set_faults (drop 2 (World.faults w)) w)).
Proof.
  intros Hu Ha Hh Hv Hge.
  rewrite (checkApiLimit_found env req claims w u usage Hu Ha (healthy_S _ _ Hh)).
  destruct (call_healthy _ _ Hh) as [_ Hh1].
  destruct (byId_id _ _ _ Hu) as [Hid Hlk].
  unfold tryCatch, bind. cbv zeta. rewrite Hge.
  unfold Users.save. rewrite valid_set_apiUsage, Hv. cbn [negb].
  destruct (decide _) as [Heq|_].
  { exfalso. apply (f_equal User.apiUsage) in Heq. destruct u; simpl in *. subst.
    injection Heq as Heq. revert Heq. apply increment_changes. }
  unfold bind. destruct (call_healthy _ _ Hh1) as [Hc _]. unfold after. rewrite Hc.
  unfold gets, modify, ret. cbn [fst snd].
  replace (User._id (User.set_apiUsage (Some (increment (resetIfNewMonth (Env.now env) usage)))
                       (Users.project false u))) with (userId claims)
    by (destruct u; simpl in *; congruence).
  cbn [World.users World.set_faults]. rewrite Hu.
  destruct w, u; simpl in *. rewrite drop_drop. reflexivity.
Qed.

(** The save of a document that fails its validators throws before any
    write: the gate answers 500. *)
Lemma checkApiLimit_invalid env req claims w u usage :
  Users.byId (userId claims) (World.users w) = Some u ->
  User.apiUsage u = Some usage ->
  healthy 1 w = true ->
  Users.valid (Users.project false u) = false ->
  ge (ApiUsage.monthly (resetIfNewMonth (Env.now env) usage))
     (orElse (property limits (User.subscriptionType u)) 5) = false ->
  checkApiLimit env req claims w
  = (Sends (failureWith 500 "API limit check failed" (errMessage (Db.ValidationError "User"))
                        req),
     after 1 w).
Proof.
  intros Hu Ha Hh Hv Hge. rewrite (checkApiLimit_found env req claims w u usage Hu Ha Hh).
  unfold tryCatch, bind. cbv zeta. rewrite Hge.
  unfold Users.save. rewrite valid_set_apiUsage, Hv. reflexivity.
Qed.

Lemma ge_spec m n : ge m (VNumber n) = true <-> n <= m.
Proof. simpl. apply Z.leb_le. Qed.

Lemma ge_spec_false m n : ge m (VNumber n) = false <-> m < n.
Proof. simpl. apply Z.leb_gt. Qed.

(** C1 (quota gate), for an existing user with a usage ledger. Let the
    ledger be the user's usage after the possible monthly reset and the
    limit be 5, 100 or 1000 for the tiers free, premium and enterprise, and
    5 for any other or missing tier. If the tier is not a name every
    JavaScript object inherits, the monthly counter has reached the limit
    and the user lookup succeeds, the gate answers 429 and neither
    collection changes. If the document as the lookup returns it passes
    the validators of the user schema, the counter is below the limit and
    the lookup and the save succeed, the gate lets the request proceed and
    the stored user is the old one (with the default tier written where
    none was stored) with the counter increased by exactly one and the
    refreshed [updatedAt]. If the document does not pass the validators
    and the counter is below the limit or the tier is an inherited name, the
    save throws: the gate answers 500 [API limit check failed] and neither
    collection changes. *)
Theorem quota_gate env req claims w u usage :
  Users.byId (userId claims) (World.users w) = Some u ->
  User.apiUsage u = Some usage ->
  let ledger := resetIfNewMonth (Env.now env) usage in
  let tier := User.subscriptionType u in
  let limit := specLimit tier in
  let passes := Users.valid (Users.project false u) in
  (inheritedName tier = false ->
   limit <= ApiUsage.monthly ledger ->
   healthy 1 w = true ->
   exists w',
     checkApiLimit env req claims w
     = (Sends (failure 429 "Monthly API limit exceeded" req), w')
     /\ World.users w' = World.users w
     /\ World.resumes w' = World.resumes w)
  /\ (passes = true ->
      ApiUsage.monthly ledger < limit ->
      healthy 2 w = true ->
      exists w',
        checkApiLimit env req claims w = (Returns tt, w')
        /\ World.users w'
           = <[userId claims :=
                 User.set_updatedAt (Env.now env)
                   (User.set_apiUsage
                      (Some (ApiUsage.mk (ApiUsage.monthly ledger + 1)
                                         (ApiUsage.lastReset ledger) (ApiUsage.total ledger)))
                      (Users.hydrate u))]> (World.users w)
        /\ World.resumes w' = World.resumes w)
  /\ (passes = false ->
      ApiUsage.monthly ledger < limit \/ inheritedName tier = true ->
      healthy 1 w = true ->
      exists message w',
        checkApiLimit env req claims w
        = (Sends (failureWith 500 "API limit check failed" message req), w')
        /\ World.users w' = World.users w
        /\ World.resumes w' = World.resumes w).
Proof.
  intros Hu Ha ledger tier limit passes. subst ledger tier limit passes. split; [|split].
  - intros Ht Hc Hh. eexists. split; [|split].
    + apply (checkApiLimit_reject env req claims w u usage Hu Ha Hh).
      rewrite (limit_spec _ Ht). apply ge_spec. exact Hc.
    + reflexivity.
    + reflexivity.
  - intros Hv Hc Hh. destruct (valid_tier u Hv) as [Ht _]. eexists. split; [|split].
    + apply (checkApiLimit_admit env req claims w u usage Hu Ha Hh Hv).
      rewrite (limit_spec _ Ht). apply ge_spec_false. exact Hc.
    + reflexivity.
    + reflexivity.
  - intros Hv Hc Hh. eexists _, _. split; [|split].
    + apply (checkApiLimit_invalid env req claims w u usage Hu Ha Hh Hv).
      destruct (inheritedName (User.subscriptionType u)) eqn:Ht.
      * destruct (User.subscriptionType u) as [k|]; [|discriminate].
        simpl in Ht. unfold property.
        assert (Ho : own k limits = None).
        { simpl. destruct (String.eqb_spec k "free") as [->|_]; [discriminate|].
          destruct (String.eqb_spec k "premium") as [->|_]; [discriminate|].
          destruct (String.eqb_spec k "enterprise") as [->|_]; [discriminate|].
          reflexivity. }
        rewrite Ho, Ht. reflexivity.
      * destruct Hc as [Hc|Hc]; [|discriminate].
        rewrite (limit_spec _ Ht). apply ge_spec_false. exact Hc.
    + reflexivity.
    + reflexivity.
Qed.

Lemma quota_gate_witness :
  (exists w',
     checkApiLimit Examples.env (Examples.request Examples.asAlice Req.InvalidId ∅)
                   (mkClaims 1 "alice@example.com") (Examples.world ∅)
     = (Sends (failure 429 "Monthly API limit exceeded"
                       (Examples.request Examples.asAlice Req.InvalidId ∅)), w')
     /\ World.users w' = Examples.users
     /\ World.resumes w' = ∅)
  /\ (exists w',
        checkApiLimit Examples.env (Examples.request Examples.asBob Req.InvalidId ∅)
                      (mkClaims 2 "bob@example.com") (Examples.world ∅)
        = (Returns tt, w')
        /\ World.users w'
           = <[2%positive :=
                 User.set_updatedAt Examples.lateMarch
                   (User.set_apiUsage (Some (ApiUsage.mk 4 Examples.march 40)) Examples.bob)]>
               Examples.users
        /\ World.resumes w' = ∅)
  /\ (exists message w',
        checkApiLimit Examples.env asDave (mkClaims 4 "dave@example.com") daveAlone
        = (Sends (failureWith 500 "API limit check failed" message asDave), w')
        /\ World.users w' = World.users daveAlone
        /\ World.resumes w' = ∅).
Proof.
  split; [|split].
  - apply (quota_gate Examples.env (Examples.request Examples.asAlice Req.InvalidId ∅)
             (mkClaims 1 "alice@example.com") (Examples.world ∅) Examples.alice
             (ApiUsage.mk 5 Examples.march 5));
      [reflexivity | reflexivity | reflexivity | vm_compute; discriminate | reflexivity].
  - apply (quota_gate Examples.env (Examples.request Examples.asBob Req.InvalidId ∅)
             (mkClaims 2 "bob@example.com") (Examples.world ∅) Examples.bob
             (ApiUsage.mk 3 Examples.march 40));
      [reflexivity | reflexivity | reflexivity | reflexivity | reflexivity].
  - apply (quota_gate Examples.env asDave (mkClaims 4 "dave@example.com") daveAlone dave
             (ApiUsage.mk 3 Examples.march 3));
      [reflexivity | reflexivity | reflexivity | left; reflexivity | reflexivity].
Defined.

(** C1 as the specification words it, every request below the limit being
    counted and let through, fails: for a user stored with the tier "gold",
    which the schema's enum does not list, and a counter of 3, the limit is
    the default 5, the counter is below it, and the save of the incremented
    user fails validation; the gate answers 500 and the request does not
    proceed. *)
Lemma quota_claim_fails_on_unlisted_tier : ~ quota_claim_as_stated.
Proof.
  intros claim.
  destruct (claim Examples.env asDave (mkClaims 4 "dave@example.com") daveAlone dave
              (ApiUsage.mk 3 Examples.march 3) eq_refl eq_refl eq_refl) as [_ below].
  destruct below as [passed _]; [vm_compute; reflexivity|].
  vm_compute in passed. discriminate.
Qed.

(** The same request at the tier [constructor] with seven calls: the table
    lookup finds a function, the comparison is false, and the save fails. *)
Example inherited_name_is_answered_500 :
  exists message,
    checkApiLimit Examples.env (Examples.request Examples.asCarol Req.InvalidId ∅)
                  (mkClaims 3 "carol@example.com") (Examples.world ∅)
    = (Sends (failureWith 500 "API limit check failed" message
                          (Examples.request Examples.asCarol Req.InvalidId ∅)),
       Examples.world ∅).
Proof. eexists. vm_compute. reflexivity. Qed.

(** C2 (monthly reset). On every quota check that reaches the comparison:
    if the month or the year of the stored [lastReset] differs from the
    current one, the ledger is reset to counter 0 and [lastReset] now
    whatever the counter was, before the comparison, so the comparison
    passes; the user is then saved with counter 1 when the document passes
    the validators of its schema, and otherwise the save throws and the gate
    answers 500 after the one lookup. If month and year agree, the ledger is
    left as it is and the comparison is made on the stored counter: 429 when
    it has reached the limit, the save of the counter plus one when it has
    not and the document passes the validators, 500 when it does not. *)
Theorem monthly_reset env req claims w u usage :
  Users.byId (userId claims) (World.users w) = Some u ->
  User.apiUsage u = Some usage ->
  healthy 2 w = true ->
  let now := Env.now env in
  let limit := orElse (property limits (User.subscriptionType u)) 5 in
  let passes := Users.valid (Users.project false u) in
  let saved (ledger : ApiUsage.t) :=
    (Returns tt,
     World.set_users
       (<[userId claims :=
            User.set_updatedAt now (User.set_apiUsage (Some ledger) (Users.hydrate u))]>
          (World.users w))
       (after 2 w)) in
  let refused (answer : Outcome unit * World.t) :=
    exists message,
      answer = (Sends (failureWith 500 "API limit check failed" message req), after 1 w) in
  (newMonth now (ApiUsage.lastReset usage) = true ->
   resetIfNewMonth now usage = ApiUsage.mk 0 now (ApiUsage.total usage)
   /\ (passes = true ->
       checkApiLimit env req claims w = saved (ApiUsage.mk 1 now (ApiUsage.total usage)))
   /\ (passes = false -> refused (checkApiLimit env req claims w)))
  /\ (newMonth now (ApiUsage.lastReset usage) = false ->
      resetIfNewMonth now usage = usage
      /\ (ge (ApiUsage.monthly usage) limit = true ->
          checkApiLimit env req claims w
          = (Sends (failure 429 "Monthly API limit exceeded" req), after 1 w))
      /\ (ge (ApiUsage.monthly usage) limit = false -> passes = true ->
          checkApiLimit env req claims w
          = saved (ApiUsage.mk (ApiUsage.monthly usage + 1)
                               (ApiUsage.lastReset usage) (ApiUsage.total usage)))
      /\ (ge (ApiUsage.monthly usage) limit = false -> passes = false ->
          refused (checkApiLimit env req claims w))).
Proof.
  intros Hu Ha Hh now limit passes saved refused. subst now limit passes saved refused.
  assert (Hreset : forall b, newMonth (Env.now env) (ApiUsage.lastReset usage) = b ->
            resetIfNewMonth (Env.now env) usage
            = if b then ApiUsage.mk 0 (Env.now env) (ApiUsage.total usage) else usage).
  { intros b Hb. unfold resetIfNewMonth. rewrite Hb. reflexivity. }
  pose proof (healthy_S _ _ Hh) as Hh1.
  split; intros Hm; (split; [exact (Hreset _ Hm)|]).
  - split; intros Hv.
    + rewrite (checkApiLimit_admit env req claims w u usage Hu Ha Hh Hv).
      * rewrite (Hreset _ Hm). reflexivity.
      * rewrite (Hreset _ Hm). apply limit_positive.
    + eexists. apply (checkApiLimit_invalid env req claims w u usage Hu Ha Hh1 Hv).
      rewrite (Hreset _ Hm). apply limit_positive.
  - split; [|split].
    + intros Hge. apply (checkApiLimit_reject env req claims w u usage Hu Ha Hh1).
      rewrite (Hreset _ Hm). exact Hge.
    + intros Hge Hv. rewrite (checkApiLimit_admit env req claims w u usage Hu Ha Hh Hv).
      * rewrite (Hreset _ Hm). reflexivity.
      * rewrite (Hreset _ Hm). exact Hge.
    + intros Hge Hv. eexists.
      apply (checkApiLimit_invalid env req claims w u usage Hu Ha Hh1 Hv).
      rewrite (Hreset _ Hm). exact Hge.
Qed.

Lemma monthly_reset_witness :
  resetIfNewMonth Examples.lateMarch (ApiUsage.mk 5 Examples.january 17)
  = ApiUsage.mk 0 Examples.lateMarch 17
  /\ checkApiLimit Examples.env (Examples.request Examples.asAlice Req.InvalidId ∅)
                   (mkClaims 1 "alice@example.com")
                   (World.mk (<[1%positive := staleAlice]> ∅) ∅ [] [] [])
     = (Returns tt,
        World.mk
          (<[1%positive :=
               User.set_updatedAt Examples.lateMarch
                 (User.set_apiUsage (Some (ApiUsage.mk 1 Examples.lateMarch 17)) staleAlice)]>
             (<[1%positive := staleAlice]> ∅))
          ∅ [] [] []).
Proof.
  pose proof (monthly_reset Examples.env
                (Examples.request Examples.asAlice Req.InvalidId ∅)
                (mkClaims 1 "alice@example.com")
                (World.mk (<[1%positive := staleAlice]> ∅) ∅ [] [] []) staleAlice
                (ApiUsage.mk 5 Examples.january 17)) as checked.
  destruct checked as [stale _]; [reflexivity | reflexivity | reflexivity |].
  destruct stale as (reset & saved & _); [reflexivity|].
  split; [exact reset | apply saved; reflexivity].
Defined.

Lemma call_cases w :
  let w' := World.set_faults (drop 1 (World.faults w)) w in
  Db.call w = (Returns tt, w') \/ exists e, Db.call w = (Throws e, w').
Proof.
  unfold Db.call. destruct w as [us rs fs rd lg]; simpl.
  destruct fs as [|[e|] fs]; simpl; eauto.
Qed.

(** C10 (a rejection saves nothing). Whenever the quota gate answers 429,
    the users collection and the resumes collection are what they were; the
    user exists, carries a usage ledger whose month is the current one (no
    reset was made in memory), and the stored counter itself reached the
    limit. *)
Theorem rejection_leaves_user env req claims w r w' :
  checkApiLimit env req claims w = (Sends r, w') ->
  Res.status r = 429 ->
  World.users w' = World.users w
  /\ World.resumes w' = World.resumes w
  /\ exists u usage,
       Users.byId (userId claims) (World.users w) = Some u
       /\ User.apiUsage u = Some usage
       /\ newMonth (Env.now env) (ApiUsage.lastReset usage) = false
       /\ resetIfNewMonth (Env.now env) usage = usage
       /\ ge (ApiUsage.monthly usage) (orElse (property limits (User.subscriptionType u)) 5)
          = true.
Proof.
  unfold checkApiLimit, tryCatch, bind, Users.findById, bind.
  destruct (call_cases w) as [Hc|[e Hc]]; rewrite Hc; simpl.
  2:{ intros [= <- <-]. simpl. discriminate. }
  destruct (Users.byId (userId claims) (World.users w)) as [u|] eqn:Hu.
  2:{ simpl. intros [= <- <-]. simpl. discriminate. }
  change (Users.project false <$> Some u) with (Some (Users.project false u)).
  cbv beta iota zeta.
  destruct (project_fields u) as (_ & -> & -> & _). rewrite limit_hydrate.
  destruct (User.apiUsage u) as [usage|] eqn:Ha.
  2:{ simpl. intros [= <- <-]. simpl. discriminate. }
  destruct (ge _ _) eqn:Hge.
  - intros [= <- <-] _. split; [reflexivity|]. split; [reflexivity|].
    exists u, usage.
    assert (Hm : newMonth (Env.now env) (ApiUsage.lastReset usage) = false).
    { destruct (newMonth (Env.now env) (ApiUsage.lastReset usage)) eqn:Hm; [|reflexivity].
      unfold resetIfNewMonth in Hge. rewrite Hm in Hge. simpl ApiUsage.monthly in Hge.
      rewrite limit_positive in Hge. discriminate. }
    unfold resetIfNewMonth in *. rewrite Hm in *. auto.
  - unfold Users.save. destruct (negb _).
    + simpl. intros [= <- <-]. simpl. discriminate.
    + unfold bind.
      match goal with |- context [Db.call ?x] => destruct (call_cases x) as [Hd|[e Hd]]; rewrite Hd end;
        simpl.
      * destruct (byId_id _ _ _ Hu) as [Hid _]. rewrite Hid, Hu. simpl. intros [= ].
      * intros [= <- <-]. simpl. discriminate.
Qed.

Lemma rejection_leaves_user_witness :
  World.users (World.set_faults [] (Examples.world ∅)) = World.users (Examples.world ∅)
  /\ World.resumes (World.set_faults [] (Examples.world ∅)) = World.resumes (Examples.world ∅)
  /\ exists u usage,
       Users.byId 1 (World.users (Examples.world ∅)) = Some u
       /\ User.apiUsage u = Some usage
       /\ newMonth Examples.lateMarch (ApiUsage.lastReset usage) = false
       /\ resetIfNewMonth Examples.lateMarch usage = usage
       /\ ge (ApiUsage.monthly usage) (orElse (property limits (User.subscriptionType u)) 5)
          = true.
Proof.
  apply (rejection_leaves_user Examples.env (Examples.request Examples.asAlice Req.InvalidId ∅)
           (mkClaims 1 "alice@example.com") (Examples.world ∅)
           (failure 429 "Monthly API limit exceeded"
                    (Examples.request Examples.asAlice Req.InvalidId ∅))
           (World.set_faults [] (Examples.world ∅)));
    reflexivity.
Defined.

(** ** Upload: C3 *)

Lemma strlen_zero s : (strlen s =? 0) = String.eqb s "".
Proof. destruct s; reflexivity. Qed.

Lemma eqb_empty s : String.eqb s "" = true <-> s = "".
Proof. apply String.eqb_eq. Qed.

Lemma find_values {A} (P : A -> bool) (m : gmap positive A) :
  (exists id r, m !! id = Some r /\ P r = true) <-> is_Some (List.find P (map_to_list m).*2).
Proof.
  split.
  - intros (id & r & Hm & HP). destruct (List.find P _) eqn:E; [eauto|].
    exfalso. pose proof (find_none _ _ E r) as Hn.
    rewrite Hn in HP; [discriminate|].
    apply list_elem_of_In, list_elem_of_fmap. exists (id, r). split; [reflexivity|].
    apply elem_of_map_to_list. exact Hm.
  - intros [r E]. apply find_some in E as [Hin HP].
    apply list_elem_of_In, list_elem_of_fmap in Hin as ([id r'] & -> & Hin).
    apply elem_of_map_to_list in Hin. eauto.
Qed.

Lemma findOneByFileName_healthy owner fileName w :
  healthy 1 w = true ->
  exists found,
    Resumes.findOneByFileName owner fileName w
    = (Returns found, World.set_faults (drop 1 (World.faults w)) w)
    /\ (is_Some found <-> duplicate owner fileName (World.resumes w)).
Proof.
  intros H. apply call_healthy in H as [H _].
  unfold Resumes.findOneByFileName, bind. rewrite H. simpl.
  eexists. split; [reflexivity|]. rewrite <- find_values. unfold duplicate.
  split; intros (id & r & Hm & HP); exists id, r; (split; [exact Hm|]).
  - apply andb_true_iff in HP as [H1 H2]. apply bool_decide_eq_true in H1.
    apply String.eqb_eq in H2. auto.
  - destruct HP as [H1 H2]. apply andb_true_iff. split.
    + apply bool_decide_eq_true. exact H1.
    + apply String.eqb_eq. exact H2.
Qed.

Section Upload.

Variables (env : Env.t) (req : Req.t) (w : World.t).

Variables (owner : positive) (email : string) (file : Req.File) (text : string).

Hypothesis authenticated : Req.authorization req = Req.Verified owner email.

Hypothesis uploaded_file : Req.file req = Some file.

Hypothesis extracted : ResumeRoutes.extraction env file = Gives text.

Lemma upload_empty :
  trim text = "" ->
  ResumeRoutes.upload env req w
  = (Sends (failure 400 "No text content found in the uploaded file" req), w).
Proof.
  intros He. unfold ResumeRoutes.upload, bind, authenticateToken, tryCatch.
  rewrite authenticated, uploaded_file, extracted. simpl.
  rewrite He. reflexivity.
Qed.

Lemma upload_duplicate :
  trim text <> "" ->
  healthy 1 w = true ->
  duplicate owner (Req.originalname file) (World.resumes w) ->
  ResumeRoutes.upload env req w
  = (Sends (failure 409 "A resume with this filename already exists" req),
     after 1 w).
Proof.
  intros Hne Hh Hd. unfold ResumeRoutes.upload, bind, authenticateToken, tryCatch.
  rewrite authenticated, uploaded_file, extracted. simpl.
  rewrite strlen_zero. destruct (String.eqb (trim text) "") eqn:E.
  { apply String.eqb_eq in E. contradiction. }
  destruct (findOneByFileName_healthy owner (Req.originalname file) w Hh) as (found & Hf & Hiff).
  rewrite Hf. apply Hiff in Hd as [r ->]. reflexivity.
Qed.

Lemma upload_created title :
  trim text <> "" ->
  healthy 2 w = true ->
  ~ duplicate owner (Req.originalname file) (World.resumes w) ->
  ResumeRoutes.titleOf req file = Some title ->
  title <> "" -> strlen title <= 200 -> Req.originalname file <> "" ->
  World.resumes w !! Env.newId env = None ->
  ResumeRoutes.upload env req w
  = (Returns
       (success "Resume uploaded successfully"
          (JObj [ ("resumeId", JId (Env.newId env));
                  ("title", JStr title);
                  ("extractedText", JStr (ResumeRoutes.truncated text));
                  ("fileName", JStr (Req.originalname file));
                  ("fileType", JStr (FileType_toString (Req.mimetype file)));
                  ("status", JStr "uploaded");
                  ("createdAt", JDate (Env.now env)) ]) req),
     World.set_resumes
       (<[Env.newId env := uploadedRecord env owner file text title]> (World.resumes w))
       (after 2 w)).
Proof.
  intros Hne Hh Hd Ht Ht1 Ht2 Hf Hfresh. unfold after.
  unfold ResumeRoutes.upload, bind, authenticateToken, tryCatch.
  rewrite authenticated, uploaded_file, extracted. simpl.
  rewrite strlen_zero. destruct (String.eqb (trim text) "") eqn:E.
  { apply String.eqb_eq in E. contradiction. }
  destruct (findOneByFileName_healthy owner (Req.originalname file) w (healthy_S _ _ Hh))
    as (found & Hfd & Hiff).
  rewrite Hfd. destruct found as [r|].
  { exfalso. apply Hd, Hiff. eauto. }
  rewrite Ht. simpl. unfold Resumes.create, Resume.validNew. simpl.
  apply call_healthy in Hh as [_ Hh]. apply call_healthy in Hh as [Hc _].
  assert (E1 : String.eqb title "" = false) by (apply String.eqb_neq; exact Ht1).
  assert (E2 : String.eqb (Req.originalname file) "" = false) by (apply String.eqb_neq; exact Hf).
  assert (E3 : (strlen title <=? 200) = true) by (apply Z.leb_le; exact Ht2).
  rewrite E1, E2, E3, E. simpl. unfold bind. rewrite Hc. simpl.
  rewrite Hfresh. simpl. destruct w; simpl. rewrite drop_drop. reflexivity.
Qed.

(** The title fails the schema: it cannot be cast, it is empty, or it is
    longer than 200 characters. *)
Lemma upload_refused :
  trim text <> "" ->
  healthy 1 w = true ->
  ~ duplicate owner (Req.originalname file) (World.resumes w) ->
  match ResumeRoutes.titleOf req file with
  | Some title => title = "" \/ 200 < strlen title
  | None => True
  end ->
  ResumeRoutes.upload env req w
  = (Returns (failureWith 500 "Error uploading resume"
                          (detail env (Db.ValidationError "Resume")) req),
     after 1 w).
Proof.
  intros Hne Hh Hd Ht. unfold after.
  unfold ResumeRoutes.upload, bind, authenticateToken, tryCatch.
  rewrite authenticated, uploaded_file, extracted. simpl.
  rewrite strlen_zero. destruct (String.eqb (trim text) "") eqn:E.
  { apply String.eqb_eq in E. contradiction. }
  destruct (findOneByFileName_healthy owner (Req.originalname file) w Hh)
    as (found & Hfd & Hiff).
  rewrite Hfd. destruct found as [r|].
  { exfalso. apply Hd, Hiff. eauto. }
  destruct (ResumeRoutes.titleOf req file) as [title|]; [|reflexivity].
  simpl. unfold Resumes.create, Resume.validNew. simpl.
  destruct Ht as [->|Ht]; [reflexivity|].
  apply Z.leb_gt in Ht. rewrite Ht, andb_false_r. reflexivity.
Qed.

End Upload.

(** C3 as the specification words it, a record being created whenever the
    text is non-empty and no duplicate exists, fails: an upload with a
    [title] field of 201 characters does not pass [maxlength: 200], the save
    throws, and no record is stored. *)
Lemma upload_claim_fails_on_long_title : ~ upload_claim_as_stated.
Proof.
  intros claim.
  destruct (claim Examples.env longTitleUpload (Examples.world ∅) 1%positive
              "alice@example.com" (Req.mkFile txt "cv.txt" "Ten years of experience")
              "Ten years of experience")
    as (_ & _ & created); [reflexivity | reflexivity | reflexivity | reflexivity | reflexivity |].
  destruct created as (record & stored & _).
  - vm_compute. discriminate.
  - intros (id & r & Hr & _). vm_compute in Hr. discriminate.
  - vm_compute in stored. discriminate.
Qed.

Example long_title_upload_answer :
  route Examples.env longTitleUpload (ResumeRoutes.upload Examples.env longTitleUpload)
        (Examples.world ∅)
  = (failureWith 500 "Error uploading resume" "Internal server error" longTitleUpload,
     Examples.world ∅).
Proof. vm_compute. reflexivity. Qed.

(** C3 (upload), for an authenticated upload whose text extraction
    succeeds. If the trimmed text is empty the answer is 400 and the world is
    unchanged. If it is not and a record of the same owner and file name
    exists, the answer is 409 and no collection changes. Otherwise, when the
    title (the [title] field or the file name up to its first dot) is
    non-empty and at most 200 characters long, the file name is non-empty and
    the fresh identifier is unused, a record is created with status
    [uploaded] and [originalText] the trimmed text. And when the title is
    empty, longer than 200 characters or no string, the save throws: the
    answer is 500 [Error uploading resume] after the one lookup, and no
    record is created. *)
Theorem upload_outcomes env req w owner email file text :
  Req.authorization req = Req.Verified owner email ->
  Req.file req = Some file ->
  ResumeRoutes.extraction env file = Gives text ->
  (trim text = "" ->
   run env req ResumeRoutes.upload w
   = (failure 400 "No text content found in the uploaded file" req, w))
  /\ (trim text <> "" ->
      healthy 1 w = true ->
      duplicate owner (Req.originalname file) (World.resumes w) ->
      run env req ResumeRoutes.upload w
      = (failure 409 "A resume with this filename already exists" req, after 1 w))
  /\ (forall title,
      trim text <> "" ->
      healthy 2 w = true ->
      ~ duplicate owner (Req.originalname file) (World.resumes w) ->
      ResumeRoutes.titleOf req file = Some title ->
      title <> "" -> strlen title <= 200 -> Req.originalname file <> "" ->
      World.resumes w !! Env.newId env = None ->
      run env req ResumeRoutes.upload w
      = (uploadResponse env req file text title,
         World.set_resumes
           (<[Env.newId env := uploadedRecord env owner file text title]> (World.resumes w))
           (after 2 w))
      /\ Resume.status (uploadedRecord env owner file text title) = uploaded
      /\ Resume.originalText (uploadedRecord env owner file text title) = trim text)
  /\ (trim text <> "" ->
      healthy 1 w = true ->
      ~ duplicate owner (Req.originalname file) (World.resumes w) ->
      match ResumeRoutes.titleOf req file with
      | Some title => title = "" \/ 200 < strlen title
      | None => True
      end ->
      run env req ResumeRoutes.upload w
      = (failureWith 500 "Error uploading resume" (detail env (Db.ValidationError "Resume"))
                     req,
         after 1 w)
      /\ World.resumes (after 1 w) = World.resumes w).
Proof.
  intros Hauth Hfile Htext. unfold run, route. split; [|split; [|split]].
  - intros He. rewrite (upload_empty env req w owner email file text Hauth Hfile Htext He).
    reflexivity.
  - intros Hne Hh Hd.
    rewrite (upload_duplicate env req w owner email file text Hauth Hfile Htext Hne Hh Hd).
    reflexivity.
  - intros title Hne Hh Hd Ht Ht1 Ht2 Hf Hfresh.
    rewrite (upload_created env req w owner email file text Hauth Hfile Htext title
               Hne Hh Hd Ht Ht1 Ht2 Hf Hfresh).
    repeat split.
  - intros Hne Hh Hd Ht.
    rewrite (upload_refused env req w owner email file text Hauth Hfile Htext Hne Hh Hd Ht).
    split; reflexivity.
Qed.

Lemma upload_outcomes_witness :
  run Examples.env (plainUpload "   ") ResumeRoutes.upload Samples.world
  = (failure 400 "No text content found in the uploaded file" (plainUpload "   "), Samples.world)
  /\ run Examples.env (plainUpload "Eleven years") ResumeRoutes.upload Samples.world
     = (failure 409 "A resume with this filename already exists" (plainUpload "Eleven years"),
        after 1 Samples.world)
  /\ World.resumes
       (snd (run Examples.env (plainUpload " Ten years ") ResumeRoutes.upload (Examples.world ∅)))
     !! 90%positive
     = Some (uploadedRecord Examples.env 1 (Req.mkFile txt "cv.txt" " Ten years ")
                            " Ten years " "cv")
  /\ run Examples.env longTitleUpload ResumeRoutes.upload (Examples.world ∅)
     = (failureWith 500 "Error uploading resume" "Internal server error" longTitleUpload,
        Examples.world ∅).
Proof.
  split; [|split; [|split]].
  - refine (proj1 (upload_outcomes Examples.env (plainUpload "   ") Samples.world 1
                     "alice@example.com" (Req.mkFile txt "cv.txt" "   ") "   " _ _ _) _);
      reflexivity.
  - refine (proj1 (proj2 (upload_outcomes Examples.env (plainUpload "Eleven years") Samples.world 1
                     "alice@example.com" (Req.mkFile txt "cv.txt" "Eleven years") "Eleven years"
                     _ _ _)) _ _ _);
      first [ reflexivity | vm_compute; discriminate
            | exists 7%positive, Samples.cv; repeat split ].
  - destruct (proj1 (proj2 (proj2 (upload_outcomes Examples.env (plainUpload " Ten years ")
                     (Examples.world ∅) 1 "alice@example.com"
                     (Req.mkFile txt "cv.txt" " Ten years ") " Ten years "
                     eq_refl eq_refl eq_refl))) "cv") as (-> & _);
      first [ reflexivity | vm_compute; discriminate | vm_compute; lia
            | intros (id & r & Hr & _); vm_compute in Hr; discriminate
            | simpl; apply lookup_insert_eq ].
  - destruct (proj2 (proj2 (proj2 (upload_outcomes Examples.env longTitleUpload
                     (Examples.world ∅) 1 "alice@example.com"
                     (Req.mkFile txt "cv.txt" "Ten years of experience")
                     "Ten years of experience" eq_refl eq_refl eq_refl)))) as (-> & _);
      first [ reflexivity | vm_compute; discriminate
            | intros (id & r & Hr & _); vm_compute in Hr; discriminate
            | right; vm_compute; reflexivity ].
Defined.

(** ** The database operations when the database answers *)

Lemma after_after n m w : after n (after m w) = after (m + n) w.
Proof. destruct w; unfold after; simpl. rewrite drop_drop. reflexivity. Qed.

Lemma healthy_after n w : healthy (S n) w = true -> healthy n (after 1 w) = true.
Proof. intros H. apply (call_healthy n w H). Qed.

Lemma findOne_healthy id owner w :
  healthy 1 w = true ->
  Resumes.findOne id owner w = (Returns (Resumes.owned id owner (World.resumes w)), after 1 w).
Proof.
  intros H. apply call_healthy in H as [H _].
  unfold Resumes.findOne, bind. rewrite H. reflexivity.
Qed.

Lemma save_invalid env loaded doc w :
  Resume.validNew doc = false ->
  Resumes.save env loaded doc w = (Throws (Db.ValidationError "Resume"), w).
Proof. intros Hv. unfold Resumes.save. rewrite Hv. reflexivity. Qed.

(** A save with nothing to write still asks the database for the
    document. *)
Lemma save_unchanged env r w :
  Resume.validNew r = true -> healthy 1 w = true ->
  is_Some (Resumes.byId (Resume._id r) (World.resumes w)) ->
  Resumes.save env r r w = (Returns r, after 1 w).
Proof.
  intros Hv H [stored Hs]. apply call_healthy in H as [H _].
  unfold Resumes.save. rewrite Hv. simpl. unfold bind. rewrite H. simpl. rewrite Hs.
  destruct (decide _); [reflexivity|congruence].
Qed.

Lemma versioned_same old doc :
  Resume.jobMatching old = Resume.jobMatching doc ->
  Resume.versions old = Resume.versions doc ->
  Resume.versioned old doc = doc.
Proof.
  intros Hj Hv. unfold Resume.versioned. destruct (decide _) as [_|N]; [reflexivity|].
  exfalso. apply N. split; assumption.
Qed.

Lemma versioned_push r j :
  Resume.versioned r (Resume.set_jobMatching (Resume.jobMatching r ++ [j]) r)
  = Resume.set___v (Resume.__v r + 1)
      (Resume.set_jobMatching (Resume.jobMatching r ++ [j]) r).
Proof.
  unfold Resume.versioned. destruct (decide _) as [[E _]|_]; [|reflexivity].
  exfalso. apply (f_equal (@List.length _)) in E. simpl in E.
  rewrite length_app in E. simpl in E. lia.
Qed.

Lemma versioned_id old doc : Resume._id (Resume.versioned old doc) = Resume._id doc.
Proof. unfold Resume.versioned. destruct (decide _); reflexivity. Qed.

Lemma save_healthy env loaded doc w :
  loaded <> doc -> Resume.validNew doc = true -> healthy 1 w = true ->
  is_Some (Resumes.byId (Resume._id doc) (World.resumes w)) ->
  Resumes.save env loaded doc w
  = (Returns (Resume.set_updatedAt (Env.now env) (Resume.versioned loaded doc)),
     World.set_resumes
       (<[Resume._id doc :=
            Resume.set_updatedAt (Env.now env) (Resume.versioned loaded doc)]> (World.resumes w))
       (after 1 w)).
Proof.
  intros Hne Hv H [stored Hs]. apply call_healthy in H as [H _].
  unfold Resumes.save. rewrite Hv. simpl. unfold bind. rewrite H. simpl. rewrite Hs.
  destruct (decide _); [congruence|reflexivity].
Qed.



(** The rounded product of a draw below 1 and [n] is below [n]. *)
Lemma nearestDouble_bound k n :
  0 <= k < 2 ^ 53 -> 0 < n -> 0 <= nearestDouble (k * n) / 2 ^ 53 < n.
Proof.
  intros Hk Hn. set (m := k * n).
  assert (Hm : 0 <= m <= 2 ^ 53 * n - n) by (subst m; nia).
  unfold nearestDouble. fold m.
  destruct (Z.leb_spec (Z.log2 m + 1 - 53) 0) as [Hs|Hs].
  { split; [apply Z.div_pos; lia|apply Z.div_lt_upper_bound; lia]. }
  set (s := Z.log2 m + 1 - 53) in *.
  assert (Hpos : 0 < m).
  { destruct (Z.eq_dec m 0) as [E|]; [|lia]. subst s. rewrite E in Hs. simpl in Hs. lia. }
  pose proof (Z.log2_spec m Hpos) as [Hlo _].
  replace (Z.log2 m) with ((s - 1) + 53) in Hlo by (subst s; lia).
  rewrite Z.pow_add_r in Hlo by lia.
  assert (Hpow : 2 ^ s = 2 * 2 ^ (s - 1)).
  { replace s with (1 + (s - 1)) at 1 by lia. rewrite Z.pow_add_r by lia. reflexivity. }
  pose proof (Z.pow_pos_nonneg 2 (s - 1) ltac:(lia) ltac:(lia)) as Hhalf.
  pose proof (Z.div_mod m (2 ^ s) ltac:(lia)) as Hdiv.
  pose proof (Z.mod_pos_bound m (2 ^ s) ltac:(lia)) as Hrem.
  pose proof (Z.div_pos m (2 ^ s) ltac:(lia) ltac:(lia)) as Hq.
  set (q := m / 2 ^ s) in *. set (r := m mod 2 ^ s) in *. set (half := 2 ^ (s - 1)) in *.
  assert (Hup : (half <? r) || ((r =? half) && Z.odd q) = true -> half <= r).
  { intros H. apply orb_true_iff in H as [H|H].
    - apply Z.ltb_lt in H. lia.
    - apply andb_true_iff in H as [H _]. apply Z.eqb_eq in H. lia. }
  destruct ((half <? r) || ((r =? half) && Z.odd q)) eqn:E.
  - specialize (Hup eq_refl).
    split; [apply Z.div_pos; nia|apply Z.div_lt_upper_bound; [lia|nia]].
  - split; [apply Z.div_pos; nia|apply Z.div_lt_upper_bound; [lia|nia]].
Qed.

(** ** The generation service never throws *)

Lemma randomBelow_spec n w :
  exists k w', randomBelow n w = (Returns k, w')
    /\ World.users w' = World.users w /\ World.resumes w' = World.resumes w
    /\ World.faults w' = World.faults w /\ World.log w' = World.log w
    /\ (0 < n -> 0 <= k < n).
Proof.
  unfold randomBelow. destruct w as [us rs fs [|k rd] lg]; simpl.
  - eexists _, _. split; [reflexivity|]. repeat split; lia.
  - eexists _, _. split; [reflexivity|]. repeat split; try reflexivity;
      apply nearestDouble_bound; try assumption; apply Z.mod_pos_bound; lia.
Qed.

Lemma getMockAnalysis_spec w :
  exists a w', GoogleAI.getMockAnalysis w = (Returns a, w')
    /\ sameStore w w' /\ World.log w' = World.log w /\ mockAnalysis a.
Proof.
  unfold GoogleAI.getMockAnalysis, bind.
  destruct (randomBelow_spec 20 w) as (s & w1 & -> & Hu1 & Hr1 & Hf1 & Hl1 & Hs).
  destruct (randomBelow_spec 15 w1) as (t & w2 & -> & Hu2 & Hr2 & Hf2 & Hl2 & Ht).
  eexists _, _. split; [reflexivity|]. unfold sameStore, mockAnalysis, within, nonEmpty. simpl.
  repeat split; try congruence; eauto.
  - exists (s + 75). split; [reflexivity|lia].
  - exists (t + 80). split; [reflexivity|lia].
Qed.

Lemma getMockJobMatch_spec w :
  exists m w', GoogleAI.getMockJobMatch w = (Returns m, w')
    /\ sameStore w w' /\ World.log w' = World.log w /\ mockMatch m.
Proof.
  unfold GoogleAI.getMockJobMatch, bind.
  destruct (randomBelow_spec 30 w) as (s & w1 & -> & Hu1 & Hr1 & Hf1 & Hl1 & Hs).
  eexists _, _. split; [reflexivity|]. unfold sameStore, mockMatch, within, nonEmpty. simpl.
  repeat split; try congruence; eauto.
  exists (s + 65). split; [reflexivity|lia].
Qed.

Lemma analyzeResume_spec env text w :
  exists a w', GoogleAI.analyzeResume env text w = (Returns a, w')
    /\ sameStore w w'
    /\ World.log w' = (World.log w ++ [Generate (World.resumes w)])%list
    /\ (fallback (Env.useMock env) (Live.analyze (Env.model env) text) -> mockAnalysis a)
    /\ (forall a', Env.useMock env = false -> Live.analyze (Env.model env) text = Gives a' ->
        a = a').
Proof.
  unfold GoogleAI.analyzeResume, bind, GoogleAI.called, modify. simpl.
  destruct (getMockAnalysis_spec (generated w)) as (a & w' & Hm & (Hu & Hr & Hf) & Hl & Ha).
  fold (generated w).
  destruct (Env.useMock env) eqn:Hmock.
  - exists a, w'. rewrite Hm. split; [reflexivity|]. split; [split; [|split]; assumption|].
    split; [exact Hl|]. split; [auto|]. intros a' [=].
  - unfold tryCatch, attempt. destruct (Live.analyze _ _) as [e|a0] eqn:Hreply; simpl.
    + exists a, w'. rewrite Hm. split; [reflexivity|]. split; [split; [|split]; assumption|].
      split; [exact Hl|]. split; [auto|]. intros a' _ [=].
    + exists a0, (generated w). split; [reflexivity|]. split; [repeat split|].
      split; [reflexivity|]. split.
      * intros [[=]|[e [=]]].
      * intros a' _ [= ->]. reflexivity.
Qed.

Lemma enhanceResume_spec env text role industry w :
  exists t, GoogleAI.enhanceResume env text role industry w = (Returns t, generated w)
    /\ (fallback (Env.useMock env) (Live.enhance (Env.model env) text role industry) ->
        t = GoogleAI.getMockEnhancement text role industry)
    /\ (forall t', Env.useMock env = false ->
        Live.enhance (Env.model env) text role industry = Gives t' -> t = t').
Proof.
  unfold GoogleAI.enhanceResume, bind, GoogleAI.called, modify. simpl. fold (generated w).
  destruct (Env.useMock env) eqn:Hmock.
  - eexists. split; [reflexivity|]. split; [auto|]. intros t' [=].
  - unfold tryCatch, attempt. destruct (Live.enhance _ _ _ _) as [e|t0] eqn:Hreply; simpl.
    + eexists. split; [reflexivity|]. split; [auto|]. intros t' _ [=].
    + eexists. split; [reflexivity|]. split.
      * intros [[=]|[e [=]]].
      * intros t' _ [= ->]. reflexivity.
Qed.

Lemma matchJobDescription_spec env text title description company w :
  let reply := Live.matchJob (Env.model env) text title description
                             (from_option id (JStr "") company) in
  exists m w', GoogleAI.matchJobDescription env text title description company w
               = (Returns m, w')
    /\ sameStore w w'
    /\ World.log w' = (World.log w ++ [Generate (World.resumes w)])%list
    /\ (fallback (Env.useMock env) reply -> mockMatch m)
    /\ (forall m', Env.useMock env = false -> reply = Gives m' -> m = m').
Proof.
  intros reply. subst reply.
  unfold GoogleAI.matchJobDescription, bind, GoogleAI.called, modify. simpl.
  destruct (getMockJobMatch_spec (generated w)) as (m & w' & Hm & (Hu & Hr & Hf) & Hl & Ha).
  fold (generated w).
  destruct (Env.useMock env) eqn:Hmock.
  - exists m, w'. rewrite Hm. split; [reflexivity|]. split; [split; [|split]; assumption|].
    split; [exact Hl|]. split; [auto|]. intros a' [=].
  - unfold tryCatch, attempt. destruct (Live.matchJob _ _ _ _ _) as [e|m0] eqn:Hreply; simpl.
    + exists m, w'. rewrite Hm. split; [reflexivity|]. split; [split; [|split]; assumption|].
      split; [exact Hl|]. split; [auto|]. intros a' _ [=].
    + exists m0, (generated w). split; [reflexivity|]. split; [repeat split|].
      split; [reflexivity|]. split.
      * intros [[=]|[e [=]]].
      * intros a' _ [= ->]. reflexivity.
Qed.

(** ** Analyze *)

Lemma healthy_faults n w w' : World.faults w' = World.faults w -> healthy n w' = healthy n w.
Proof. unfold healthy. intros ->. reflexivity. Qed.

Lemma healthy_le n m w : (n <= m)%nat -> healthy m w = true -> healthy n w = true.
Proof.
  induction 1 as [|m Hle IH]; [auto|]. intros H. apply IH, healthy_S, H.
Qed.

Lemma healthy_drop n m w w' :
  healthy (n + m) w = true -> World.faults w' = drop n (World.faults w) ->
  healthy m w' = true.
Proof.
  unfold healthy. intros H ->. revert H. generalize (World.faults w) as fs.
  induction n as [|n IH]; intros fs; simpl.
  - rewrite drop_0. auto.
  - destruct fs as [|f fs]; simpl.
    + intros _. destruct m; reflexivity.
    + intros H. apply andb_true_iff in H as [_ H]. apply IH, H.
Qed.


Lemma byId_lookup id (resumes : gmap positive Resume.t) r :
  resumes !! id = Some r -> Resume._id r = id -> Resumes.byId id resumes = Some r.
Proof.
  intros H1 H2. unfold Resumes.byId. rewrite H1. destruct (decide _); [reflexivity|contradiction].
Qed.

Lemma owned_byId id owner resumes r :
  Resumes.owned id owner resumes = Some r ->
  Resumes.byId id resumes = Some r /\ Resume.userId r = owner /\ Resume._id r = id
  /\ resumes !! id = Some r.
Proof.
  unfold Resumes.owned, Resumes.byId. destruct (resumes !! id) as [r'|]; [|discriminate].
  destruct (decide (Resume._id r' = id)); [|discriminate].
  destruct (decide (Resume.userId r' = owner)); [|discriminate].
  intros [= ->]. auto.
Qed.

Lemma admitted_gate env req owner email w :
  admitted env owner w -> healthy 2 w = true ->
  exists w1,
    checkApiLimit env req (mkClaims owner email) w = (Returns tt, w1)
    /\ World.resumes w1 = World.resumes w
    /\ World.faults w1 = drop 2 (World.faults w)
    /\ World.log w1 = World.log w
    /\ World.random w1 = World.random w.
Proof.
  intros (u & usage & Hu & Ha & Hv & Hge) Hh.
  eexists. split; [apply (checkApiLimit_admit env req (mkClaims owner email) w u usage Hu Ha Hh Hv Hge)|].
  simpl. auto.
Qed.


Lemma getMockJobMatch_random w1 w2 :
  World.random w1 = World.random w2 ->
  fst (GoogleAI.getMockJobMatch w1) = fst (GoogleAI.getMockJobMatch w2).
Proof.
  unfold GoogleAI.getMockJobMatch, bind, randomBelow.
  destruct w1 as [u1 r1 f1 d1 l1], w2 as [u2 r2 f2 d2 l2]. simpl. intros ->.
  destruct d2 as [|k rd]; reflexivity.
Qed.


Lemma matchJobDescription_at env text title description company w w4 m :
  fst (GoogleAI.matchJobDescription env text title description company w) = Returns m ->
  World.random w4 = World.random w ->
  exists w5,
    GoogleAI.matchJobDescription env text title description company w4 = (Returns m, w5)
    /\ sameStore w4 w5
    /\ World.log w5 = (World.log w4 ++ [Generate (World.resumes w4)])%list.
Proof.
  intros Ha Hr.
  destruct (matchJobDescription_spec env text title description company w4)
    as (a4 & w5 & Hrun & Hs & Hl & _).
  exists w5. split; [|auto].
  assert (E : fst (GoogleAI.matchJobDescription env text title description company w4)
              = fst (GoogleAI.matchJobDescription env text title description company w)).
  { unfold GoogleAI.matchJobDescription, bind, GoogleAI.called, modify. simpl.
    destruct (Env.useMock env).
    - apply getMockJobMatch_random. simpl. exact Hr.
    - unfold tryCatch, attempt. destruct (Live.matchJob _ _ _ _ _); simpl; [|reflexivity].
      apply getMockJobMatch_random. simpl. exact Hr. }
  rewrite Hrun in E. simpl in E. rewrite Ha in E. injection E as ->. exact Hrun.
Qed.











Section Analyze.

Variables (env : Env.t) (req : Req.t) (w : World.t).

Variables (id owner : positive) (email : string) (r : Resume.t) (a : Live.Analysis).

Hypothesis valid_id : Req.resumeId req = Req.ValidId id.

Hypothesis authenticated : Req.authorization req = Req.Verified owner email.

Hypothesis quota : admitted env owner w.

Hypothesis found : Resumes.owned id owner (World.resumes w) = Some r.

Hypothesis has_text : Resume.originalText r <> "".

Hypothesis passes : Resume.validNew r = true.

Hypothesis answer : fst (GoogleAI.analyzeResume env (Resume.originalText r) w) = Returns a.









End Analyze.

(** ** Enhance, history and match *)

(** The validators do not look at the enhanced text. *)
Lemma valid_enhance r st t :
  Resume.validNew (Resume.set_status st (Resume.set_enhancedText t r)) = Resume.validNew r.
Proof. destruct r; reflexivity. Qed.

(** On a record that passes, the record with one more job match passes
    if the new entry does. *)
Lemma valid_push r j :
  Resume.validNew r = true ->
  Resume.validNew (Resume.set_jobMatching (Resume.jobMatching r ++ [j]) r) = JobMatch.valid j.
Proof.
  unfold Resume.validNew. destruct r; simpl. rewrite !andb_true_iff.
  intros [[[[[-> ->] ->] ->] ->] Hj]. simpl.
  rewrite forallb_app, Hj. simpl. apply andb_true_r.
Qed.

Lemma enhancedRecord_fields env r t :
  let e := enhancedRecord env r t in
  Resume.status e = enhanced /\ Resume.enhancedText e = Some t
  /\ Resume._id e = Resume._id r /\ Resume.userId e = Resume.userId r
  /\ Resume.title e = Resume.title r /\ Resume.originalText e = Resume.originalText r
  /\ Resume.fileName e = Resume.fileName r /\ Resume.fileType e = Resume.fileType r
  /\ Resume.analysisResults e = Resume.analysisResults r
  /\ Resume.jobMatching e = Resume.jobMatching r /\ Resume.versions e = Resume.versions r
  /\ Resume.createdAt e = Resume.createdAt r.
Proof.
  unfold enhancedRecord. destruct (decide _) as [E|E].
  - simpl. split; [rewrite E at 1; reflexivity|]. split; [rewrite E at 1; destruct r; reflexivity|].
    repeat split.
  - destruct r; simpl. repeat split.
Qed.

Lemma enhanceResume_at env text role industry w w4 t :
  fst (GoogleAI.enhanceResume env text role industry w) = Returns t ->
  GoogleAI.enhanceResume env text role industry w4 = (Returns t, generated w4).
Proof.
  unfold GoogleAI.enhanceResume, bind, GoogleAI.called, modify, tryCatch, attempt, ret.
  simpl. destruct (Env.useMock env); simpl.
  - intros [= ->]. reflexivity.
  - destruct (Live.enhance _ _ _ _); simpl; intros [= ->]; reflexivity.
Qed.

Section Enhance.

Variables (env : Env.t) (req : Req.t) (w : World.t).

Variables (id owner : positive) (email : string) (r : Resume.t).

Variables (targetRole targetIndustry enhancedText : string).

Hypothesis valid_id : Req.resumeId req = Req.ValidId id.

Hypothesis role : requiredString (Req.body req !! "targetRole") = Some targetRole.

Hypothesis industry : requiredString (Req.body req !! "targetIndustry") = Some targetIndustry.

Hypothesis authenticated : Req.authorization req = Req.Verified owner email.

Hypothesis quota : admitted env owner w.

Hypothesis found : Resumes.owned id owner (World.resumes w) = Some r.

Hypothesis has_text : Resume.originalText r <> "".

Hypothesis passes : Resume.validNew r = true.

Hypothesis answer :
  fst (GoogleAI.enhanceResume env (Resume.originalText r) targetRole targetIndustry w)
  = Returns enhancedText.

Lemma enhance_success :
  healthy 4 w = true ->
  exists w',
    run env req AiRoutes.enhance w
    = (success "Resume enhanced successfully"
         (JObj [ ("resumeId", JId id); ("enhancedText", JStr enhancedText);
                 ("targetRole", JStr targetRole); ("targetIndustry", JStr targetIndustry) ])
         req, w')
    /\ World.resumes w' = <[id := enhancedRecord env r enhancedText]> (World.resumes w)
    /\ World.faults w' = drop 4 (World.faults w).
Proof.
  intros Hh.
  unfold run, route, AiRoutes.enhance, bind, validateResumeId, validateEnhanceRequest,
    authenticateToken.
  rewrite valid_id, role, industry, authenticated. simpl.
  destruct (admitted_gate env req owner email w quota (healthy_le 2 4 w ltac:(lia) Hh))
    as (w1 & -> & Hr1 & Hf1 & Hl1 & Hd1).
  unfold tryCatch, bind.
  rewrite (findOne_healthy id owner w1
             (healthy_drop 2 1 w w1 (healthy_le 3 4 w ltac:(lia) Hh) Hf1)).
  rewrite Hr1, found. apply String.eqb_neq in has_text as Htext. rewrite Htext.
  destruct (owned_byId _ _ _ _ found) as (_ & _ & Hid & Hlk).
  rewrite (enhanceResume_at env _ _ _ w (after 1 w1) enhancedText answer).
  unfold Document.assign, Document.update, Document.hydrate. simpl.
  unfold enhancedRecord.
  assert (Hby : is_Some (Resumes.byId (Resume._id r) (World.resumes (generated (after 1 w1))))).
  { exists r. simpl. rewrite Hr1, Hid. apply byId_lookup; assumption. }
  assert (Hh4 : healthy 1 (generated (after 1 w1)) = true).
  { apply (healthy_drop 3 1 w); [exact Hh|]. simpl. rewrite Hf1, drop_drop. reflexivity. }
  destruct (decide (r = Resume.set_status enhanced (Resume.set_enhancedText (Some enhancedText) r)))
    as [E|E].
  - rewrite <- E, (save_unchanged env r _ passes Hh4 Hby). eexists. split; [|split].
    + rewrite Hid. reflexivity.
    + simpl. rewrite Hr1, insert_id by exact Hlk. reflexivity.
    + simpl. rewrite Hf1, !drop_drop. reflexivity.
  - rewrite save_healthy.
    + rewrite versioned_same by reflexivity. eexists. split; [|split].
      * simpl. destruct r; simpl in *. rewrite Hid. reflexivity.
      * simpl. rewrite Hr1. destruct r; simpl in *. rewrite Hid. reflexivity.
      * simpl. rewrite Hf1, !drop_drop. reflexivity.
    + exact E.
    + rewrite valid_enhance. exact passes.
    + exact Hh4.
    + exact Hby.
Qed.

End Enhance.

Lemma history_found env req w id owner email r :
  Req.resumeId req = Req.ValidId id ->
  Req.authorization req = Req.Verified owner email ->
  Resumes.owned id owner (World.resumes w) = Some r ->
  healthy 1 w = true ->
  run env req AiRoutes.history w
  = (success "Resume history retrieved successfully" (JObj (historyData r)) req, after 1 w).
Proof.
  intros Hid Hauth Hfound Hh.
  unfold run, route, AiRoutes.history, bind, validateResumeId, authenticateToken.
  rewrite Hid, Hauth. simpl. unfold tryCatch, bind.
  rewrite (findOne_healthy id owner w Hh), Hfound. reflexivity.
Qed.

Lemma historyData_targets r :
  get "targetRole" (historyData r) = None /\ get "targetIndustry" (historyData r) = None.
Proof. unfold historyData. destruct (Resume.analysisResults r); split; reflexivity. Qed.

Section Match.

Variables (env : Env.t) (req : Req.t) (w : World.t).

Variables (id owner : positive) (email : string) (r : Resume.t).

Variables (jobTitle jobDescription : string) (companyName : option json) (m : Live.Match).

Hypothesis valid_id : Req.resumeId req = Req.ValidId id.

Hypothesis title : requiredString (Req.body req !! "jobTitle") = Some jobTitle.

Hypothesis description :
  requiredString (Req.body req !! "jobDescription") = Some jobDescription.

Hypothesis company :
  fst (sanitizeCompanyName (Req.body req !! "companyName") w) = Returns companyName.

Hypothesis authenticated : Req.authorization req = Req.Verified owner email.

Hypothesis quota : admitted env owner w.

Hypothesis found : Resumes.owned id owner (World.resumes w) = Some r.

Hypothesis has_text : Resume.originalText r <> "".

Hypothesis passes : Resume.validNew r = true.

Hypothesis answer :
  fst (GoogleAI.matchJobDescription env (Resume.originalText r) jobTitle jobDescription
         companyName w) = Returns m.

Lemma sanitize_run w0 :
  sanitizeCompanyName (Req.body req !! "companyName") w0 = (Returns companyName, w0).
Proof.
  revert company. unfold sanitizeCompanyName.
  destruct (truthy _); [|intros [= ->]; reflexivity].
  destruct (Req.body req !! "companyName") as [[]|]; simpl; intros [= <-]; reflexivity.
Qed.

Lemma match_success :
  healthy 4 w = true ->
  percent (Some (default 0 (Live.matchScore m))) = true ->
  exists w',
    run env req AiRoutes.matchResume w
    = (success "Job matching completed"
         (JObj (("resumeId", JId id) :: AiRoutes.matchFields m)) req, w')
    /\ World.resumes w'
       = <[id := matchedRecord env r (AiRoutes.jobMatchOf env jobTitle companyName m)]>
           (World.resumes w).
Proof.
  intros Hh Hscore.
  unfold run, route, AiRoutes.matchResume, bind, validateResumeId, validateMatchRequest,
    authenticateToken.
  rewrite valid_id, title, description. simpl. unfold bind. rewrite sanitize_run.
  simpl. rewrite authenticated. simpl.
  destruct (admitted_gate env req owner email w quota (healthy_le 2 4 w ltac:(lia) Hh))
    as (w1 & -> & Hr1 & Hf1 & Hl1 & Hd1).
  unfold tryCatch, bind.
  rewrite (findOne_healthy id owner w1
             (healthy_drop 2 1 w w1 (healthy_le 3 4 w ltac:(lia) Hh) Hf1)).
  rewrite Hr1, found. apply String.eqb_neq in has_text as Htext. rewrite Htext.
  destruct (owned_byId _ _ _ _ found) as (_ & _ & Hid & Hlk).
  destruct (matchJobDescription_at env (Resume.originalText r) jobTitle jobDescription
              companyName w (after 1 w1) m answer)
    as (w5 & -> & (Hu5 & Hr5 & Hf5) & Hl5).
  { simpl. exact Hd1. }
  rewrite save_healthy.
  - rewrite versioned_push. eexists. split; [|].
    + simpl. rewrite <- Hid. reflexivity.
    + simpl. rewrite Hr5. simpl. rewrite Hr1, Hid. reflexivity.
  - intros E. apply (f_equal (fun x => List.length (Resume.jobMatching x))) in E.
    destruct r; simpl in E. rewrite length_app in E. simpl in E. lia.
  - rewrite (valid_push _ _ passes). exact Hscore.
  - rewrite (healthy_faults _ (after 1 w1) w5 Hf5).
    apply (healthy_drop 3 1 w); [exact Hh|]. simpl. rewrite Hf1, drop_drop. reflexivity.
  - exists r. rewrite Hr5. simpl. rewrite Hr1.
    change (Resume._id (Resume.set_jobMatching _ r)) with (Resume._id r).
    rewrite Hid. apply byId_lookup; assumption.
Qed.

End Match.

(** ** Lookups scoped to the caller *)

(** Case analysis on everything a computation branches on. *)
Ltac atomic x :=
  lazymatch x with
  | context [match _ with _ => _ end] => fail
  | _ => idtac
  end.

Ltac branches :=
  repeat (simpl;
          match goal with
          | |- context [match ?x with _ => _ end] => atomic x; destruct x
          end);
  simpl; try reflexivity; try discriminate.

(** The quota gate neither reads nor writes the resumes. *)
Lemma checkApiLimit_resumes env req claims w rs :
  checkApiLimit env req claims (World.set_resumes rs w)
  = (fst (checkApiLimit env req claims w),
     World.set_resumes rs (snd (checkApiLimit env req claims w))).
Proof.
  unfold checkApiLimit, tryCatch, bind, Users.findById, bind, Db.call, gets, ret.
  destruct w as [us rs0 fs rd lg]. simpl.
  unfold Users.save, bind, Db.call, gets, modify, ret, throw, send. branches.
Qed.

Lemma checkApiLimit_faults env req claims w rs :
  World.faults (snd (checkApiLimit env req claims (World.set_resumes rs w)))
  = World.faults (snd (checkApiLimit env req claims w)).
Proof. rewrite checkApiLimit_resumes. simpl. destruct (snd _); reflexivity. Qed.

Lemma checkApiLimit_keeps_resumes env req claims w :
  World.resumes (snd (checkApiLimit env req claims w)) = World.resumes w.
Proof.
  unfold checkApiLimit, tryCatch, bind, Users.findById, bind, Db.call, gets, ret.
  destruct w as [us rs0 fs rd lg]. simpl.
  unfold Users.save, bind, Db.call, gets, modify, ret, throw, send. branches.
Qed.

Lemma checkApiLimit_no_throw env req claims w e w' :
  checkApiLimit env req claims w <> (Throws e, w').
Proof.
  unfold checkApiLimit, tryCatch, bind, Users.findById, bind, Db.call, gets, ret.
  destruct w as [us rs0 fs rd lg]. simpl.
  unfold Users.save, bind, Db.call, gets, modify, ret, throw, send. branches.
Qed.

Lemma rollback_returns env id st w :
  fst (tryCatch (let* _ := Resumes.findByIdAndUpdateStatus env id st in ret tt)
                (fun _ => ret tt) w)
  = Returns tt.
Proof.
  unfold tryCatch, Resumes.findByIdAndUpdateStatus, bind, Db.call, gets, modify, ret.
  destruct w as [u5 r5 [|[e5|] f5] d5 l5]; simpl;
    destruct (Resumes.byId id r5); reflexivity.
Qed.

Section Scoped.

Variables (env : Env.t) (req : Req.t) (w : World.t) (id caller : positive) (email : string).

Hypothesis valid_id : Req.resumeId req = Req.ValidId id.

Hypothesis authenticated : Req.authorization req = Req.Verified caller email.

Lemma findOne_none w0 :
  Resumes.owned id caller (World.resumes w0) = None ->
  Resumes.findOne id caller w0
  = match World.faults w0 with
    | Some e :: _ => (Throws e, after 1 w0)
    | _ => (Returns None, after 1 w0)
    end.
Proof.
  intros H. unfold Resumes.findOne, bind, Db.call, gets, ret, after.
  destruct w0 as [us rs [|[e|] fs] rd lg]; simpl in *; rewrite ?H; reflexivity.
Qed.

Lemma getResume_scoped :
  Resumes.owned id caller (World.resumes w) = None ->
  fst (run env req ResumeRoutes.getResume w)
  = notFoundOr env req "Error fetching resume" w.
Proof.
  intros H. unfold run, route, ResumeRoutes.getResume, bind, validateResumeId,
    authenticateToken, tryCatch, notFoundOr.
  rewrite valid_id, authenticated. simpl. unfold bind. rewrite (findOne_none w H).
  destruct (World.faults w) as [|[e|] fs]; reflexivity.
Qed.

Lemma deleteResume_scoped :
  Resumes.owned id caller (World.resumes w) = None ->
  fst (run env req ResumeRoutes.deleteResume w)
  = notFoundOr env req "Error deleting resume" w.
Proof.
  intros H. unfold run, route, ResumeRoutes.deleteResume, bind, validateResumeId,
    authenticateToken, tryCatch, notFoundOr.
  rewrite valid_id, authenticated. simpl.
  unfold Resumes.findOneAndDelete, bind, Db.call, gets, ret.
  destruct w as [us rs [|[e|] fs] rd lg]; simpl in *; rewrite ?H; reflexivity.
Qed.

Lemma history_scoped :
  Resumes.owned id caller (World.resumes w) = None ->
  fst (run env req AiRoutes.history w)
  = notFoundOr env req "Error retrieving resume history" w.
Proof.
  intros H. unfold run, route, AiRoutes.history, bind, validateResumeId,
    authenticateToken, tryCatch, notFoundOr.
  rewrite valid_id, authenticated. simpl. unfold bind. rewrite (findOne_none w H).
  destruct (World.faults w) as [|[e|] fs]; reflexivity.
Qed.

Lemma updateTitle_scoped :
  Resumes.owned id caller (World.resumes w) = None ->
  fst (run env req ResumeRoutes.updateTitle w)
  = titleAnswer env req (notFoundOr env req "Error updating resume title" w).
Proof.
  intros H. unfold run, route, ResumeRoutes.updateTitle, bind, validateResumeId,
    authenticateToken, tryCatch, notFoundOr, titleAnswer.
  rewrite valid_id, authenticated. simpl.
  destruct (truthy (Req.body req !! "title")); simpl; [|reflexivity].
  destruct (Req.body req !! "title") as [[]|]; simpl; try reflexivity.
  destruct (strlen (trim s) =? 0); simpl; [reflexivity|].
  unfold Resumes.findOneAndUpdateTitle, bind, Db.call, gets, ret.
  destruct w as [us rs [|[e|] fs] rd lg]; simpl in *; rewrite ?H; reflexivity.
Qed.

Lemma analyze_scoped :
  Resumes.owned id caller (World.resumes w) = None ->
  fst (run env req AiRoutes.analyze w)
  = gated env req (mkClaims caller email) w (notFoundOr env req "Error analyzing resume").
Proof.
  intros H. unfold run, route, AiRoutes.analyze, bind, validateResumeId,
    authenticateToken, gated.
  rewrite valid_id, authenticated. simpl.
  pose proof (checkApiLimit_keeps_resumes env req (mkClaims caller email) w) as Hk.
  destruct (checkApiLimit env req (mkClaims caller email) w) as [[[]|e|r] w1];
    simpl in *; try reflexivity.
  unfold tryCatch, bind, notFoundOr. rewrite findOne_none by (rewrite Hk; exact H).
  destruct (World.faults w1) as [|[e|] fs]; try reflexivity.
  pose proof (rollback_returns env id uploaded (after 1 w1)) as Hb.
  unfold tryCatch, bind in Hb.
  destruct (Resumes.findByIdAndUpdateStatus env id uploaded (after 1 w1)) as [[x|e'|sent] w2];
    simpl in *; try reflexivity; discriminate.
Qed.

Lemma enhance_scoped :
  Resumes.owned id caller (World.resumes w) = None ->
  fst (run env req AiRoutes.enhance w)
  = match requiredString (Req.body req !! "targetRole") with
    | None => failure 400 "Target role is required and must be a valid string" req
    | Some _ =>
        match requiredString (Req.body req !! "targetIndustry") with
        | None => failure 400 "Target industry is required and must be a valid string" req
        | Some _ => gated env req (mkClaims caller email) w (notFoundOr env req "Error enhancing resume")
        end
    end.
Proof.
  intros H. unfold run, route, AiRoutes.enhance, bind, validateResumeId,
    validateEnhanceRequest, authenticateToken, gated.
  rewrite valid_id. simpl.
  destruct (requiredString (Req.body req !! "targetRole")); simpl; [|reflexivity].
  destruct (requiredString (Req.body req !! "targetIndustry")); simpl; [|reflexivity].
  rewrite authenticated. simpl.
  pose proof (checkApiLimit_keeps_resumes env req (mkClaims caller email) w) as Hk.
  destruct (checkApiLimit env req (mkClaims caller email) w) as [[[]|e|r] w1];
    simpl in *; try reflexivity.
  unfold tryCatch, bind, notFoundOr. rewrite findOne_none by (rewrite Hk; exact H).
  destruct (World.faults w1) as [|[e|] fs]; reflexivity.
Qed.

Lemma matchResume_scoped :
  Resumes.owned id caller (World.resumes w) = None ->
  fst (run env req AiRoutes.matchResume w)
  = match requiredString (Req.body req !! "jobTitle") with
    | None => failure 400 "Job title is required and must be a valid string" req
    | Some _ =>
        match requiredString (Req.body req !! "jobDescription") with
        | None => failure 400 "Job description is required and must be a valid string" req
        | Some _ =>
            match fst (sanitizeCompanyName (Req.body req !! "companyName") w) with
            | Throws e => errorHandler env req e
            | _ => gated env req (mkClaims caller email) w (notFoundOr env req "Error matching resume with job")
            end
        end
    end.
Proof.
  intros H. unfold run, route, AiRoutes.matchResume, bind, validateResumeId,
    validateMatchRequest, authenticateToken, gated.
  rewrite valid_id. simpl.
  destruct (requiredString (Req.body req !! "jobTitle")); simpl; [|reflexivity].
  destruct (requiredString (Req.body req !! "jobDescription")); simpl; [|reflexivity].
  unfold bind, sanitizeCompanyName.
  destruct (truthy (Req.body req !! "companyName")); simpl.
  - destruct (Req.body req !! "companyName") as [[]|]; simpl; try reflexivity.
    rewrite authenticated. simpl.
    pose proof (checkApiLimit_keeps_resumes env req (mkClaims caller email) w) as Hk.
    destruct (checkApiLimit env req (mkClaims caller email) w) as [[[]|e|r] w1];
      simpl in *; try reflexivity.
    unfold tryCatch, bind, notFoundOr. rewrite findOne_none by (rewrite Hk; exact H).
    destruct (World.faults w1) as [|[e|] fs]; reflexivity.
  - rewrite authenticated. simpl.
    pose proof (checkApiLimit_keeps_resumes env req (mkClaims caller email) w) as Hk.
    destruct (checkApiLimit env req (mkClaims caller email) w) as [[[]|e|r] w1];
      simpl in *; try reflexivity.
    unfold tryCatch, bind, notFoundOr. rewrite findOne_none by (rewrite Hk; exact H).
    destruct (World.faults w1) as [|[e|] fs]; reflexivity.
Qed.

End Scoped.

(** ** The stored password hash and the views of a user *)

Lemma samePublic_refl w : samePublic w w.
Proof. repeat split. Qed.








Ltac users_free :=
  intros us w; destruct w as [us0 rs fs rd lg];
  unfold bind, Db.call, gets, modify, ret, throw, send; branches.

Lemma free_call : UsersFree Db.call.
Proof. users_free. Qed.

Lemma free_randomBelow n : UsersFree (randomBelow n).
Proof. unfold randomBelow. users_free. Qed.

Lemma free_called : UsersFree GoogleAI.called.
Proof. unfold GoogleAI.called. users_free. Qed.

Lemma free_findOne id owner : UsersFree (Resumes.findOne id owner).
Proof. unfold Resumes.findOne. users_free. Qed.

Lemma free_findOneByFileName owner name : UsersFree (Resumes.findOneByFileName owner name).
Proof. unfold Resumes.findOneByFileName. users_free. Qed.

Lemma free_countDocuments f : UsersFree (Resumes.countDocuments f).
Proof. unfold Resumes.countDocuments. users_free. Qed.

Lemma free_create env doc : UsersFree (Resumes.create env doc).
Proof. unfold Resumes.create. users_free. Qed.

Lemma free_save env old doc : UsersFree (Resumes.save env old doc).
Proof. unfold Resumes.save. users_free. Qed.

Lemma free_findOneAndUpdateTitle env id owner t :
  UsersFree (Resumes.findOneAndUpdateTitle env id owner t).
Proof. unfold Resumes.findOneAndUpdateTitle. users_free. Qed.

Lemma free_findOneAndDelete id owner : UsersFree (Resumes.findOneAndDelete id owner).
Proof. unfold Resumes.findOneAndDelete. users_free. Qed.

Lemma free_findByIdAndUpdateStatus env id st :
  UsersFree (Resumes.findByIdAndUpdateStatus env id st).
Proof. unfold Resumes.findByIdAndUpdateStatus. users_free. Qed.

(** *** The queries and saves on users *)

Lemma erase_idem u : erase (erase u) = erase u.
Proof. destruct u; reflexivity. Qed.




















(** *** The middleware, the service and the routes *)





























Lemma session_erase env u : AuthRoutes.session env (erase u) = AuthRoutes.session env u.
Proof. destruct u; reflexivity. Qed.


(** ** C4: the lifecycle of analyze *)


Lemma bob_admitted env : Env.now env = Examples.lateMarch -> admitted env 2 Samples.world.
Proof.
  intros E. exists Examples.bob, (ApiUsage.mk 3 Examples.march 40). rewrite E.
  repeat split.
Qed.


(** ** C5: enhance *)

(** C5 (enhance). A successful enhance call by an admitted caller on an
    owned record with non-empty text that passes the validators of its
    schema, whatever its status, stores the record with status [enhanced]
    and the enhanced text, and echoes the target role and industry in its
    response; but the stored record holds no target role and no target
    industry: the history of the record, asked for next, has neither. *)
Theorem enhance_drops_targets env req w id owner email r targetRole targetIndustry enhancedText :
  Req.resumeId req = Req.ValidId id ->
  requiredString (Req.body req !! "targetRole") = Some targetRole ->
  requiredString (Req.body req !! "targetIndustry") = Some targetIndustry ->
  Req.authorization req = Req.Verified owner email ->
  admitted env owner w ->
  Resumes.owned id owner (World.resumes w) = Some r ->
  Resume.originalText r <> "" ->
  Resume.validNew r = true ->
  fst (GoogleAI.enhanceResume env (Resume.originalText r) targetRole targetIndustry w)
  = Returns enhancedText ->
  healthy 5 w = true ->
  exists w',
    run env req AiRoutes.enhance w
    = (success "Resume enhanced successfully"
         (JObj [ ("resumeId", JId id); ("enhancedText", JStr enhancedText);
                 ("targetRole", JStr targetRole); ("targetIndustry", JStr targetIndustry) ])
         req, w')
    /\ World.resumes w' = <[id := enhancedRecord env r enhancedText]> (World.resumes w)
    /\ Resume.status (enhancedRecord env r enhancedText) = enhanced
    /\ Resume.enhancedText (enhancedRecord env r enhancedText) = Some enhancedText
    /\ forall again,
         Req.resumeId again = Req.ValidId id ->
         Req.authorization again = Req.Verified owner email ->
         fst (run env again AiRoutes.history w')
         = success "Resume history retrieved successfully"
             (JObj (historyData (enhancedRecord env r enhancedText))) again
         /\ get "targetRole" (historyData (enhancedRecord env r enhancedText)) = None
         /\ get "targetIndustry" (historyData (enhancedRecord env r enhancedText)) = None.
Proof.
  intros Hid Hrole Hind Hauth Hq Hfound Htext Hpass Ha Hh.
  destruct (enhance_success env req w id owner email r targetRole targetIndustry enhancedText
              Hid Hrole Hind Hauth Hq Hfound Htext Hpass Ha (healthy_le 4 5 w ltac:(lia) Hh))
    as (w' & Hrun & Hres & Hf).
  exists w'. split; [exact Hrun|]. split; [exact Hres|].
  destruct (enhancedRecord_fields env r enhancedText)
    as (Hs & He & Hi & Hu & _).
  split; [exact Hs|]. split; [exact He|].
  intros again Hid' Hauth'. destruct (owned_byId _ _ _ _ Hfound) as (_ & Ho & Hrid & _).
  rewrite (history_found env again w' id owner email (enhancedRecord env r enhancedText)
             Hid' Hauth').
  - split; [reflexivity|]. apply historyData_targets.
  - rewrite Hres. unfold Resumes.owned, Resumes.byId. rewrite lookup_insert_eq.
    cbv zeta in Hi, Hu.
    destruct (decide _) as [_|N]; [|exfalso; apply N; congruence].
    destruct (decide _) as [_|N]; [|exfalso; apply N; congruence].
    reflexivity.
  - apply (healthy_drop 4 1 w); [exact Hh|exact Hf].
Qed.

Lemma enhance_drops_targets_witness :
  exists w',
    run Samples.mocked (Samples.bobOn 8 Samples.targets) AiRoutes.enhance Samples.world
    = (success "Resume enhanced successfully"
         (JObj [ ("resumeId", JId 8);
                 ("enhancedText",
                  JStr (GoogleAI.getMockEnhancement "SQL and statistics" "Analyst" "Retail"));
                 ("targetRole", JStr "Analyst"); ("targetIndustry", JStr "Retail") ])
         (Samples.bobOn 8 Samples.targets), w')
    /\ World.resumes w'
       = <[8%positive :=
             enhancedRecord Samples.mocked Samples.polished
               (GoogleAI.getMockEnhancement "SQL and statistics" "Analyst" "Retail")]>
           Samples.resumes
    /\ Resume.status
         (enhancedRecord Samples.mocked Samples.polished
            (GoogleAI.getMockEnhancement "SQL and statistics" "Analyst" "Retail"))
       = enhanced
    /\ Resume.enhancedText
         (enhancedRecord Samples.mocked Samples.polished
            (GoogleAI.getMockEnhancement "SQL and statistics" "Analyst" "Retail"))
       = Some (GoogleAI.getMockEnhancement "SQL and statistics" "Analyst" "Retail")
    /\ forall again,
         Req.resumeId again = Req.ValidId 8 ->
         Req.authorization again = Req.Verified 2 "bob@example.com" ->
         fst (run Samples.mocked again AiRoutes.history w')
         = success "Resume history retrieved successfully"
             (JObj (historyData
                      (enhancedRecord Samples.mocked Samples.polished
                         (GoogleAI.getMockEnhancement "SQL and statistics" "Analyst" "Retail"))))
             again
         /\ get "targetRole"
              (historyData
                 (enhancedRecord Samples.mocked Samples.polished
                    (GoogleAI.getMockEnhancement "SQL and statistics" "Analyst" "Retail")))
            = None
         /\ get "targetIndustry"
              (historyData
                 (enhancedRecord Samples.mocked Samples.polished
                    (GoogleAI.getMockEnhancement "SQL and statistics" "Analyst" "Retail")))
            = None.
Proof.
  apply (enhance_drops_targets Samples.mocked (Samples.bobOn 8 Samples.targets) Samples.world
           8 2 "bob@example.com" Samples.polished "Analyst" "Retail");
    try reflexivity; [apply bob_admitted; reflexivity | discriminate].
Defined.

(** The enhancement of the sample record, then its history: the role and
    the industry of the request are in the first answer and in no stored
    record, and the history has neither key. *)
Example enhance_then_history :
  let req := Samples.bobOn 8 Samples.targets in
  let answer := run Samples.mocked req AiRoutes.enhance Samples.world in
  Res.status (fst answer) = 200
  /\ (exists data, Res.data (fst answer) = Some (JObj data)
                   /\ get "targetRole" data = Some (JStr "Analyst")
                   /\ get "targetIndustry" data = Some (JStr "Retail"))
  /\ Resume.status <$> Resumes.byId 8 (World.resumes (snd answer)) = Some enhanced
  /\ exists data,
       Res.data (fst (run Samples.mocked (Samples.bobOn 8 ∅) AiRoutes.history (snd answer)))
       = Some (JObj data)
       /\ get "status" data = Some (JStr "enhanced")
       /\ get "targetRole" data = None
       /\ get "targetIndustry" data = None.
Proof.
  vm_compute. split; [reflexivity|]. split; [eexists; repeat split|].
  split; [reflexivity|]. eexists. repeat split.
Qed.

(** ** C6: match *)

(** C6 (match), with the timestamp and the version key. A successful match
    call by an admitted caller on an owned record with non-empty text that
    passes the validators of its schema answers with the reply of the
    service and stores the record with the same status, the job-match list
    extended by exactly one entry at its end (the trimmed job title, the
    company name or [Not specified], the score and the lists of the reply),
    the earlier entries unchanged, and no other field changed but
    [updatedAt], which is set to the current time, and the version key
    [__v], which is incremented. *)
Theorem match_appends env req w id owner email r jobTitle jobDescription companyName m :
  Req.resumeId req = Req.ValidId id ->
  requiredString (Req.body req !! "jobTitle") = Some jobTitle ->
  requiredString (Req.body req !! "jobDescription") = Some jobDescription ->
  fst (sanitizeCompanyName (Req.body req !! "companyName") w) = Returns companyName ->
  Req.authorization req = Req.Verified owner email ->
  admitted env owner w ->
  Resumes.owned id owner (World.resumes w) = Some r ->
  Resume.originalText r <> "" ->
  Resume.validNew r = true ->
  fst (GoogleAI.matchJobDescription env (Resume.originalText r) jobTitle jobDescription
         companyName w) = Returns m ->
  healthy 4 w = true ->
  percent (Some (default 0 (Live.matchScore m))) = true ->
  let entry :=
    JobMatch.mk (trim jobTitle)
      (trim match companyName with
            | Some (JStr s) => if String.eqb s "" then "Not specified" else s
            | _ => "Not specified"
            end)
      (default 0 (Live.matchScore m)) (default [] (Live.matchedKeywords m))
      (default [] (Live.m_suggestions m)) (default [] (Live.strengthAreas m))
      (default [] (Live.improvementAreas m)) (default [] (Live.salaryNegotiationPoints m))
      (Env.now env) in
  let stored := matchedRecord env r entry in
  exists w',
    run env req AiRoutes.matchResume w
    = (success "Job matching completed" (JObj (("resumeId", JId id) :: matchReply m)) req, w')
    /\ World.resumes w' = <[id := stored]> (World.resumes w)
    /\ Resume.status stored = Resume.status r
    /\ Resume.jobMatching stored = (Resume.jobMatching r ++ [entry])%list
    /\ List.length (Resume.jobMatching stored) = S (List.length (Resume.jobMatching r))
    /\ take (List.length (Resume.jobMatching r)) (Resume.jobMatching stored)
       = Resume.jobMatching r
    /\ stored
       = Resume.set_updatedAt (Env.now env)
           (Resume.set___v (Resume.__v r + 1)
              (Resume.set_jobMatching (Resume.jobMatching stored) r)).
Proof.
  intros Hid Ht Hd Hc Hauth Hq Hfound Htext Hpass Ha Hh Hscore entry stored.
  destruct (match_success env req w id owner email r jobTitle jobDescription companyName m
              Hid Ht Hd Hc Hauth Hq Hfound Htext Hpass Ha Hh Hscore) as (w' & Hrun & Hres).
  exists w'. split; [exact Hrun|]. split; [exact Hres|].
  subst stored. unfold matchedRecord. destruct r; simpl.
  repeat split.
  - rewrite length_app. simpl. lia.
  - apply take_app_length.
Qed.

Lemma match_appends_witness :
  exists w',
    run Samples.mocked (Samples.bobOn 8 Samples.job) AiRoutes.matchResume Samples.world
    = (success "Job matching completed"
         (JObj (("resumeId", JId 8) :: matchReply Samples.firstMatch))
         (Samples.bobOn 8 Samples.job), w')
    /\ World.resumes w' = <[8%positive := Samples.matched]> Samples.resumes
    /\ Resume.status Samples.matched = enhanced
    /\ Resume.jobMatching Samples.matched
       = [AiRoutes.jobMatchOf Samples.mocked "Analyst" None Samples.firstMatch]
    /\ List.length (Resume.jobMatching Samples.matched) = 1%nat
    /\ take 0 (Resume.jobMatching Samples.matched) = []
    /\ Samples.matched
       = Resume.set_updatedAt Examples.lateMarch
           (Resume.set___v 1
              (Resume.set_jobMatching (Resume.jobMatching Samples.matched) Samples.polished)).
Proof.
  apply (match_appends Samples.mocked (Samples.bobOn 8 Samples.job) Samples.world
           8 2 "bob@example.com" Samples.polished "Analyst" "Dashboards for stores" None
           Samples.firstMatch);
    try reflexivity; [apply bob_admitted; reflexivity | discriminate].
Defined.

(** C6 as the specification words it, no field but the job-match list
    being modified, fails: the save refreshes [updatedAt] (and increments
    the version key). *)
Lemma match_claim_fails_on_updatedAt : ~ match_claim_as_stated.
Proof.
  intros claim.
  destruct (claim Samples.mocked (Samples.bobOn 8 Samples.job) Samples.world 8%positive
              2%positive "bob@example.com" Samples.polished
              (fst (run Samples.mocked (Samples.bobOn 8 Samples.job) AiRoutes.matchResume
                        Samples.world))
              (snd (run Samples.mocked (Samples.bobOn 8 Samples.job) AiRoutes.matchResume
                        Samples.world))
              Samples.matched)
    as (_ & _ & _ & frame);
    [reflexivity | reflexivity | reflexivity | discriminate | | reflexivity | reflexivity |].
  - destruct (run _ _ _ _); reflexivity.
  - apply (f_equal (fun x => getTime (Resume.updatedAt x))) in frame.
    vm_compute in frame. discriminate.
Qed.

(** ** C7: the provider fallback *)

Lemma mockAnalysis_valid a : mockAnalysis a -> AnalysisResults.valid (AiRoutes.castAnalysis a) = true.
Proof.
  intros ((s & Hs & Hsr) & (t & Ht & Htr) & _). unfold AnalysisResults.valid. simpl.
  rewrite Hs, Ht. simpl. apply andb_true_iff. split; apply andb_true_iff; split; lia.
Qed.

Lemma mockMatch_valid m : mockMatch m -> percent (Some (default 0 (Live.matchScore m))) = true.
Proof.
  intros ((s & Hs & Hsr) & _). rewrite Hs. simpl. apply andb_true_iff. split; lia.
Qed.







(** ** C8: the password hash is never sent *)










(** ** C9: a record of another user is a missing record *)

Lemma owned_foreign id caller (resumes : gmap positive Resume.t) r :
  Resumes.byId id resumes = Some r -> Resume.userId r <> caller ->
  Resumes.owned id caller resumes = None.
Proof.
  intros Hr Hne. unfold Resumes.owned. rewrite Hr. destruct (decide _); [contradiction|reflexivity].
Qed.

Lemma owned_absent id caller (resumes : gmap positive Resume.t) :
  Resumes.owned id caller (delete id resumes) = None.
Proof. unfold Resumes.owned, Resumes.byId. rewrite lookup_delete_eq. reflexivity. Qed.

Lemma notFoundOr_without env req message id w :
  notFoundOr env req message (without id w) = notFoundOr env req message w.
Proof. reflexivity. Qed.

Lemma gated_without env req claims id w message :
  gated env req claims (without id w) (notFoundOr env req message)
  = gated env req claims w (notFoundOr env req message).
Proof.
  unfold gated, without. rewrite checkApiLimit_resumes.
  destruct (checkApiLimit env req claims w) as [[[]|e|r] w1]; reflexivity.
Qed.

Lemma sanitize_without v id w :
  fst (sanitizeCompanyName v (without id w)) = fst (sanitizeCompanyName v w).
Proof. unfold sanitizeCompanyName. destruct (truthy v); [destruct v as [[]|]|]; reflexivity. Qed.

Lemma notFoundOr_healthy env req message w :
  healthy 1 w = true -> notFoundOr env req message w = failure 404 "Resume not found" req.
Proof.
  unfold healthy, notFoundOr. destruct (World.faults w) as [|[e|] fs]; simpl;
    [reflexivity|discriminate|reflexivity].
Qed.

Lemma gated_admitted env req owner email w message :
  admitted env owner w -> healthy 3 w = true ->
  gated env req (mkClaims owner email) w (notFoundOr env req message)
  = failure 404 "Resume not found" req.
Proof.
  intros Hq Hh. unfold gated.
  destruct (admitted_gate env req owner email w Hq (healthy_le 2 3 w ltac:(lia) Hh))
    as (w1 & -> & _ & Hf & _).
  apply notFoundOr_healthy, (healthy_drop 2 1 w w1 Hh Hf).
Qed.

(** C9 (a record of another user is a missing record). For a valid record
    id of a record the caller does not own, each of get, update-title,
    delete, analyze, enhance, match and history answers exactly as it does
    in the world from which the record is removed, whatever the database
    does; and that answer is the 404 "Resume not found" when the database
    answers, the body passes the route's validation and, for the three
    generation routes, the quota gate admits the caller. But not every
    lookup is scoped to the caller: when the database fails at the scoped
    lookup of analyze (the third call of the request) and answers the next
    call, the error handler updates the record by its id alone, so the
    answer is 500 and the record of the other user is stored with status
    [uploaded]. *)
Theorem foreign_record_not_found env req w id caller email r :
  Req.resumeId req = Req.ValidId id ->
  Req.authorization req = Req.Verified caller email ->
  Resumes.byId id (World.resumes w) = Some r ->
  Resume.userId r <> caller ->
  (forall handler, In handler recordScoped ->
     fst (run env req handler w) = fst (run env req handler (without id w)))
  /\ (healthy 1 w = true ->
      fst (run env req ResumeRoutes.getResume w) = failure 404 "Resume not found" req
      /\ fst (run env req ResumeRoutes.deleteResume w) = failure 404 "Resume not found" req
      /\ fst (run env req AiRoutes.history w) = failure 404 "Resume not found" req
      /\ (forall title, requiredString (Req.body req !! "title") = Some title ->
          fst (run env req ResumeRoutes.updateTitle w) = failure 404 "Resume not found" req))
  /\ (healthy 3 w = true -> admitted env caller w ->
      fst (run env req AiRoutes.analyze w) = failure 404 "Resume not found" req
      /\ (forall targetRole targetIndustry,
          requiredString (Req.body req !! "targetRole") = Some targetRole ->
          requiredString (Req.body req !! "targetIndustry") = Some targetIndustry ->
          fst (run env req AiRoutes.enhance w) = failure 404 "Resume not found" req)
      /\ (forall jobTitle jobDescription companyName,
          requiredString (Req.body req !! "jobTitle") = Some jobTitle ->
          requiredString (Req.body req !! "jobDescription") = Some jobDescription ->
          fst (sanitizeCompanyName (Req.body req !! "companyName") w) = Returns companyName ->
          fst (run env req AiRoutes.matchResume w) = failure 404 "Resume not found" req))
  /\ (forall e rest,
      World.faults w = None :: None :: Some e :: None :: rest ->
      admitted env caller w ->
      fst (run env req AiRoutes.analyze w)
      = failureWith 500 "Error analyzing resume" (detail env e) req
      /\ World.resumes (snd (run env req AiRoutes.analyze w))
         = <[id := Resume.set_updatedAt (Env.now env) (Resume.set_status uploaded r)]>
             (World.resumes w)).
Proof.
  intros Hid Hauth Hr Hne.
  pose proof (owned_foreign id caller _ r Hr Hne) as Hw.
  pose proof (owned_absent id caller (World.resumes w)) as Ha.
  change (delete id (World.resumes w)) with (World.resumes (without id w)) in Ha.
  split; [|split; [|split]].
  - intros handler Hin. simpl in Hin.
    destruct Hin as [<-|[<-|[<-|[<-|[<-|[<-|[<-|[]]]]]]]].
    + rewrite (getResume_scoped env req w id caller email Hid Hauth Hw).
      rewrite (getResume_scoped env req _ id caller email Hid Hauth Ha). reflexivity.
    + rewrite (updateTitle_scoped env req w id caller email Hid Hauth Hw).
      rewrite (updateTitle_scoped env req _ id caller email Hid Hauth Ha). reflexivity.
    + rewrite (deleteResume_scoped env req w id caller email Hid Hauth Hw).
      rewrite (deleteResume_scoped env req _ id caller email Hid Hauth Ha). reflexivity.
    + rewrite (analyze_scoped env req w id caller email Hid Hauth Hw).
      rewrite (analyze_scoped env req _ id caller email Hid Hauth Ha).
      rewrite gated_without. reflexivity.
    + rewrite (enhance_scoped env req w id caller email Hid Hauth Hw).
      rewrite (enhance_scoped env req _ id caller email Hid Hauth Ha).
      rewrite gated_without. reflexivity.
    + rewrite (matchResume_scoped env req w id caller email Hid Hauth Hw).
      rewrite (matchResume_scoped env req _ id caller email Hid Hauth Ha).
      rewrite gated_without, sanitize_without. reflexivity.
    + rewrite (history_scoped env req w id caller email Hid Hauth Hw).
      rewrite (history_scoped env req _ id caller email Hid Hauth Ha). reflexivity.
  - intros Hh. split; [|split; [|split]].
    + rewrite (getResume_scoped env req w id caller email Hid Hauth Hw).
      apply notFoundOr_healthy, Hh.
    + rewrite (deleteResume_scoped env req w id caller email Hid Hauth Hw).
      apply notFoundOr_healthy, Hh.
    + rewrite (history_scoped env req w id caller email Hid Hauth Hw).
      apply notFoundOr_healthy, Hh.
    + intros title Ht. rewrite (updateTitle_scoped env req w id caller email Hid Hauth Hw).
      unfold titleAnswer. unfold requiredString in Ht. cbv zeta.
      destruct (Req.body req !! "title") as [[]|]; try discriminate.
      destruct (strlen (trim s) =? 0) eqn:E; [discriminate|].
      destruct s as [|c s]; [discriminate|].
      change (truthy (Some (JStr (String c s)))) with true. cbv beta iota delta [negb].
      apply notFoundOr_healthy, Hh.
  - intros Hh Hq. split; [|split].
    + rewrite (analyze_scoped env req w id caller email Hid Hauth Hw).
      apply gated_admitted; assumption.
    + intros targetRole targetIndustry Hrole Hind.
      rewrite (enhance_scoped env req w id caller email Hid Hauth Hw), Hrole, Hind.
      apply gated_admitted; assumption.
    + intros jobTitle jobDescription companyName Ht Hd Hc.
      rewrite (matchResume_scoped env req w id caller email Hid Hauth Hw), Ht, Hd, Hc.
      apply gated_admitted; assumption.
  - intros e rest Hf Hq.
    assert (Hh : healthy 2 w = true) by (unfold healthy; rewrite Hf; reflexivity).
    unfold run, route, AiRoutes.analyze, bind, validateResumeId, authenticateToken.
    rewrite Hid, Hauth. simpl.
    destruct (admitted_gate env req caller email w Hq Hh) as (w1 & -> & Hr1 & Hf1 & _).
    rewrite Hf in Hf1. simpl in Hf1.
    unfold tryCatch, bind, Resumes.findOne, bind, Db.call. rewrite Hf1. simpl.
    unfold Resumes.findByIdAndUpdateStatus, bind, Db.call. simpl.
    rewrite Hr1, Hr. simpl. split; reflexivity.
Qed.

Lemma foreign_record_not_found_witness :
  (fst (run Samples.mocked (Samples.bobOn 7 ∅) AiRoutes.analyze Samples.world)
   = failure 404 "Resume not found" (Samples.bobOn 7 ∅)
   /\ fst (run Samples.mocked (Samples.bobOn 7 ∅) AiRoutes.analyze
               (without 7 Samples.world))
      = failure 404 "Resume not found" (Samples.bobOn 7 ∅))
  /\ (Resume.userId report = 1%positive
      /\ Resume.status report = analyzed
      /\ fst (run Samples.mocked (Samples.bobOn 9 ∅) AiRoutes.analyze failingLookup)
         = failureWith 500 "Error analyzing resume" "Internal server error" (Samples.bobOn 9 ∅)
      /\ World.resumes (snd (run Samples.mocked (Samples.bobOn 9 ∅) AiRoutes.analyze
                                 failingLookup))
         = <[9%positive :=
               Resume.set_updatedAt Examples.lateMarch (Resume.set_status uploaded report)]>
             (<[9%positive := report]> Samples.resumes)).
Proof.
  split.
  - pose proof (foreign_record_not_found Samples.mocked (Samples.bobOn 7 ∅) Samples.world 7 2
                  "bob@example.com" Samples.cv eq_refl eq_refl eq_refl ltac:(discriminate))
      as (same & _ & gate & _).
    rewrite <- (same AiRoutes.analyze ltac:(simpl; tauto)).
    split; apply gate; first [reflexivity | apply bob_admitted; reflexivity].
  - split; [reflexivity|]. split; [reflexivity|].
    pose proof (foreign_record_not_found Samples.mocked (Samples.bobOn 9 ∅) failingLookup 9 2
                  "bob@example.com" report eq_refl eq_refl eq_refl ltac:(discriminate))
      as (_ & _ & _ & unscoped).
    apply (unscoped Examples.offline []); [reflexivity|].
    exists Examples.bob, (ApiUsage.mk 3 Examples.march 40). repeat split.
Defined.

(** ** The quota gate over several requests *)

(** What one check does to the users, whatever the database does. *)
Lemma checkApiLimit_step env req claims w :
  (fst (checkApiLimit env req claims w) <> Returns tt
   /\ World.users (snd (checkApiLimit env req claims w)) = World.users w)
  \/ (exists u usage,
        Users.byId (userId claims) (World.users w) = Some u
        /\ User.apiUsage u = Some usage
        /\ fst (checkApiLimit env req claims w) = Returns tt
        /\ Users.valid (Users.project false u) = true
        /\ ge (ApiUsage.monthly (resetIfNewMonth (Env.now env) usage))
              (orElse (property limits (User.subscriptionType u)) 5) = false
        /\ World.users (snd (checkApiLimit env req claims w))
           = <[userId claims :=
                 User.set_updatedAt (Env.now env)
                   (User.set_apiUsage
                      (Some (increment (resetIfNewMonth (Env.now env) usage)))
                      (Users.hydrate u))]>
               (World.users w)).
Proof.
  unfold checkApiLimit, tryCatch, bind, Users.findById, bind.
  destruct (call_cases w) as [Hc|[e Hc]]; rewrite Hc;
    cbn -[orElse property Users.save Users.project resetIfNewMonth].
  2:{ left. split; [discriminate|reflexivity]. }
  destruct (Users.byId (userId claims) (World.users w)) as [u|] eqn:Hu;
    cbn -[orElse property Users.save Users.project resetIfNewMonth].
  2:{ left. split; [discriminate|reflexivity]. }
  destruct (byId_id _ _ _ Hu) as [Hid Hlk].
  destruct (project_fields u) as (Pid & Pa & Pt & _).
  rewrite Pa, Pt, limit_hydrate.
  destruct (User.apiUsage u) as [usage|] eqn:Ha.
  2:{ left. split; [discriminate|reflexivity]. }
  destruct (ge _ _) eqn:Hge.
  { left. split; [discriminate|reflexivity]. }
  unfold Users.save. rewrite valid_set_apiUsage.
  destruct (Users.valid (Users.project false u)) eqn:Hv; cbn [negb].
  2:{ left. split; [discriminate|reflexivity]. }
  destruct (decide _) as [Heq|_].
  { exfalso. apply (f_equal User.apiUsage) in Heq. rewrite Pa in Heq.
    destruct u; simpl in *. subst. injection Heq as Heq. revert Heq.
    apply increment_changes. }
  unfold bind.
  match goal with
  | |- context [Db.call ?x] => destruct (call_cases x) as [Hd|[e Hd]]; rewrite Hd
  end; cbn -[orElse property Users.project resetIfNewMonth].
  - replace (User._id (Users.project false u)) with (userId claims) by congruence.
    rewrite Hu. cbn -[orElse property Users.project resetIfNewMonth].
    right. exists u, usage.
    repeat split; try assumption.
  - left. split; [discriminate|reflexivity].
Qed.

Lemma byId_insert id (users : gmap positive User.t) u :
  User._id u = id -> Users.byId id (<[id := u]> users) = Some u.
Proof.
  intros H. unfold Users.byId. rewrite lookup_insert_eq.
  destruct (decide _); [reflexivity|contradiction].
Qed.

Lemma admissions_bounded checks : forall req claims w u usage,
  Users.byId (userId claims) (World.users w) = Some u ->
  User.apiUsage u = Some usage ->
  inheritedName (User.subscriptionType u) = false ->
  Forall (fun env => newMonth (Env.now env) (ApiUsage.lastReset usage) = false) checks ->
  Z.of_nat (fst (admissions checks req claims w))
  <= Z.max 0 (specLimit (User.subscriptionType u) - ApiUsage.monthly usage)
  /\ exists u' usage',
       Users.byId (userId claims) (World.users (snd (admissions checks req claims w))) = Some u'
       /\ User.apiUsage u' = Some usage'
       /\ ApiUsage.monthly usage'
          = ApiUsage.monthly usage + Z.of_nat (fst (admissions checks req claims w))
       /\ ApiUsage.total usage' = ApiUsage.total usage.
Proof.
  induction checks as [|env rest IH]; intros req claims w u usage Hu Ha Ht Hm.
  - simpl. split; [lia|]. exists u, usage. rewrite Z.add_0_r. auto.
  - inversion Hm as [|? ? Hnow Hrest]; subst. simpl.
    destruct (checkApiLimit_step env req claims w) as [[Hno Hsame]|Hyes].
    + destruct (checkApiLimit env req claims w) as [[[]|e|r] w1] eqn:E; simpl in *;
        try congruence;
        rewrite <- Hsame in Hu; exact (IH req claims w1 u usage Hu Ha Ht Hrest).
    + destruct Hyes as (u0 & usage0 & Hu0 & Ha0 & Hret & _ & Hge & Husers).
      assert (u0 = u) by congruence. subst u0.
      assert (usage0 = usage) by congruence. subst usage0.
      destruct (checkApiLimit env req claims w) as [[[]|e|r] w1] eqn:E; simpl in *;
        try discriminate.
      unfold resetIfNewMonth in Hge, Husers. rewrite Hnow in Hge, Husers.
      rewrite (limit_spec _ Ht) in Hge. apply ge_spec_false in Hge.
      destruct (byId_id _ _ _ Hu) as [Hid _].
      set (u1 := User.set_updatedAt (Env.now env)
                   (User.set_apiUsage (Some (increment usage)) (Users.hydrate u))) in *.
      assert (Hu1 : Users.byId (userId claims) (World.users w1) = Some u1).
      { rewrite Husers. apply byId_insert. subst u1. destruct u; exact Hid. }
      assert (Ha1 : User.apiUsage u1 = Some (increment usage)) by (destruct u; reflexivity).
      assert (Ht1 : specLimit (User.subscriptionType u1) = specLimit (User.subscriptionType u)
                    /\ inheritedName (User.subscriptionType u1)
                       = inheritedName (User.subscriptionType u))
        by (destruct u as [? ? ? ? [?|] ? ? ? ? ? ?]; split; reflexivity).
      destruct Ht1 as [Hl1 Hi1].
      destruct (IH req claims w1 u1 (increment usage) Hu1 Ha1
                  ltac:(rewrite Hi1; exact Ht) Hrest) as (Hle & u' & usage' & Hu' & Ha' & Hm' & Ht').
      destruct (admissions rest req claims w1) as [n w2]. simpl in *.
      rewrite Hl1 in Hle. split; [lia|].
      exists u', usage'. repeat split; try assumption. lia.
Qed.

(** X1.  Within one calendar month, for a user whose tier is not a name
    inherited from [Object.prototype] and whose monthly counter is within the
    tier's limit, any sequence of gate checks lets through at most
    [limit - counter] of them, whatever the database does in between (failed
    reads, failed writes).  Afterwards the counter is the old one plus the
    number of checks let through, and it is still within the limit. *)
Theorem quota_never_exceeded checks req claims w u usage :
  Users.byId (userId claims) (World.users w) = Some u ->
  User.apiUsage u = Some usage ->
  inheritedName (User.subscriptionType u) = false ->
  ApiUsage.monthly usage <= specLimit (User.subscriptionType u) ->
  Forall (fun env => newMonth (Env.now env) (ApiUsage.lastReset usage) = false) checks ->
  let passed := Z.of_nat (fst (admissions checks req claims w)) in
  passed <= specLimit (User.subscriptionType u) - ApiUsage.monthly usage
  /\ exists u' usage',
       Users.byId (userId claims) (World.users (snd (admissions checks req claims w))) = Some u'
       /\ User.apiUsage u' = Some usage'
       /\ ApiUsage.monthly usage' = ApiUsage.monthly usage + passed
       /\ ApiUsage.monthly usage' <= specLimit (User.subscriptionType u).
Proof.
  intros Hu Ha Ht Hle Hm passed.
  destruct (admissions_bounded checks req claims w u usage Hu Ha Ht Hm)
    as (Hb & u' & usage' & Hu' & Ha' & Hm' & _).
  subst passed. split; [lia|]. exists u', usage'. repeat split; try assumption. lia.
Qed.

Lemma quota_never_exceeded_witness :
  let checks := [Examples.env; Examples.env; Examples.env] in
  let req := Examples.request Examples.asBob Req.InvalidId ∅ in
  let claims := mkClaims 2 "bob@example.com" in
  Z.of_nat (fst (admissions checks req claims (Examples.world ∅))) <= 100 - 3
  /\ exists u' usage',
       Users.byId 2 (World.users (snd (admissions checks req claims (Examples.world ∅))))
       = Some u'
       /\ User.apiUsage u' = Some usage'
       /\ ApiUsage.monthly usage'
          = 3 + Z.of_nat (fst (admissions checks req claims (Examples.world ∅)))
       /\ ApiUsage.monthly usage' <= 100.
Proof.
  apply (quota_never_exceeded [Examples.env; Examples.env; Examples.env]
           (Examples.request Examples.asBob Req.InvalidId ∅) (mkClaims 2 "bob@example.com")
           (Examples.world ∅) Examples.bob (ApiUsage.mk 3 Examples.march 40));
    first [ reflexivity | vm_compute; discriminate | repeat constructor ].
Defined.

(** X2.  Within one calendar month, for a user whose stored document passes
    the validators of the user schema (so the tier is unset or one of
    'free', 'premium' and 'enterprise') and whose monthly counter is within
    the tier's limit, when the database answers every call (two per check),
    the number of checks let through is exactly the smaller of the number of
    checks and [limit - counter]: the quota can be spent to the last call,
    and not one more. *)
Theorem quota_is_spent_exactly checks req claims w u usage :
  Users.byId (userId claims) (World.users w) = Some u ->
  User.apiUsage u = Some usage ->
  Users.valid (Users.project false u) = true ->
  ApiUsage.monthly usage <= specLimit (User.subscriptionType u) ->
  Forall (fun env => newMonth (Env.now env) (ApiUsage.lastReset usage) = false) checks ->
  healthy (2 * List.length checks) w = true ->
  Z.of_nat (fst (admissions checks req claims w))
  = Z.min (Z.of_nat (List.length checks))
          (specLimit (User.subscriptionType u) - ApiUsage.monthly usage).
Proof.
  revert req claims w u usage.
  induction checks as [|env rest IH]; intros req claims w u usage Hu Ha Hv Hle Hm Hh.
  - simpl. lia.
  - inversion Hm as [|? ? Hnow Hrest]; subst.
    destruct (valid_tier u Hv) as [Ht _].
    assert (Hreset : resetIfNewMonth (Env.now env) usage = usage)
      by (unfold resetIfNewMonth; rewrite Hnow; reflexivity).
    assert (Hh2 : healthy (2 + 2 * List.length rest) w = true).
    { replace (2 + 2 * List.length rest)%nat with (2 * List.length (env :: rest))%nat
        by (simpl; lia). exact Hh. }
    assert (Hh1 : healthy (1 + 2 * List.length rest) w = true)
      by (apply (healthy_le _ (2 + 2 * List.length rest)); [lia|exact Hh2]).
    cbn [admissions].
    destruct (ge (ApiUsage.monthly usage)
                 (orElse (property limits (User.subscriptionType u)) 5)) eqn:Hge.
    + rewrite (checkApiLimit_reject env req claims w u usage Hu Ha)
        by first [ rewrite Hreset; exact Hge
                 | apply (healthy_le _ (1 + 2 * List.length rest)); [lia|exact Hh1] ].
      rewrite (limit_spec _ Ht) in Hge. apply ge_spec in Hge.
      set (w1 := World.set_faults (drop 1 (World.faults w)) w).
      assert (Hrec : Z.of_nat (fst (admissions rest req claims w1))
                     = Z.min (Z.of_nat (List.length rest))
                             (specLimit (User.subscriptionType u) - ApiUsage.monthly usage)).
      { apply (IH req claims w1 u usage Hu Ha Hv Hle Hrest).
        apply (healthy_drop 1 (2 * List.length rest) w); [exact Hh1|reflexivity]. }
      cbn [List.length]. lia.
    + rewrite (checkApiLimit_admit env req claims w u usage Hu Ha)
        by first [ rewrite Hreset; exact Hge | exact Hv
                 | apply (healthy_le _ (2 + 2 * List.length rest)); [lia|exact Hh2] ].
      rewrite (limit_spec _ Ht) in Hge. apply ge_spec_false in Hge.
      rewrite Hreset.
      destruct (byId_id _ _ _ Hu) as [Hid _].
      set (u1 := User.set_updatedAt (Env.now env)
                   (User.set_apiUsage (Some (increment usage)) (Users.hydrate u))).
      set (w1 := World.set_users (<[userId claims := u1]> (World.users w))
                   (World.set_faults (drop 2 (World.faults w)) w)).
      assert (Hu1 : Users.byId (userId claims) (World.users w1) = Some u1).
      { subst w1. simpl. apply byId_insert. subst u1. destruct u; exact Hid. }
      assert (Ht1 : specLimit (User.subscriptionType u1)
                    = specLimit (User.subscriptionType u))
        by (destruct u as [? ? ? ? [?|] ? ? ? ? ? ?]; reflexivity).
      assert (Hv1 : Users.valid (Users.project false u1) = true)
        by (rewrite <- Hv; destruct u as [? ? ? ? [?|] ? ? ? ? ? ?]; reflexivity).
      assert (Ha1 : User.apiUsage u1 = Some (increment usage))
        by (destruct u; reflexivity).
      assert (Hrec : Z.of_nat (fst (admissions rest req claims w1))
                     = Z.min (Z.of_nat (List.length rest))
                             (specLimit (User.subscriptionType u1)
                              - ApiUsage.monthly (increment usage))).
      { apply (IH req claims w1 u1 (increment usage) Hu1 Ha1 Hv1).
        - rewrite Ht1. simpl. lia.
        - exact Hrest.
        - apply (healthy_drop 2 (2 * List.length rest) w); [exact Hh2|reflexivity]. }
      destruct (admissions rest req claims w1) as [n w2].
      cbn [fst List.length] in *. rewrite Ht1 in Hrec. simpl ApiUsage.monthly in Hrec.
      lia.
Qed.

Lemma quota_is_spent_exactly_witness :
  fst (admissions [Examples.env; Examples.env; Examples.env]
         (Examples.request Examples.asAlice Req.InvalidId ∅)
         (mkClaims 1 "alice@example.com")
         (World.mk (<[1%positive := lastCall]> ∅) ∅ [] [] [])) = 1%nat.
Proof.
  apply Nat2Z.inj.
  rewrite (quota_is_spent_exactly [Examples.env; Examples.env; Examples.env]
             (Examples.request Examples.asAlice Req.InvalidId ∅)
             (mkClaims 1 "alice@example.com")
             (World.mk (<[1%positive := lastCall]> ∅) ∅ [] [] []) lastCall
             (ApiUsage.mk 4 Examples.march 4));
    first [ reflexivity | vm_compute; discriminate | repeat constructor ].
Defined.


Example gate_writes_the_default_tier :
  let w := World.mk (<[4%positive := untiered]> ∅) ∅ [] [] [] in
  let w' := snd (checkApiLimit Examples.env
                   (Examples.request (Req.Verified 4 "erin@example.com") Req.InvalidId ∅)
                   (mkClaims 4 "erin@example.com") w) in
  User.subscriptionType <$> World.users w' !! 4%positive = Some (Some "free").
Proof. vm_compute. reflexivity. Qed.

(** ** Registration, login and the gate *)

Lemma findOne_healthy_user withPassword email w :
  healthy 1 w = true ->
  Users.findOne withPassword email w
  = (Returns (Users.project withPassword
                <$> Users.byEmail (Users.castEmail email) (World.users w)),
     after 1 w).
Proof.
  intros H. apply call_healthy in H as [H _].
  unfold Users.findOne, bind. rewrite H. reflexivity.
Qed.

Lemma register_created env req w name email password :
  Env.regSchema env (Req.body req) = inr (name, email, password) ->
  healthy 2 w = true ->
  Users.byEmail (Users.castEmail email) (World.users w) = None ->
  World.users w !! Env.newId env = None ->
  Users.validNew (AuthRoutes.newUser env name email password) = true ->
  run env req AuthRoutes.register w
  = (Res.mk 201 true (Some "User registered successfully")
       (Some (AuthRoutes.session env (registered env name email password))) None
       (Req.requestId req),
     World.set_users
       (<[Env.newId env := registered env name email password]> (World.users w))
       (after 2 w)).
Proof.
  intros Hs Hh He Hid Hv. unfold run, route, AuthRoutes.register, tryCatch, bind.
  rewrite Hs. rewrite (findOne_healthy_user false email w (healthy_S _ _ Hh)), He. simpl.
  unfold Users.create. rewrite Hv. simpl. unfold bind.
  apply call_healthy in Hh as [_ Hh]. apply call_healthy in Hh as [Hc _].
  unfold after. rewrite Hc. simpl. rewrite Hid, He. simpl.
  destruct w; simpl. rewrite drop_drop. reflexivity.
Qed.

(** A user without a usage ledger never passes the gate. *)
Lemma checkApiLimit_no_ledger env req claims w u :
  Users.byId (userId claims) (World.users w) = Some u ->
  User.apiUsage u = None ->
  exists message w',
    checkApiLimit env req claims w
    = (Sends (failureWith 500 "API limit check failed" message req), w')
    /\ World.users w' = World.users w /\ World.resumes w' = World.resumes w
    /\ World.log w' = World.log w.
Proof.
  intros Hu Ha. unfold checkApiLimit, tryCatch, bind, Users.findById, bind.
  destruct (call_cases w) as [Hc|[e Hc]]; rewrite Hc; simpl.
  - rewrite Hu. simpl. destruct u; simpl in *. subst. simpl. eauto 10.
  - eauto 10.
Qed.

(** X4.  A registration that succeeds stores a user without an [apiUsage]
    ledger (the route sets none and the schema gives the subdocument no
    default).  For that user the quota gate answers 500 [API limit check
    failed] on every later request, so [analyze] answers 500 and no resume is
    read or changed. *)
Theorem registered_user_is_blocked env req w name email password :
  Env.regSchema env (Req.body req) = inr (name, email, password) ->
  healthy 2 w = true ->
  Users.byEmail (Users.castEmail email) (World.users w) = None ->
  World.users w !! Env.newId env = None ->
  Users.validNew (AuthRoutes.newUser env name email password) = true ->
  Res.status (fst (run env req AuthRoutes.register w)) = 201
  /\ forall env' req' w' id,
       World.users w' = World.users (snd (run env req AuthRoutes.register w)) ->
       Req.resumeId req' = Req.ValidId id ->
       Req.authorization req' = Req.Verified (Env.newId env) (Users.castEmail email) ->
       (exists message,
          fst (checkApiLimit env' req' (mkClaims (Env.newId env) (Users.castEmail email)) w')
          = Sends (failureWith 500 "API limit check failed" message req'))
       /\ Res.status (fst (run env' req' AiRoutes.analyze w')) = 500
       /\ World.resumes (snd (run env' req' AiRoutes.analyze w')) = World.resumes w'.
Proof.
  intros Hs Hh He Hid Hv.
  rewrite (register_created env req w name email password Hs Hh He Hid Hv). simpl.
  split; [reflexivity|]. intros env' req' w' id Hw Hrid Hauth.
  assert (Hu : Users.byId (userId (mkClaims (Env.newId env) (Users.castEmail email)))
                 (World.users w') = Some (registered env name email password)).
  { rewrite Hw. apply byId_insert. reflexivity. }
  destruct (checkApiLimit_no_ledger env' req' _ w' _ Hu eq_refl)
    as (message & w1 & Hgate & _ & Hr & _).
  split; [exists message; rewrite Hgate; reflexivity|].
  unfold run, route, AiRoutes.analyze, bind, validateResumeId, authenticateToken.
  rewrite Hrid, Hauth. simpl. rewrite Hgate. simpl. auto.
Qed.

Lemma registered_user_is_blocked_witness :
  Res.status (fst (run Signup.env (Signup.form "Dana@Example.com" "secret1")
                       AuthRoutes.register (Examples.world ∅))) = 201
  /\ forall env' req' w' id,
       World.users w'
       = World.users (snd (run Signup.env (Signup.form "Dana@Example.com" "secret1")
                               AuthRoutes.register (Examples.world ∅))) ->
       Req.resumeId req' = Req.ValidId id ->
       Req.authorization req' = Req.Verified 90 (Users.castEmail "Dana@Example.com") ->
       (exists message,
          fst (checkApiLimit env' req' (mkClaims 90 (Users.castEmail "Dana@Example.com")) w')
          = Sends (failureWith 500 "API limit check failed" message req'))
       /\ Res.status (fst (run env' req' AiRoutes.analyze w')) = 500
       /\ World.resumes (snd (run env' req' AiRoutes.analyze w')) = World.resumes w'.
Proof.
  apply (registered_user_is_blocked Signup.env (Signup.form "Dana@Example.com" "secret1")
           (Examples.world ∅) "Dana" "Dana@Example.com" "secret1"); reflexivity.
Defined.

(** The lookup by email in a collection to which a user is added. *)
Lemma byEmail_insert email (users : gmap positive User.t) id u :
  users !! id = None -> User.email u = email -> Users.byEmail email users = None ->
  Users.byEmail email (<[id := u]> users) = Some u.
Proof.
  intros Hid He Hnone. unfold Users.byEmail in *.
  destruct (List.find _ (map_to_list (<[id := u]> users)).*2) as [x|] eqn:E.
  - apply find_some in E as [Hin HP].
    apply list_elem_of_In, list_elem_of_fmap in Hin as ([k y] & -> & Hin).
    apply elem_of_map_to_list in Hin. simpl in *.
    destruct (decide (id = k)) as [<-|N].
    + rewrite lookup_insert_eq in Hin. congruence.
    + rewrite lookup_insert_ne in Hin by exact N. exfalso.
      pose proof (find_none _ _ Hnone y) as Hy. rewrite Hy in HP; [discriminate|].
      apply list_elem_of_In, list_elem_of_fmap. exists (k, y). split; [reflexivity|].
      apply elem_of_map_to_list. exact Hin.
  - exfalso. pose proof (find_none _ _ E u) as Hu.
    assert (String.eqb (User.email u) email = true) as Ht by (apply String.eqb_eq; exact He).
    rewrite Hu in Ht; [discriminate|].
    apply list_elem_of_In, list_elem_of_fmap. exists (id, u). split; [reflexivity|].
    apply elem_of_map_to_list. apply lookup_insert_eq.
Qed.

(** X5.  A registration that succeeds answers 201 with a token signed at
    the time of the registration and the public user, and stores the user
    with the hash of the password, not the password.  A later login with the
    same e-mail and password, at any time and on any state with the same
    users, for which the comparison accepts the password against the stored
    hash, succeeds, costs one database call and carries the same public user
    under a token signed at the time of the login. *)
Theorem register_then_login env req w name email password :
  Env.regSchema env (Req.body req) = inr (name, email, password) ->
  healthy 2 w = true ->
  Users.byEmail (Users.castEmail email) (World.users w) = None ->
  World.users w !! Env.newId env = None ->
  Users.validNew (AuthRoutes.newUser env name email password) = true ->
  let w1 := snd (run env req AuthRoutes.register w) in
  let user := AuthRoutes.publicUser (registered env name email password) in
  let token (e : Env.t) :=
    JStr (Env.sign e (Env.now e) (Env.newId env) (Users.castEmail email)) in
  fst (run env req AuthRoutes.register w)
  = Res.mk 201 true (Some "User registered successfully")
      (Some (JObj [ ("token", token env); ("user", user) ])) None (Req.requestId req)
  /\ World.users w1 !! Env.newId env = Some (registered env name email password)
  /\ User.password (registered env name email password) = Some (Env.hash env password)
  /\ forall env' req' w2,
       World.users w2 = World.users w1 -> healthy 1 w2 = true ->
       Env.logSchema env' (Req.body req') = inr (email, password) ->
       Env.compare env' password (Env.hash env password) = true ->
       run env' req' AuthRoutes.login w2
       = (success "Login successful" (JObj [ ("token", token env'); ("user", user) ]) req',
          after 1 w2).
Proof.
  intros Hs Hh He Hid Hv w1 user token. subst w1 user token.
  rewrite (register_created env req w name email password Hs Hh He Hid Hv). simpl.
  split; [reflexivity|]. split; [apply lookup_insert_eq|]. split; [reflexivity|].
  intros env' req' w2 Hw2 Hh2 Hl Hc.
  unfold run, route, AuthRoutes.login, tryCatch, bind. rewrite Hl.
  rewrite (findOne_healthy_user true email w2 Hh2), Hw2.
  rewrite (byEmail_insert (Users.castEmail email) _ _
             (registered env name email password) Hid eq_refl He).
  simpl. unfold AuthRoutes.comparePassword. simpl. rewrite Hc. simpl.
  reflexivity.
Qed.

Lemma register_then_login_witness :
  let signup := Signup.form "Dana@Example.com" "secret1" in
  let login := Signup.credentials "Dana@Example.com" "secret1" in
  let dana := JObj [ ("id", JId 90); ("name", JStr "Dana"); ("email", JStr "dana@example.com");
                     ("subscriptionType", JStr "free") ] in
  fst (run Signup.env signup AuthRoutes.register (Examples.world ∅))
  = Res.mk 201 true (Some "User registered successfully")
      (Some (JObj [ ("token", JStr "jwt.dana@example.com.1743000000"); ("user", dana) ]))
      None "req-2"
  /\ run Signup.later login AuthRoutes.login
         (snd (run Signup.env signup AuthRoutes.register (Examples.world ∅)))
     = (success "Login successful"
          (JObj [ ("token", JStr "jwt.dana@example.com.1743000600"); ("user", dana) ]) login,
        after 1 (snd (run Signup.env signup AuthRoutes.register (Examples.world ∅)))).
Proof.
  intros signup login dana.
  destruct (register_then_login Signup.env signup (Examples.world ∅)
              "Dana" "Dana@Example.com" "secret1" eq_refl eq_refl eq_refl eq_refl eq_refl)
    as (Hregister & _ & _ & Hlogin).
  split; [exact Hregister|].
  exact (Hlogin Signup.later login _ eq_refl eq_refl eq_refl eq_refl).
Defined.

(** X6.  A login with an e-mail that no user has and a login with the
    wrong password for an existing user get the same answer, 401 [Invalid
    credentials], and leave the same state: the answer does not tell whether
    the e-mail is registered. *)
Theorem login_does_not_tell env req w email password :
  Env.logSchema env (Req.body req) = inr (email, password) ->
  healthy 1 w = true ->
  Users.byEmail (Users.castEmail email) (World.users w) = None
  \/ (exists u hashed,
        Users.byEmail (Users.castEmail email) (World.users w) = Some u
        /\ User.password u = Some hashed
        /\ Env.compare env password hashed = false) ->
  run env req AuthRoutes.login w = (failure 401 "Invalid credentials" req, after 1 w).
Proof.
  intros Hl Hh Hcase. unfold run, route, AuthRoutes.login, tryCatch, bind. rewrite Hl.
  rewrite (findOne_healthy_user true email w Hh).
  destruct Hcase as [->|(u & hashed & -> & Hp & Hc)]; [reflexivity|].
  cbn [fmap option_fmap option_map]. unfold AuthRoutes.comparePassword.
  replace (User.password (Users.project true u)) with (Some hashed)
    by (destruct u; simpl in *; congruence).
  simpl. rewrite Hc. reflexivity.
Qed.

Lemma login_does_not_tell_witness :
  run Signup.env (Signup.credentials "nobody@example.com" "secret1") AuthRoutes.login
      (Examples.world ∅)
  = (failure 401 "Invalid credentials" (Signup.credentials "nobody@example.com" "secret1"),
     after 1 (Examples.world ∅))
  /\ run Signup.env (Signup.credentials "Bob@example.com" "guess") AuthRoutes.login
         (Examples.world ∅)
     = (failure 401 "Invalid credentials" (Signup.credentials "Bob@example.com" "guess"),
        after 1 (Examples.world ∅)).
Proof.
  split.
  - apply (login_does_not_tell Signup.env (Signup.credentials "nobody@example.com" "secret1")
             (Examples.world ∅) "nobody@example.com" "secret1");
      [reflexivity | reflexivity | left; reflexivity].
  - apply (login_does_not_tell Signup.env (Signup.credentials "Bob@example.com" "guess")
             (Examples.world ∅) "Bob@example.com" "guess");
      [reflexivity | reflexivity |].
    right. exists Examples.bob, "$2a$12$secret". repeat split.
Defined.

(** X7.  After a registration, any other registration that passes the
    Joi schema and whose e-mail is the stored one after the casts of the user
    schema (lowercase, trim) is answered 400 [Email already exists] and
    stores nothing: the filter of the lookup is cast like the stored e-mail.
    An address that passes [Joi.string().email()] holds no white space, so
    what the casts absorb on this route is the case of the letters. *)
Theorem second_registration_rejected env req w name email password :
  Env.regSchema env (Req.body req) = inr (name, email, password) ->
  healthy 2 w = true ->
  Users.byEmail (Users.castEmail email) (World.users w) = None ->
  World.users w !! Env.newId env = None ->
  Users.validNew (AuthRoutes.newUser env name email password) = true ->
  forall env' req' w' name' email' password',
    World.users w' = World.users (snd (run env req AuthRoutes.register w)) ->
    healthy 1 w' = true ->
    Env.regSchema env' (Req.body req') = inr (name', email', password') ->
    Users.castEmail email' = Users.castEmail email ->
    run env' req' AuthRoutes.register w'
    = (failure 400 "Email already exists" req', after 1 w').
Proof.
  intros Hs Hh He Hid Hv env' req' w' name' email' password' Hw Hh' Hs' Hcast.
  rewrite (register_created env req w name email password Hs Hh He Hid Hv) in Hw.
  simpl in Hw.
  unfold run, route, AuthRoutes.register, tryCatch, bind. rewrite Hs'.
  rewrite (findOne_healthy_user false email' w' Hh'), Hw, Hcast.
  rewrite (byEmail_insert (Users.castEmail email) _ _
             (registered env name email password) Hid eq_refl He).
  reflexivity.
Qed.

Lemma second_registration_rejected_witness :
  run Signup.later (Signup.form "DANA@Example.COM" "another") AuthRoutes.register
      (snd (run Signup.env (Signup.form "dana@example.com" "secret1") AuthRoutes.register
                (Examples.world ∅)))
  = (failure 400 "Email already exists" (Signup.form "DANA@Example.COM" "another"),
     after 1 (snd (run Signup.env (Signup.form "dana@example.com" "secret1")
                       AuthRoutes.register (Examples.world ∅)))).
Proof.
  apply (second_registration_rejected Signup.env (Signup.form "dana@example.com" "secret1")
           (Examples.world ∅) "Dana" "dana@example.com" "secret1" eq_refl eq_refl eq_refl
           eq_refl eq_refl Signup.later (Signup.form "DANA@Example.COM" "another") _
           "Dana" "DANA@Example.COM" "another");
    reflexivity.
Defined.

(** The same address between blanks does not reach the lookup: Joi refuses
    it. *)
Example blank_padded_email_is_refused :
  fst (run Signup.later (Signup.form "  DANA@Example.COM " "another") AuthRoutes.register
           (snd (run Signup.env (Signup.form "dana@example.com" "secret1")
                     AuthRoutes.register (Examples.world ∅))))
  = failure 400 (Signup.quoted "email" ++ " must be a valid email")
            (Signup.form "  DANA@Example.COM " "another").
Proof. vm_compute. reflexivity. Qed.

(** ** The resume routes, one after the other *)

Lemma owned_insert id owner (resumes : gmap positive Resume.t) r :
  Resume._id r = id -> Resume.userId r = owner ->
  Resumes.owned id owner (<[id := r]> resumes) = Some r.
Proof.
  intros Hid Ho. unfold Resumes.owned, Resumes.byId. rewrite lookup_insert_eq.
  destruct (decide _); [|contradiction]. destruct (decide _); [reflexivity|contradiction].
Qed.

Lemma owned_other id (resumes : gmap positive Resume.t) r other :
  Resume.userId r <> other -> Resumes.owned id other (<[id := r]> resumes) = None.
Proof.
  intros Ho. unfold Resumes.owned, Resumes.byId. rewrite lookup_insert_eq.
  destruct (decide _); [|reflexivity]. destruct (decide _); [contradiction|reflexivity].
Qed.

Lemma getResume_answer env req w id caller email :
  Req.resumeId req = Req.ValidId id ->
  Req.authorization req = Req.Verified caller email ->
  healthy 1 w = true ->
  run env req ResumeRoutes.getResume w
  = (match Resumes.owned id caller (World.resumes w) with
     | Some r => success "Resume retrieved successfully" (JObj [ ("resume", Resume.toJSON r) ]) req
     | None => failure 404 "Resume not found" req
     end, after 1 w).
Proof.
  intros Hid Hauth Hh.
  unfold run, route, ResumeRoutes.getResume, bind, validateResumeId, authenticateToken, tryCatch.
  rewrite Hid, Hauth. simpl. unfold bind. rewrite (findOne_healthy id caller w Hh).
  destruct (Resumes.owned id caller (World.resumes w)); reflexivity.
Qed.

(** X8.  An upload that succeeds answers with the new record; a later GET
    of the id it created, by the owner, returns exactly the stored record,
    and by any other user is answered 404 [Resume not found]. *)
Theorem upload_then_get env req w owner email file text title :
  Req.authorization req = Req.Verified owner email ->
  Req.file req = Some file ->
  ResumeRoutes.extraction env file = Gives text ->
  trim text <> "" ->
  healthy 2 w = true ->
  ~ duplicate owner (Req.originalname file) (World.resumes w) ->
  ResumeRoutes.titleOf req file = Some title ->
  title <> "" -> strlen title <= 200 -> Req.originalname file <> "" ->
  World.resumes w !! Env.newId env = None ->
  let stored := uploadedRecord env owner file text title in
  fst (run env req ResumeRoutes.upload w) = uploadResponse env req file text title
  /\ forall env' req' w' caller email',
       World.resumes w' = World.resumes (snd (run env req ResumeRoutes.upload w)) ->
       healthy 1 w' = true ->
       Req.resumeId req' = Req.ValidId (Env.newId env) ->
       Req.authorization req' = Req.Verified caller email' ->
       run env' req' ResumeRoutes.getResume w'
       = (if decide (caller = owner)
          then success "Resume retrieved successfully"
                 (JObj [ ("resume", Resume.toJSON stored) ]) req'
          else failure 404 "Resume not found" req',
          after 1 w').
Proof.
  intros Hauth Hfile Htext Hne Hh Hd Ht Ht1 Ht2 Hf Hfresh stored.
  unfold run at 1 2, route.
  rewrite (upload_created env req w owner email file text Hauth Hfile Htext title
             Hne Hh Hd Ht Ht1 Ht2 Hf Hfresh). simpl.
  split; [reflexivity|]. intros env' req' w' caller email' Hw Hh' Hid' Hauth'.
  rewrite (getResume_answer env' req' w' _ caller email' Hid' Hauth' Hh'), Hw.
  destruct (decide (caller = owner)) as [->|N].
  - rewrite owned_insert by reflexivity. reflexivity.
  - rewrite owned_other; [reflexivity|]. simpl. congruence.
Qed.

Lemma upload_then_get_witness :
  let first := run Examples.env (plainUpload " Ten years ") ResumeRoutes.upload
                   (Examples.world ∅) in
  run Examples.env (Examples.request Examples.asAlice (Req.ValidId 90) ∅)
      ResumeRoutes.getResume (snd first)
  = (success "Resume retrieved successfully"
       (JObj [ ("resume",
                Resume.toJSON (uploadedRecord Examples.env 1
                                 (Req.mkFile txt "cv.txt" " Ten years ") " Ten years " "cv")) ])
       (Examples.request Examples.asAlice (Req.ValidId 90) ∅),
     after 1 (snd first)).
Proof.
  refine (proj2 (upload_then_get Examples.env (plainUpload " Ten years ") (Examples.world ∅)
                   1 "alice@example.com" (Req.mkFile txt "cv.txt" " Ten years ")
                   " Ten years " "cv" eq_refl eq_refl eq_refl _ eq_refl _ eq_refl _ _ _ eq_refl)
                Examples.env (Examples.request Examples.asAlice (Req.ValidId 90) ∅) _
                1%positive "alice@example.com" eq_refl eq_refl eq_refl eq_refl);
    first [ vm_compute; discriminate
          | intros (id & r & Hr & _); vm_compute in Hr; discriminate ].
Defined.

(** X9.  After an upload that succeeds, another upload by the same user
    of a file with the same name, from which a text that is not blank is
    extracted, is answered 409 [A resume with this filename already exists]
    after one database call and stores nothing, whatever that text, the type
    of the file and the title.  (A file whose text cannot be extracted, or
    is blank, is answered 400 before the lookup.) *)
Theorem second_upload_conflicts env req w owner email file text title :
  Req.authorization req = Req.Verified owner email ->
  Req.file req = Some file ->
  ResumeRoutes.extraction env file = Gives text ->
  trim text <> "" ->
  healthy 2 w = true ->
  ~ duplicate owner (Req.originalname file) (World.resumes w) ->
  ResumeRoutes.titleOf req file = Some title ->
  title <> "" -> strlen title <= 200 -> Req.originalname file <> "" ->
  World.resumes w !! Env.newId env = None ->
  forall env' req' w' email' file' text',
    World.resumes w' = World.resumes (snd (run env req ResumeRoutes.upload w)) ->
    healthy 1 w' = true ->
    Req.authorization req' = Req.Verified owner email' ->
    Req.file req' = Some file' ->
    Req.originalname file' = Req.originalname file ->
    ResumeRoutes.extraction env' file' = Gives text' ->
    trim text' <> "" ->
    run env' req' ResumeRoutes.upload w'
    = (failure 409 "A resume with this filename already exists" req', after 1 w').
Proof.
  intros Hauth Hfile Htext Hne Hh Hd Ht Ht1 Ht2 Hf Hfresh
    env' req' w' email' file' text' Hw Hh' Hauth' Hfile' Hname Htext' Hne'.
  unfold run, route in *.
  rewrite (upload_created env req w owner email file text Hauth Hfile Htext title
             Hne Hh Hd Ht Ht1 Ht2 Hf Hfresh) in Hw. simpl in Hw.
  rewrite (upload_duplicate env' req' w' owner email' file' text' Hauth' Hfile' Htext' Hne' Hh');
    [reflexivity|].
  rewrite Hw, Hname. exists (Env.newId env), (uploadedRecord env owner file text title).
  split; [apply lookup_insert_eq|]. split; reflexivity.
Qed.

Lemma second_upload_conflicts_witness :
  let first := run Examples.env (plainUpload " Ten years ") ResumeRoutes.upload
                   (Examples.world ∅) in
  run Examples.env (plainUpload "Eleven years") ResumeRoutes.upload (snd first)
  = (failure 409 "A resume with this filename already exists" (plainUpload "Eleven years"),
     after 1 (snd first)).
Proof.
  refine (second_upload_conflicts Examples.env (plainUpload " Ten years ") (Examples.world ∅)
            1 "alice@example.com" (Req.mkFile txt "cv.txt" " Ten years ")
            " Ten years " "cv" eq_refl eq_refl eq_refl _ eq_refl _ eq_refl _ _ _ eq_refl
            Examples.env (plainUpload "Eleven years") _ "alice@example.com"
            (Req.mkFile txt "cv.txt" "Eleven years") "Eleven years"
            eq_refl eq_refl eq_refl eq_refl eq_refl eq_refl _);
    first [ vm_compute; discriminate
          | intros (id & r & Hr & _); vm_compute in Hr; discriminate ].
Defined.

Lemma byId_delete id id' (resumes : gmap positive Resume.t) :
  Resumes.byId id' (delete id resumes)
  = if decide (id = id') then None else Resumes.byId id' resumes.
Proof.
  unfold Resumes.byId. destruct (decide (id = id')) as [<-|N].
  - rewrite lookup_delete_eq. reflexivity.
  - rewrite lookup_delete_ne by exact N. reflexivity.
Qed.

(** X10.  Deleting an own record answers with its id and title and removes
    that record and no other.  From then on a GET and a second DELETE of the
    same id are answered 404 [Resume not found] for every caller. *)
Theorem delete_then_get env req w id owner email r :
  Req.resumeId req = Req.ValidId id ->
  Req.authorization req = Req.Verified owner email ->
  healthy 1 w = true ->
  Resumes.owned id owner (World.resumes w) = Some r ->
  run env req ResumeRoutes.deleteResume w
  = (success "Resume deleted successfully" (ResumeRoutes.idAndTitle r) req,
     World.set_resumes (delete id (World.resumes w)) (after 1 w))
  /\ (forall id', id' <> id -> delete id (World.resumes w) !! id' = World.resumes w !! id')
  /\ forall env' req' w' caller email',
       World.resumes w' = delete id (World.resumes w) ->
       healthy 1 w' = true ->
       Req.resumeId req' = Req.ValidId id ->
       Req.authorization req' = Req.Verified caller email' ->
       run env' req' ResumeRoutes.getResume w'
       = (failure 404 "Resume not found" req', after 1 w')
       /\ run env' req' ResumeRoutes.deleteResume w'
          = (failure 404 "Resume not found" req', after 1 w').
Proof.
  intros Hid Hauth Hh Ho. split; [|split].
  - unfold run, route, ResumeRoutes.deleteResume, bind, validateResumeId, authenticateToken,
      tryCatch.
    rewrite Hid, Hauth. simpl. unfold Resumes.findOneAndDelete, bind.
    apply call_healthy in Hh as [Hc _]. rewrite Hc. simpl. rewrite Ho. reflexivity.
  - intros id' N. apply lookup_delete_ne. congruence.
  - intros env' req' w' caller email' Hw Hh' Hid' Hauth'.
    assert (Hnone : Resumes.owned id caller (World.resumes w') = None).
    { rewrite Hw. unfold Resumes.owned. rewrite byId_delete.
      destruct (decide _); [reflexivity|contradiction]. }
    split.
    + rewrite (getResume_answer env' req' w' id caller email' Hid' Hauth' Hh'), Hnone.
      reflexivity.
    + unfold run, route, ResumeRoutes.deleteResume, bind, validateResumeId, authenticateToken,
        tryCatch.
      rewrite Hid', Hauth'. simpl. unfold Resumes.findOneAndDelete, bind.
      apply call_healthy in Hh' as [Hc _]. rewrite Hc. simpl. rewrite Hnone. reflexivity.
Qed.

Lemma delete_then_get_witness :
  let req := Examples.request Examples.asAlice (Req.ValidId 7) ∅ in
  run Examples.env req ResumeRoutes.deleteResume Samples.world
  = (success "Resume deleted successfully" (ResumeRoutes.idAndTitle Samples.cv) req,
     World.set_resumes (delete 7%positive Samples.resumes) (after 1 Samples.world))
  /\ run Examples.env req ResumeRoutes.getResume
         (snd (run Examples.env req ResumeRoutes.deleteResume Samples.world))
     = (failure 404 "Resume not found" req,
        after 1 (snd (run Examples.env req ResumeRoutes.deleteResume Samples.world))).
Proof.
  pose proof (delete_then_get Examples.env (Examples.request Examples.asAlice (Req.ValidId 7) ∅)
                Samples.world 7 1 "alice@example.com" Samples.cv eq_refl eq_refl eq_refl
                eq_refl) as (removed & _ & gone).
  split; [exact removed|].
  apply (gone Examples.env (Examples.request Examples.asAlice (Req.ValidId 7) ∅) _ 1%positive
              "alice@example.com"); reflexivity.
Defined.

(** X11.  PUT [/:resumeId/title] on an own record stores the trimmed title
    and a fresh [updatedAt] and changes nothing else; the update runs without
    the schema's validators, so a title of more than 200 characters is stored
    although the schema's [maxlength] rejects such a record on save. *)
Theorem title_update_is_not_validated env req w id owner email r s :
  Req.resumeId req = Req.ValidId id ->
  Req.authorization req = Req.Verified owner email ->
  healthy 1 w = true ->
  Resumes.owned id owner (World.resumes w) = Some r ->
  Req.body req !! "title" = Some (JStr s) ->
  trim s <> "" ->
  let stored := Resume.set_updatedAt (Env.now env) (Resume.set_title (trim s) r) in
  run env req ResumeRoutes.updateTitle w
  = (success "Resume title updated successfully"
       (JObj [ ("resumeId", JId id); ("title", JStr (trim s)) ]) req,
     World.set_resumes (<[id := stored]> (World.resumes w)) (after 1 w))
  /\ (200 < strlen (trim s) -> Resume.validNew stored = false).
Proof.
  intros Hid Hauth Hh Ho Hb Hne stored. split.
  - unfold run, route, ResumeRoutes.updateTitle, bind, validateResumeId, authenticateToken,
      tryCatch.
    rewrite Hid, Hauth. simpl. rewrite Hb.
    replace (truthy (Some (JStr s))) with true
      by (destruct s; [exfalso; apply Hne; reflexivity|reflexivity]).
    simpl. rewrite strlen_zero. apply String.eqb_neq in Hne. rewrite Hne.
    unfold Resumes.findOneAndUpdateTitle, bind.
    apply call_healthy in Hh as [Hc _]. rewrite Hc. simpl. rewrite Ho. simpl.
    destruct (owned_byId _ _ _ _ Ho) as (_ & _ & Hrid & _).
    unfold ResumeRoutes.idAndTitle. simpl. destruct r; simpl in *. subst. reflexivity.
  - intros Hlong. unfold Resume.validNew, stored. destruct r; simpl.
    apply Z.leb_gt in Hlong. rewrite Hlong, andb_false_r. reflexivity.
Qed.

Lemma title_update_is_not_validated_witness :
  let req := Examples.request Examples.asAlice (Req.ValidId 7) longTitle in
  World.resumes (snd (run Examples.env req ResumeRoutes.updateTitle Samples.world)) !! 7%positive
  = Some (Resume.set_updatedAt Examples.lateMarch
            (Resume.set_title (repeated 201 "x"%char) Samples.cv))
  /\ Resume.validNew (Resume.set_updatedAt Examples.lateMarch
                        (Resume.set_title (repeated 201 "x"%char) Samples.cv)) = false.
Proof.
  destruct (title_update_is_not_validated Examples.env
              (Examples.request Examples.asAlice (Req.ValidId 7) longTitle) Samples.world
              7 1 "alice@example.com" Samples.cv (repeated 201 "x"%char)
              eq_refl eq_refl eq_refl eq_refl eq_refl ltac:(vm_compute; discriminate))
    as [stored invalid].
  split.
  - rewrite stored. simpl. apply lookup_insert_eq.
  - apply invalid. vm_compute. reflexivity.
Defined.

(** After such an update no save of the record passes its validators:
    [analyze] answers 500 before the provider is called, and its error
    handler stores the status [uploaded]; [enhance] and [match] call the
    provider, answer 500 and store nothing. *)
Example over_long_title_blocks_the_record :
  let w1 := snd (run Examples.env (Samples.bobOn 8 longTitle) ResumeRoutes.updateTitle
                     Samples.world) in
  let stored := Resume.set_updatedAt Examples.lateMarch
                  (Resume.set_title (repeated 201 "x"%char) Samples.polished) in
  World.resumes w1 !! 8%positive = Some stored
  /\ (let answer := run Samples.mocked (Samples.bobOn 8 ∅) AiRoutes.analyze w1 in
      fst answer
      = failureWith 500 "Error analyzing resume" "Internal server error" (Samples.bobOn 8 ∅)
      /\ World.log (snd answer) = []
      /\ World.resumes (snd answer) !! 8%positive = Some (Resume.set_status uploaded stored))
  /\ (let answer := run Samples.mocked (Samples.bobOn 8 Samples.targets) AiRoutes.enhance w1 in
      fst answer
      = failureWith 500 "Error enhancing resume" "Internal server error"
                    (Samples.bobOn 8 Samples.targets)
      /\ World.resumes (snd answer) = World.resumes w1)
  /\ (let answer := run Samples.mocked (Samples.bobOn 8 Samples.job) AiRoutes.matchResume w1 in
      fst answer
      = failureWith 500 "Error matching resume with job" "Internal server error"
                    (Samples.bobOn 8 Samples.job)
      /\ World.resumes (snd answer) = World.resumes w1).
Proof. vm_compute. repeat split. Qed.

(** ** What comes first in a route *)

(** X12.  On the seven routes with a [:resumeId] parameter an id that is
    no ObjectId is answered 400 [Invalid resume ID format] before anything
    else: also without a token, with a bad body or an exhausted quota, and
    without a database call. *)
Theorem invalid_id_is_answered_first env req w handler :
  In handler recordScoped ->
  Req.resumeId req = Req.InvalidId ->
  run env req handler w = (failure 400 "Invalid resume ID format" req, w).
Proof.
  intros Hin Hid. simpl in Hin.
  destruct Hin as [<-|[<-|[<-|[<-|[<-|[<-|[<-|[]]]]]]]];
    unfold run, route, ResumeRoutes.getResume, ResumeRoutes.updateTitle,
      ResumeRoutes.deleteResume, AiRoutes.analyze, AiRoutes.enhance, AiRoutes.matchResume,
      AiRoutes.history, bind, validateResumeId;
    rewrite Hid; reflexivity.
Qed.

Lemma invalid_id_is_answered_first_witness :
  run Examples.env (Examples.request Req.NoToken Req.InvalidId ∅) AiRoutes.analyze
      Samples.world
  = (failure 400 "Invalid resume ID format" (Examples.request Req.NoToken Req.InvalidId ∅),
     Samples.world).
Proof.
  apply (invalid_id_is_answered_first Examples.env
           (Examples.request Req.NoToken Req.InvalidId ∅) Samples.world AiRoutes.analyze);
    [simpl; tauto | reflexivity].
Defined.

(** X13.  On each of the eleven routes of [guardedRoutes] (the routes
    behind [authenticateToken], but [GET /list]), a request without a token
    or with a token that does not verify is answered with a failure that
    carries no data, and nothing is read from or written to the database. *)
Theorem without_a_token_nothing_happens env req w handler :
  In handler guardedRoutes ->
  Req.authorization req = Req.NoToken \/ Req.authorization req = Req.BadToken ->
  snd (run env req handler w) = w
  /\ Res.success (fst (run env req handler w)) = false
  /\ Res.data (fst (run env req handler w)) = None.
Proof.
  intros Hin Hauth. simpl in Hin.
  destruct Hin as [<-|[<-|[<-|[<-|[<-|[<-|[<-|[<-|[<-|[<-|[<-|[]]]]]]]]]]]];
    unfold run, route, ResumeRoutes.upload, ResumeRoutes.getResume, ResumeRoutes.updateTitle,
      ResumeRoutes.deleteResume, AiRoutes.analyze, AiRoutes.enhance, AiRoutes.matchResume,
      AiRoutes.history, AuthRoutes.me, UserRoutes.getProfile, UserRoutes.updateProfile,
      bind, validateResumeId, validateEnhanceRequest, validateMatchRequest,
      sanitizeCompanyName, authenticateToken;
    destruct Hauth as [Hauth|Hauth]; rewrite Hauth;
    unfold bind, send, ret, throw;
    repeat match goal with
           | |- context [match ?x with _ => _ end] => atomic x; destruct x; simpl
           end;
    repeat split.
Qed.

Lemma without_a_token_nothing_happens_witness :
  snd (run Examples.env (Examples.request Req.BadToken (Req.ValidId 7) ∅)
           ResumeRoutes.deleteResume Samples.world) = Samples.world
  /\ Res.success (fst (run Examples.env (Examples.request Req.BadToken (Req.ValidId 7) ∅)
                           ResumeRoutes.deleteResume Samples.world)) = false
  /\ Res.data (fst (run Examples.env (Examples.request Req.BadToken (Req.ValidId 7) ∅)
                        ResumeRoutes.deleteResume Samples.world)) = None.
Proof.
  apply (without_a_token_nothing_happens Examples.env
           (Examples.request Req.BadToken (Req.ValidId 7) ∅) Samples.world
           ResumeRoutes.deleteResume); [simpl; tauto | right; reflexivity].
Defined.

Lemma checkApiLimit_keeps_log env req claims w :
  World.log (snd (checkApiLimit env req claims w)) = World.log w
  /\ World.random (snd (checkApiLimit env req claims w)) = World.random w.
Proof.
  unfold checkApiLimit, tryCatch, bind, Users.findById, bind, Db.call, gets, ret.
  destruct w as [us rs0 fs rd lg]. simpl.
  unfold Users.save, bind, Db.call, gets, modify, ret, throw, send.
  split; branches.
Qed.

Lemma sanitize_pure v w c :
  fst (sanitizeCompanyName v w) = Returns c ->
  forall w0, sanitizeCompanyName v w0 = (Returns c, w0).
Proof.
  unfold sanitizeCompanyName. destruct (truthy v); [|intros [= ->]; reflexivity].
  destruct v as [[]|]; simpl; intros [= <-]; reflexivity.
Qed.

(** X14.  When the quota gate answers a request itself (404, 429 or 500),
    that answer is the answer of [analyze], [enhance] and [match]: the
    handler does not run, no resume changes and the generation service is
    not called. *)
Theorem gate_answer_is_final env req w id caller email r w1 :
  Req.resumeId req = Req.ValidId id ->
  Req.authorization req = Req.Verified caller email ->
  checkApiLimit env req (mkClaims caller email) w = (Sends r, w1) ->
  run env req AiRoutes.analyze w = (r, w1)
  /\ (forall targetRole targetIndustry,
        requiredString (Req.body req !! "targetRole") = Some targetRole ->
        requiredString (Req.body req !! "targetIndustry") = Some targetIndustry ->
        run env req AiRoutes.enhance w = (r, w1))
  /\ (forall jobTitle jobDescription companyName,
        requiredString (Req.body req !! "jobTitle") = Some jobTitle ->
        requiredString (Req.body req !! "jobDescription") = Some jobDescription ->
        fst (sanitizeCompanyName (Req.body req !! "companyName") w) = Returns companyName ->
        run env req AiRoutes.matchResume w = (r, w1))
  /\ World.resumes w1 = World.resumes w
  /\ World.log w1 = World.log w.
Proof.
  intros Hid Hauth Hgate. split; [|split; [|split; [|split]]].
  - unfold run, route, AiRoutes.analyze, bind, validateResumeId, authenticateToken.
    rewrite Hid, Hauth. simpl. rewrite Hgate. reflexivity.
  - intros targetRole targetIndustry Hrole Hind.
    unfold run, route, AiRoutes.enhance, bind, validateResumeId, validateEnhanceRequest,
      authenticateToken.
    rewrite Hid, Hrole, Hind, Hauth. simpl. rewrite Hgate. reflexivity.
  - intros jobTitle jobDescription companyName Ht Hd Hc.
    unfold run, route, AiRoutes.matchResume, bind, validateResumeId, validateMatchRequest,
      authenticateToken.
    rewrite Hid, Ht, Hd. simpl. unfold bind.
    rewrite (sanitize_pure _ w companyName Hc w). simpl.
    rewrite Hauth. simpl. rewrite Hgate. reflexivity.
  - pose proof (checkApiLimit_keeps_resumes env req (mkClaims caller email) w) as H.
    rewrite Hgate in H. exact H.
  - pose proof (checkApiLimit_keeps_log env req (mkClaims caller email) w) as [H _].
    rewrite Hgate in H. exact H.
Qed.

Lemma gate_answer_is_final_witness :
  let req := Examples.request Examples.asAlice (Req.ValidId 7) ∅ in
  run Examples.env req AiRoutes.analyze Samples.world
  = (failure 429 "Monthly API limit exceeded" req, after 1 Samples.world).
Proof.
  apply (gate_answer_is_final Examples.env (Examples.request Examples.asAlice (Req.ValidId 7) ∅)
           Samples.world 7 1 "alice@example.com"); reflexivity.
Defined.

(** X15.  A request to [analyze], [enhance] or [match] for a record the
    caller does not own, by a caller whose stored document passes the
    validators of the user schema and whose counter is below the limit, is
    answered 404 [Resume not found] after the quota gate has counted it: the
    caller's monthly counter is one higher although no generation took
    place. *)
Theorem missing_record_costs_a_call env req w id caller email u usage :
  Req.resumeId req = Req.ValidId id ->
  Req.authorization req = Req.Verified caller email ->
  Users.byId caller (World.users w) = Some u ->
  User.apiUsage u = Some usage ->
  Users.valid (Users.project false u) = true ->
  ge (ApiUsage.monthly (resetIfNewMonth (Env.now env) usage))
     (orElse (property limits (User.subscriptionType u)) 5) = false ->
  healthy 3 w = true ->
  Resumes.owned id caller (World.resumes w) = None ->
  let charged :=
    World.set_users
      (<[caller :=
           User.set_updatedAt (Env.now env)
             (User.set_apiUsage (Some (increment (resetIfNewMonth (Env.now env) usage)))
                (Users.hydrate u))]>
         (World.users w))
      (after 3 w) in
  run env req AiRoutes.analyze w = (failure 404 "Resume not found" req, charged)
  /\ (forall targetRole targetIndustry,
        requiredString (Req.body req !! "targetRole") = Some targetRole ->
        requiredString (Req.body req !! "targetIndustry") = Some targetIndustry ->
        run env req AiRoutes.enhance w = (failure 404 "Resume not found" req, charged))
  /\ (forall jobTitle jobDescription companyName,
        requiredString (Req.body req !! "jobTitle") = Some jobTitle ->
        requiredString (Req.body req !! "jobDescription") = Some jobDescription ->
        fst (sanitizeCompanyName (Req.body req !! "companyName") w) = Returns companyName ->
        run env req AiRoutes.matchResume w = (failure 404 "Resume not found" req, charged)).
Proof.
  intros Hid Hauth Hu Ha Hv Hge Hh Ho charged.
  pose proof (checkApiLimit_admit env req (mkClaims caller email) w u usage Hu Ha
                (healthy_le 2 3 w ltac:(lia) Hh) Hv Hge) as Hgate.
  simpl userId in Hgate.
  set (w1 := World.set_users _ (World.set_faults (drop 2 (World.faults w)) w)) in Hgate.
  assert (Hh1 : healthy 1 w1 = true).
  { apply (healthy_drop 2 1 w w1 Hh). reflexivity. }
  assert (Hlook : Resumes.findOne id caller w1 = (Returns None, charged)).
  { rewrite (findOne_healthy id caller w1 Hh1). subst w1. simpl. rewrite Ho.
    subst charged. unfold after. destruct w; simpl. rewrite drop_drop. reflexivity. }
  split; [|split].
  - unfold run, route, AiRoutes.analyze, bind, validateResumeId, authenticateToken.
    rewrite Hid, Hauth. simpl. rewrite Hgate. unfold tryCatch, bind. rewrite Hlook.
    reflexivity.
  - intros targetRole targetIndustry Hrole Hind.
    unfold run, route, AiRoutes.enhance, bind, validateResumeId, validateEnhanceRequest,
      authenticateToken.
    rewrite Hid, Hrole, Hind, Hauth. simpl. rewrite Hgate. unfold tryCatch, bind.
    rewrite Hlook. reflexivity.
  - intros jobTitle jobDescription companyName Ht Hd Hc.
    unfold run, route, AiRoutes.matchResume, bind, validateResumeId, validateMatchRequest,
      authenticateToken.
    rewrite Hid, Ht, Hd. simpl. unfold bind.
    rewrite (sanitize_pure _ w companyName Hc w). simpl.
    rewrite Hauth. simpl. rewrite Hgate. unfold tryCatch, bind. rewrite Hlook.
    reflexivity.
Qed.

Lemma missing_record_costs_a_call_witness :
  let req := Samples.bobOn 99 ∅ in
  run Samples.mocked req AiRoutes.analyze Samples.world
  = (failure 404 "Resume not found" req,
     World.set_users
       (<[2%positive :=
            User.set_updatedAt Examples.lateMarch
              (User.set_apiUsage (Some (ApiUsage.mk 4 Examples.march 40)) Examples.bob)]>
          Examples.users)
       (after 3 Samples.world)).
Proof.
  apply (missing_record_costs_a_call Samples.mocked (Samples.bobOn 99 ∅) Samples.world 99 2
           "bob@example.com" Examples.bob (ApiUsage.mk 3 Examples.march 40));
    reflexivity.
Defined.

(** A job match out of range fails the record, whatever else it holds. *)
Lemma invalid_push r j :
  JobMatch.valid j = false ->
  Resume.validNew (Resume.set_jobMatching (Resume.jobMatching r ++ [j]) r) = false.
Proof.
  intros Hj. unfold Resume.validNew. destruct r; simpl.
  rewrite forallb_app. simpl. rewrite Hj, andb_false_r, andb_false_r. reflexivity.
Qed.

(** X16.  When the live model returns a match score outside 0..100, the
    save of the job match fails validation: [match] answers 500 [Error
    matching resume with job], the resumes are unchanged, and the provider
    has been called (and the quota counted). *)
Theorem match_out_of_range_is_refused env req w id owner email r
    jobTitle jobDescription companyName m :
  Req.resumeId req = Req.ValidId id ->
  requiredString (Req.body req !! "jobTitle") = Some jobTitle ->
  requiredString (Req.body req !! "jobDescription") = Some jobDescription ->
  fst (sanitizeCompanyName (Req.body req !! "companyName") w) = Returns companyName ->
  Req.authorization req = Req.Verified owner email ->
  admitted env owner w ->
  Resumes.owned id owner (World.resumes w) = Some r ->
  Resume.originalText r <> "" ->
  fst (GoogleAI.matchJobDescription env (Resume.originalText r) jobTitle jobDescription
         companyName w) = Returns m ->
  healthy 3 w = true ->
  percent (Some (default 0 (Live.matchScore m))) = false ->
  exists w',
    run env req AiRoutes.matchResume w
    = (failureWith 500 "Error matching resume with job"
         (detail env (Db.ValidationError "Resume")) req, w')
    /\ World.resumes w' = World.resumes w
    /\ World.log w' = (World.log w ++ [Generate (World.resumes w)])%list.
Proof.
  intros Hid Ht Hd Hc Hauth Hq Hfound Htext Ha Hh Hscore.
  unfold run, route, AiRoutes.matchResume, bind, validateResumeId, validateMatchRequest,
    authenticateToken.
  rewrite Hid, Ht, Hd. simpl. unfold bind. rewrite (sanitize_pure _ w companyName Hc w).
  simpl. rewrite Hauth. simpl.
  destruct (admitted_gate env req owner email w Hq (healthy_le 2 3 w ltac:(lia) Hh))
    as (w1 & -> & Hr1 & Hf1 & Hl1 & Hd1).
  unfold tryCatch, bind.
  rewrite (findOne_healthy id owner w1 (healthy_drop 2 1 w w1 Hh Hf1)).
  rewrite Hr1, Hfound. apply String.eqb_neq in Htext as Hte. rewrite Hte.
  destruct (matchJobDescription_at env (Resume.originalText r) jobTitle jobDescription
              companyName w (after 1 w1) m Ha)
    as (w5 & -> & (Hu5 & Hr5 & Hf5) & Hl5).
  { simpl. exact Hd1. }
  rewrite save_invalid.
  - eexists. split; [reflexivity|]. simpl. rewrite Hr5, Hl5. simpl. rewrite Hr1, Hl1. auto.
  - apply invalid_push. exact Hscore.
Qed.

Lemma match_out_of_range_is_refused_witness :
  exists w',
    run Overshoot.env (Samples.bobOn 8 Samples.job) AiRoutes.matchResume Samples.world
    = (failureWith 500 "Error matching resume with job" "Internal server error"
         (Samples.bobOn 8 Samples.job), w')
    /\ World.resumes w' = Samples.resumes
    /\ World.log w' = [Generate Samples.resumes].
Proof.
  apply (match_out_of_range_is_refused Overshoot.env (Samples.bobOn 8 Samples.job)
           Samples.world 8 2 "bob@example.com" Samples.polished "Analyst"
           "Dashboards for stores" None
           (Live.mkMatch (Some 150) None None None None None None));
    try reflexivity; [apply bob_admitted; reflexivity | discriminate].
Defined.

(** X17.  A match request whose [companyName] is truthy but no string (a
    number, [true], an array, an object) makes [validateMatchRequest] throw
    on [companyName.trim]; the server's error handler answers 500 with that
    message, for any caller, before the token is looked at, and nothing
    changes. *)
Theorem company_name_must_be_a_string env req w id jobTitle jobDescription v :
  Req.resumeId req = Req.ValidId id ->
  requiredString (Req.body req !! "jobTitle") = Some jobTitle ->
  requiredString (Req.body req !! "jobDescription") = Some jobDescription ->
  Req.body req !! "companyName" = Some v ->
  truthy (Some v) = true ->
  (forall s, v <> JStr s) ->
  run env req AiRoutes.matchResume w
  = (errorHandler env req (TypeError "companyName.trim is not a function"), w)
  /\ Res.status (fst (run env req AiRoutes.matchResume w)) = 500.
Proof.
  intros Hid Ht Hd Hc Hv Hs.
  assert (E : run env req AiRoutes.matchResume w
              = (errorHandler env req (TypeError "companyName.trim is not a function"), w)).
  { unfold run, route, AiRoutes.matchResume, bind, validateResumeId, validateMatchRequest.
    rewrite Hid, Ht, Hd. simpl. unfold bind, sanitizeCompanyName. rewrite Hc, Hv.
    destruct v; try reflexivity. exfalso. apply (Hs s). reflexivity. }
  rewrite E. split; reflexivity.
Qed.

Lemma company_name_must_be_a_string_witness :
  let req := Examples.request Req.NoToken (Req.ValidId 8)
               (<["companyName" := JNum 7]> Samples.job) in
  run Examples.env req AiRoutes.matchResume Samples.world
  = (Res.mk 500 false (Some "companyName.trim is not a function") None None "req-1",
     Samples.world).
Proof.
  apply (company_name_must_be_a_string Examples.env
           (Examples.request Req.NoToken (Req.ValidId 8)
              (<["companyName" := JNum 7]> Samples.job))
           Samples.world 8 "Analyst" "Dashboards for stores" (JNum 7));
    first [ reflexivity | intros s; discriminate ].
Defined.

(** X18.  The three methods of the generation service always return a
    result: they never throw and never answer the request themselves.  They
    leave users, resumes and the coming database calls as they are, and when
    the mock is off and the live model answers, they return the model's
    answer unchanged. *)
Theorem generation_service_is_safe env w :
  (forall text,
     exists a w',
       GoogleAI.analyzeResume env text w = (Returns a, w')
       /\ sameStore w w'
       /\ (forall a', Env.useMock env = false ->
             Live.analyze (Env.model env) text = Gives a' -> a = a'))
  /\ (forall text role industry,
        exists t w',
          GoogleAI.enhanceResume env text role industry w = (Returns t, w')
          /\ sameStore w w'
          /\ (forall t', Env.useMock env = false ->
                Live.enhance (Env.model env) text role industry = Gives t' -> t = t'))
  /\ (forall text title description company,
        exists m w',
          GoogleAI.matchJobDescription env text title description company w = (Returns m, w')
          /\ sameStore w w'
          /\ (forall m', Env.useMock env = false ->
                Live.matchJob (Env.model env) text title description
                  (from_option Datatypes.id (JStr "") company) = Gives m' -> m = m')).
Proof.
  split; [|split].
  - intros text.
    destruct (analyzeResume_spec env text w) as (a & w' & H & Hs & _ & _ & Hp).
    exists a, w'. auto.
  - intros text role industry.
    destruct (enhanceResume_spec env text role industry w) as (t & H & _ & Hp).
    exists t, (generated w). split; [exact H|]. split; [|exact Hp].
    unfold sameStore, generated. destruct w; simpl. auto.
  - intros text title description company.
    destruct (matchJobDescription_spec env text title description company w)
      as (m & w' & H & Hs & _ & _ & Hp).
    exists m, w'. auto.
Qed.

(** ** The file an upload carries *)

Lemma fileFilter_fileTypeOf mimetype :
  (Multer.fileFilter mimetype = Gives tt <-> is_Some (Multer.fileTypeOf mimetype))
  /\ (Multer.fileTypeOf mimetype = None ->
      Multer.fileFilter mimetype
      = Fails (mkError "Error" "Invalid file type. Only PDF, DOCX, and TXT files are allowed.")).
Proof.
  unfold Multer.fileFilter, Multer.fileTypeOf, Multer.includes, Multer.allowedTypes. simpl.
  destruct (String.eqb mimetype "application/pdf"); simpl.
  { split; [split; eauto|discriminate]. }
  destruct (String.eqb mimetype _); simpl.
  { split; [split; eauto|discriminate]. }
  destruct (String.eqb mimetype "text/plain"); simpl.
  { split; [split; eauto|discriminate]. }
  split; [|reflexivity]. split; [discriminate|]. intros [x H]. discriminate.
Qed.

(** X19.  The upload filter accepts a MIME type exactly when the upload
    handler has a text extraction for it (pdf, docx, txt); a file that
    reaches the handler has passed the filter and the size limit, so one of
    the handler's three type tests applies and [fileType] is never left
    empty; and a request without a file part reaches the handler without a
    file. *)
Theorem filter_agrees_with_handler mimetype :
  (Multer.fileFilter mimetype = Gives tt <-> is_Some (Multer.fileTypeOf mimetype))
  /\ (forall part p,
        Multer.single part = inr (Some p) ->
        part = Some p /\ Multer.tooLarge p = false
        /\ is_Some (Multer.fileTypeOf (Multer.mimetype p)))
  /\ Multer.single None = inr None.
Proof.
  split; [apply fileFilter_fileTypeOf|]. split; [|reflexivity].
  intros part p. destruct part as [q|]; [|discriminate]. simpl.
  destruct (Multer.fileFilter (Multer.mimetype q)) as [e|[]] eqn:E; [discriminate|].
  destruct (Multer.tooLarge q) eqn:El; [discriminate|]. intros [= <-].
  split; [reflexivity|]. split; [exact El|]. apply fileFilter_fileTypeOf, E.
Qed.

(** X20.  Every file that multer rejects is answered 400 by
    [handleMulterError]: a type outside the list with the filter's message,
    an accepted type over the size limit with [File size too large. Maximum
    size is 10MB.]; the type is checked first.  Every multer error with a
    code is answered 400. *)
Theorem multer_rejections_are_answered req part failed :
  Multer.single part = inl failed ->
  (exists p,
     part = Some p
     /\ ((Multer.fileTypeOf (Multer.mimetype p) = None
          /\ Multer.handleMulterError failed req
             = inl (failure 400
                      "Invalid file type. Only PDF, DOCX, and TXT files are allowed." req))
         \/ (is_Some (Multer.fileTypeOf (Multer.mimetype p)) /\ Multer.tooLarge p = true
             /\ Multer.handleMulterError failed req
                = inl (failure 400 "File size too large. Maximum size is 10MB." req))))
  /\ forall code error,
       exists answer,
         Multer.handleMulterError (Multer.mkFailure (Some code) error) req = inl answer
         /\ Res.status answer = 400.
Proof.
  intros Hs. split.
  - destruct part as [p|]; [|discriminate]. exists p. split; [reflexivity|].
    simpl in Hs. destruct (fileFilter_fileTypeOf (Multer.mimetype p)) as [Hiff Hno].
    destruct (Multer.fileTypeOf (Multer.mimetype p)) as [t|] eqn:Et.
    + right. assert (Hf : Multer.fileFilter (Multer.mimetype p) = Gives tt)
        by (apply Hiff; eauto).
      rewrite Hf in Hs. destruct (Multer.tooLarge p); [|discriminate].
      injection Hs as <-. split; [eauto|]. split; reflexivity.
    + left. rewrite (Hno eq_refl) in Hs. injection Hs as <-. split; [reflexivity|].
      vm_compute. reflexivity.
  - intros code error. unfold Multer.handleMulterError. simpl.
    destruct (String.eqb code "LIMIT_FILE_SIZE"); eexists; split; reflexivity.
Qed.

Lemma multer_rejections_are_answered_witness :
  Multer.handleMulterError
    (Multer.mkFailure None
       (mkError "Error" "Invalid file type. Only PDF, DOCX, and TXT files are allowed."))
    (plainUpload "")
  = inl (failure 400 "Invalid file type. Only PDF, DOCX, and TXT files are allowed."
           (plainUpload "")).
Proof.
  destruct (multer_rejections_are_answered (plainUpload "")
              (Some (Multer.mkPart "image/png" "cv.png" "PNG" false))
              (Multer.mkFailure None
                 (mkError "Error"
                    "Invalid file type. Only PDF, DOCX, and TXT files are allowed."))
              eq_refl) as [(p & Hp & [[_ answered]|(typed & _)]) _].
  - exact answered.
  - injection Hp as <-. destruct typed as [x Hx]. discriminate Hx.
Defined.

(** ** The token of a request *)

Lemma split_spaceless s : spaceless s = true -> Header.split s = [s].
Proof.
  induction s as [|c s IH]; [reflexivity|]. simpl.
  destruct (Ascii.eqb c " "); [discriminate|]. simpl. intros H. rewrite (IH H). reflexivity.
Qed.

Lemma split_word s rest :
  spaceless s = true -> Header.split (s ++ " " ++ rest) = s :: Header.split rest.
Proof.
  induction s as [|c s IH]; [reflexivity|]. simpl.
  destruct (Ascii.eqb c " "); [discriminate|]. simpl. intros H. rewrite (IH H). reflexivity.
Qed.

(** X21.  The token of a request is the second word of the
    [Authorization] header split at single spaces.  The first word, the
    scheme, is not looked at; words after the token are ignored; a header
    without a space, with two spaces after the scheme, or no header at all
    is answered like a missing token. *)
Theorem scheme_is_not_checked verify scheme t :
  spaceless scheme = true -> spaceless t = true -> t <> "" ->
  Header.authorization verify (Some (scheme ++ " " ++ t)) = verified verify t
  /\ (forall rest,
        Header.authorization verify (Some (scheme ++ " " ++ t ++ " " ++ rest))
        = verified verify t)
  /\ Header.authorization verify (Some scheme) = Req.NoToken
  /\ Header.authorization verify (Some (scheme ++ "  " ++ t)) = Req.NoToken
  /\ Header.authorization verify None = Req.NoToken.
Proof.
  intros Hs Ht Hne.
  assert (Hnonempty : forall rest, String.eqb (scheme ++ " " ++ rest) "" = false).
  { intros rest. destruct scheme; reflexivity. }
  assert (Hte : String.eqb t "" = false) by (apply String.eqb_neq; exact Hne).
  unfold Header.authorization, Header.token, verified.
  split; [|split; [|split; [|split]]].
  - rewrite Hnonempty, split_word, split_spaceless by assumption. simpl. rewrite Hte.
    reflexivity.
  - intros rest. rewrite Hnonempty, split_word, split_word by assumption. simpl.
    rewrite Hte. reflexivity.
  - destruct (String.eqb scheme "") eqn:E.
    + apply String.eqb_eq in E. subst. reflexivity.
    + rewrite split_spaceless by assumption. reflexivity.
  - change (scheme ++ "  " ++ t) with (scheme ++ " " ++ ("" ++ " " ++ t)).
    rewrite Hnonempty, split_word, split_word by (assumption || reflexivity). reflexivity.
  - reflexivity.
Qed.

Lemma scheme_is_not_checked_witness :
  let verify t :=
    if String.eqb t "abc.def.ghi" then Gives (mkClaims 2 "bob@example.com")
    else Fails (mkError "JsonWebTokenError" "jwt malformed") in
  Header.authorization verify (Some "Bearer abc.def.ghi") = Examples.asBob
  /\ Header.authorization verify (Some "Basic abc.def.ghi") = Examples.asBob
  /\ Header.authorization verify (Some " abc.def.ghi") = Examples.asBob
  /\ Header.authorization verify (Some "abc.def.ghi") = Req.NoToken
  /\ Header.authorization verify (Some "Bearer  abc.def.ghi") = Req.NoToken.
Proof.
  intros verify.
  pose proof (scheme_is_not_checked verify "Bearer" "abc.def.ghi" eq_refl eq_refl
                ltac:(discriminate)) as (bearer & _ & _ & double & _).
  pose proof (scheme_is_not_checked verify "Basic" "abc.def.ghi" eq_refl eq_refl
                ltac:(discriminate)) as (basic & _).
  pose proof (scheme_is_not_checked verify "" "abc.def.ghi" eq_refl eq_refl
                ltac:(discriminate)) as (bare & _).
  pose proof (scheme_is_not_checked verify "abc.def.ghi" "x" eq_refl eq_refl
                ltac:(discriminate)) as (_ & _ & alone & _).
  repeat split; assumption.
Defined.

(** ** A file name without a title *)

Lemma duplicate_find owner name (resumes : gmap positive Resume.t) :
  duplicate owner name resumes
  <-> is_Some (List.find
                 (fun r => bool_decide (Resume.userId r = owner)
                           && String.eqb (Resume.fileName r) name)
                 (map_to_list resumes).*2).
Proof.
  rewrite <- find_values. unfold duplicate.
  split; intros (id & r & Hm & HP); exists id, r; (split; [exact Hm|]).
  - destruct HP as [H1 H2]. apply andb_true_iff. split.
    + apply bool_decide_eq_true. exact H1.
    + apply String.eqb_eq. exact H2.
  - apply andb_true_iff in HP as [H1 H2]. apply bool_decide_eq_true in H1.
    apply String.eqb_eq in H2. auto.
Qed.

(** X22.  An upload without a title of a file whose name starts with a dot
    gets the empty title [originalname.split('.')[0]]; the required title
    fails validation, so the upload is answered 500 [Error uploading resume]
    and nothing is stored. *)
Theorem upload_of_a_dot_file_fails env req w owner email file text rest :
  Req.authorization req = Req.Verified owner email ->
  Req.file req = Some file ->
  ResumeRoutes.extraction env file = Gives text ->
  trim text <> "" ->
  healthy 1 w = true ->
  ~ duplicate owner (Req.originalname file) (World.resumes w) ->
  truthy (Req.body req !! "title") = false ->
  Req.originalname file = String "."%char rest ->
  run env req ResumeRoutes.upload w
  = (failureWith 500 "Error uploading resume" (detail env (Db.ValidationError "Resume")) req,
     after 1 w).
Proof.
  intros Hauth Hfile Htext Hne Hh Hd Hb Hname.
  unfold run, route, ResumeRoutes.upload, bind, authenticateToken, tryCatch.
  rewrite Hauth, Hfile, Htext. simpl.
  rewrite strlen_zero. apply String.eqb_neq in Hne. rewrite Hne.
  destruct (findOneByFileName_healthy owner (Req.originalname file) w Hh)
    as (found & Hfd & Hiff).
  rewrite Hfd. destruct found as [r|].
  { exfalso. apply Hd, Hiff. eauto. }
  unfold ResumeRoutes.titleOf. rewrite Hb, Hname. simpl. reflexivity.
Qed.

Lemma upload_of_a_dot_file_fails_witness :
  let req := Req.mk "req-1" Examples.asAlice Req.InvalidId ∅
               (Some (Req.mkFile txt ".profile" "Ten years")) in
  run Examples.env req ResumeRoutes.upload Samples.world
  = (failureWith 500 "Error uploading resume" "Internal server error" req,
     after 1 Samples.world).
Proof.
  apply (upload_of_a_dot_file_fails Examples.env _ Samples.world 1 "alice@example.com"
           (Req.mkFile txt ".profile" "Ten years") "Ten years" "profile");
    first [ reflexivity | vm_compute; discriminate
          | rewrite duplicate_find; vm_compute; intros [x Hx]; discriminate Hx ].
Defined.

(** ** The preview of the uploaded text *)

Lemma substring_short n s : (String.length s <= n)%nat -> String.substring 0 n s = s.
Proof.
  revert n. induction s as [|c s IH]; intros n H.
  - destruct n; reflexivity.
  - destruct n; [simpl in H; lia|]. simpl. rewrite IH; [reflexivity|]. simpl in H. lia.
Qed.

Lemma substring_long n s :
  (n <= String.length s)%nat -> String.length (String.substring 0 n s) = n.
Proof.
  revert n. induction s as [|c s IH]; intros n H.
  - destruct n; [reflexivity|simpl in H; lia].
  - destruct n; [reflexivity|]. simpl. rewrite IH; [reflexivity|]. simpl in H. lia.
Qed.

Lemma length_append_string a b :
  String.length (a ++ b) = (String.length a + String.length b)%nat.
Proof. induction a as [|c a IH]; simpl; [reflexivity|]. rewrite IH. reflexivity. Qed.

Lemma append_empty s : String.append s "" = s.
Proof.
  induction s as [|c s IH]; [reflexivity|].
  change (String c (String.append s "") = String c s). f_equal. exact IH.
Qed.

(** X23.  The text preview of an upload answer has at most 503
    characters: a text of up to 500 characters is returned whole, a longer
    one is cut to its first 500 characters followed by three dots. *)
Theorem preview_is_bounded text :
  strlen (ResumeRoutes.truncated text) <= 503
  /\ (strlen text <= 500 -> ResumeRoutes.truncated text = text)
  /\ (500 < strlen text ->
      ResumeRoutes.truncated text = String.substring 0 500 text ++ "..."
      /\ strlen (ResumeRoutes.truncated text) = 503).
Proof.
  unfold ResumeRoutes.truncated, prefix, strlen.
  destruct (500 <? Z.of_nat (String.length text)) eqn:E.
  - apply Z.ltb_lt in E.
    assert (H : String.length (String.substring 0 500 text) = 500%nat)
      by (apply substring_long; lia).
    rewrite length_append_string, H. simpl String.length.
    split; [lia|]. split; [lia|]. intros _. split; [reflexivity|lia].
  - apply Z.ltb_ge in E.
    assert (H : String.substring 0 500 text = text) by (apply substring_short; lia).
    rewrite H.
    rewrite append_empty. split; [lia|]. split; [reflexivity|]. lia.
Qed.

(** ** The profile *)

Lemma keepsAccount_id : keepsAccount Datatypes.id.
Proof. intros u. repeat split. Qed.

Lemma keepsAccount_set_name n : keepsAccount (User.set_name n).
Proof. intros u. destruct u. repeat split. Qed.

Lemma keepsAccount_setPreference f : keepsAccount (UserRoutes.setPreference f).
Proof. intros u. destruct u. repeat split. Qed.

Lemma keepsAccount_compose f g :
  keepsAccount f -> keepsAccount g -> keepsAccount (fun u => g (f u)).
Proof.
  intros Hf Hg u. destruct (Hf u) as (a1 & a2 & a3 & a4 & a5 & a6 & a7).
  destruct (Hg (f u)) as (b1 & b2 & b3 & b4 & b5 & b6 & b7).
  repeat split; congruence.
Qed.

Lemma keepsAccount_updateData body update :
  UserRoutes.updateData body = Gives update -> keepsAccount update.
Proof.
  unfold UserRoutes.updateData.
  destruct (UserRoutes.nameUpdate (body !! "name")) as [e|setName] eqn:En; [discriminate|].
  destruct (UserRoutes.languageUpdate _) as [setLanguage|] eqn:El; [|discriminate].
  intros [= <-].
  assert (Hn : keepsAccount setName).
  { revert En. unfold UserRoutes.nameUpdate. destruct (truthy _).
    - destruct (body !! "name") as [[]|]; try discriminate. intros [= <-].
      destruct (0 <? _); [apply keepsAccount_set_name|apply keepsAccount_id].
    - intros [= <-]. apply keepsAccount_id. }
  assert (Hl : keepsAccount setLanguage).
  { revert El. unfold UserRoutes.languageUpdate. destruct (truthy _).
    - destruct (_ ≫= _); [|discriminate]. intros [= <-]. apply keepsAccount_setPreference.
    - intros [= <-]. apply keepsAccount_id. }
  set (preferences := match body !! "preferences" with Some (JObj o) => o | _ => [] end).
  assert (Ht : keepsAccount (UserRoutes.themeUpdate preferences)).
  { unfold UserRoutes.themeUpdate. destruct (get "theme" preferences) as [[]|];
      try apply keepsAccount_id.
    destruct (_ || _); [apply keepsAccount_setPreference|apply keepsAccount_id]. }
  assert (Hb : keepsAccount (UserRoutes.notificationsUpdate preferences)).
  { unfold UserRoutes.notificationsUpdate. destruct (get "notifications" preferences) as [[]|];
      first [apply keepsAccount_setPreference | apply keepsAccount_id]. }
  apply (keepsAccount_compose _ _ (keepsAccount_compose _ _ (keepsAccount_compose _ _ Hn Ht) Hl) Hb).
Qed.


Lemma filter_and {A} (P Q : A -> bool) (l : list A) :
  List.filter (fun x => P x && Q x) l = List.filter Q (List.filter P l).
Proof.
  induction l as [|x l IH]; [reflexivity|]. simpl.
  destruct (P x); simpl; [destruct (Q x); rewrite IH; reflexivity|exact IH].
Qed.

Lemma countDocuments_healthy filter w :
  healthy 1 w = true ->
  Resumes.countDocuments filter w
  = (Returns (Z.of_nat (List.length (List.filter filter (map_to_list (World.resumes w)).*2))),
     after 1 w).
Proof.
  intros H. apply call_healthy in H as [H _].
  unfold Resumes.countDocuments, bind. rewrite H. reflexivity.
Qed.

(** X25.  The profile of a caller who exists gives, after three database
    calls, the user without the password hash and with [stats]:
    [totalResumes] counts the caller's own resumes only, [analyzedResumes]
    those of them that are analyzed or enhanced, so it never exceeds the
    total. *)
Theorem profile_counts_the_callers_resumes env req w caller email u :
  Req.authorization req = Req.Verified caller email ->
  healthy 3 w = true ->
  Users.byId caller (World.users w) = Some u ->
  let stats :=
    JObj (object
      [ ("totalResumes", Some (JNum (Z.of_nat (List.length (resumesOf caller w)))));
        ("analyzedResumes", Some (JNum (Z.of_nat (List.length (analyzedOf caller w)))));
        ("apiUsage", ApiUsage.toObject <$> User.apiUsage u) ]) in
  run env req UserRoutes.getProfile w
  = (success "Profile retrieved successfully"
       (JObj [ ("user",
                JObj (User.toObject true (Users.project false u) ++ [ ("stats", stats) ])) ])
       req,
     after 3 w)
  /\ (List.length (analyzedOf caller w) <= List.length (resumesOf caller w))%nat
  /\ (forall r, In r (resumesOf caller w) -> Resume.userId r = caller)
  /\ get "password" (User.toObject true (Users.project false u) ++ [ ("stats", stats) ]) = None.
Proof.
  intros Hauth Hh Hu stats. split; [|split; [|split]].
  - unfold run, route, UserRoutes.getProfile, bind, authenticateToken, tryCatch.
    rewrite Hauth. simpl. unfold bind.
    rewrite (findById_healthy caller w (healthy_le 1 3 w ltac:(lia) Hh)), Hu. simpl.
    fold (after 1 w).
    rewrite countDocuments_healthy by (apply healthy_after, (healthy_le 2 3 w); [lia|exact Hh]).
    rewrite countDocuments_healthy
      by (apply healthy_after, healthy_after; exact Hh).
    rewrite filter_and. rewrite !after_after. simpl.
    replace (User.apiUsage (Users.project false u)) with (User.apiUsage u)
      by (destruct u; reflexivity).
    reflexivity.
  - apply List.filter_length_le.
  - intros r Hr. apply filter_In in Hr as [_ Hr]. apply bool_decide_eq_true in Hr. exact Hr.
  - destruct u as [i e [p|] n [t|] x [a|] [pr|] c up v]; reflexivity.
Qed.

Lemma profile_counts_the_callers_resumes_witness :
  let req := Examples.request Examples.asBob Req.InvalidId ∅ in
  Res.data (fst (run Examples.env req UserRoutes.getProfile Samples.world))
  = Some (JObj [ ("user",
                  JObj (User.toObject true (Users.project false Examples.bob)
                        ++ [ ("stats",
                              JObj [ ("totalResumes", JNum 1); ("analyzedResumes", JNum 1);
                                     ("apiUsage",
                                      ApiUsage.toObject (ApiUsage.mk 3 Examples.march 40)) ]) ])) ]).
Proof.
  intros req.
  rewrite (proj1 (profile_counts_the_callers_resumes Examples.env req Samples.world 2
                    "bob@example.com" Examples.bob eq_refl eq_refl eq_refl)).
  reflexivity.
Defined.

Lemma tierKept_refl t : tierKept t t.
Proof. left. reflexivity. Qed.

Lemma tierKept_trans a b c : tierKept a b -> tierKept b c -> tierKept a c.
Proof. unfold tierKept. intros [-> | [-> ->]] [-> | [E ->]]; auto; discriminate. Qed.

(** ** What no route changes in a user *)

Lemma accountsKept_refl users : accountsKept users users.
Proof. intros id u H. exists u. repeat split; [exact H|apply tierKept_refl]. Qed.

Lemma accountsKept_trans a b c : accountsKept a b -> accountsKept b c -> accountsKept a c.
Proof.
  intros Hab Hbc id u H. destruct (Hab id u H) as (u1 & H1 & E1 & T1).
  destruct (Hbc id u1 H1) as (u2 & H2 & E2 & T2). exists u2.
  split; [exact H2|]. split; [congruence|exact (tierKept_trans _ _ _ T1 T2)].
Qed.

Lemma keeper_ret {A} (a : A) : Keeper (ret a).
Proof. intros w. apply accountsKept_refl. Qed.

Lemma keeper_throw {A} e : Keeper (@throw A e).
Proof. intros w. apply accountsKept_refl. Qed.

Lemma keeper_send {A} r : Keeper (@send A r).
Proof. intros w. apply accountsKept_refl. Qed.

Lemma keeper_attempt {A} (t : Try A) : Keeper (attempt t).
Proof. destruct t; [apply keeper_throw|apply keeper_ret]. Qed.

Lemma keeper_bind {A B} (m : M A) (k : A -> M B) :
  Keeper m -> (forall a, Keeper (k a)) -> Keeper (bind m k).
Proof.
  intros Hm Hk w. unfold bind. pose proof (Hm w) as H1.
  destruct (m w) as [[a|e|r] w1]; simpl in *; try exact H1.
  eapply accountsKept_trans; [exact H1|apply Hk].
Qed.

Lemma keeper_tryCatch {A} (m : M A) (h : Error -> M A) :
  Keeper m -> (forall e, Keeper (h e)) -> Keeper (tryCatch m h).
Proof.
  intros Hm Hh w. unfold tryCatch. pose proof (Hm w) as H1.
  destruct (m w) as [[a|e|r] w1]; simpl in *; try exact H1.
  eapply accountsKept_trans; [exact H1|apply Hh].
Qed.

Lemma free_users {A} (m : M A) w : UsersFree m -> World.users (snd (m w)) = World.users w.
Proof.
  intros Hf. pose proof (Hf (World.users w) w) as E.
  replace (World.set_users (World.users w) w) with w in E by (destruct w; reflexivity).
  destruct (m w) as [o w']. simpl in *. inversion E as [E']. rewrite E' at 1.
  destruct w'; reflexivity.
Qed.

Lemma keeper_free {A} (m : M A) : UsersFree m -> Keeper m.
Proof. intros Hf w. rewrite (free_users m w Hf). apply accountsKept_refl. Qed.

Lemma keeper_findById id : Keeper (Users.findById id).
Proof.
  intros w. unfold Users.findById, bind.
  destruct (call_cases w) as [Hc|[e Hc]]; rewrite Hc; apply accountsKept_refl.
Qed.

Lemma keeper_findOne withPassword email : Keeper (Users.findOne withPassword email).
Proof.
  intros w. unfold Users.findOne, bind.
  destruct (call_cases w) as [Hc|[e Hc]]; rewrite Hc; apply accountsKept_refl.
Qed.

Lemma accountsKept_insert (users : gmap positive User.t) id u' :
  (forall u, users !! id = Some u ->
     account u' = account u /\ tierKept (User.subscriptionType u) (User.subscriptionType u')) ->
  accountsKept users (<[id := u']> users).
Proof.
  intros H k u Hu. destruct (decide (id = k)) as [<-|N].
  - exists u'. split; [apply lookup_insert_eq|auto].
  - exists u. split; [rewrite lookup_insert_ne by exact N; exact Hu|].
    split; [reflexivity|apply tierKept_refl].
Qed.

Lemma keeper_create env doc : Keeper (Users.create env doc).
Proof.
  intros w. unfold Users.create. destruct (negb _); [apply accountsKept_refl|].
  cbv zeta. unfold bind.
  destruct (call_cases w) as [Hc|[e Hc]]; rewrite Hc; simpl; [|apply accountsKept_refl].
  destruct (World.users w !! _) eqn:E; [apply accountsKept_refl|].
  destruct (Users.byEmail _ _); [apply accountsKept_refl|]. simpl.
  apply accountsKept_insert. intros u Hu. simpl in E. congruence.
Qed.

Lemma keeper_findByIdAndUpdate env id update :
  keepsAccount update -> Keeper (Users.findByIdAndUpdate env id update).
Proof.
  intros Hk w. unfold Users.findByIdAndUpdate, bind.
  destruct (call_cases w) as [Hc|[e Hc]]; rewrite Hc; simpl; [|apply accountsKept_refl].
  destruct (Users.byId id (World.users w)) as [u|] eqn:Hu; simpl; [|apply accountsKept_refl].
  destruct (byId_id _ _ _ Hu) as [_ Hlk].
  apply accountsKept_insert. intros u0 Hu0. assert (u0 = u) by congruence. subst u0.
  destruct (Hk u) as (a1 & a2 & a3 & a4 & a5 & a6 & a7).
  unfold account, tierKept. destruct (update u); simpl in *. split; [congruence|auto].
Qed.

Lemma keeper_checkApiLimit env req claims : Keeper (checkApiLimit env req claims).
Proof.
  intros w. destruct (checkApiLimit_step env req claims w) as [[_ ->]|Hyes];
    [apply accountsKept_refl|].
  destruct Hyes as (u & usage & Hu & Ha & _ & _ & _ & ->).
  destruct (byId_id _ _ _ Hu) as [_ Hlk].
  apply accountsKept_insert. intros u0 Hu0. assert (u0 = u) by congruence. subst u0.
  unfold account, tierKept. destruct u as [i e p n [t|] x a pr c up v]; simpl in *; subst;
    unfold resetIfNewMonth; destruct (newMonth _ _); split; auto.
Qed.

Ltac keeper_step :=
  first
    [ apply keeper_ret | apply keeper_send | apply keeper_throw | apply keeper_attempt
    | apply keeper_findById | apply keeper_findOne | apply keeper_create
    | apply keeper_checkApiLimit
    | apply keeper_free;
      first [ apply free_call | apply free_randomBelow | apply free_called
            | apply free_findOne | apply free_findOneByFileName | apply free_countDocuments
            | apply free_create | apply free_save | apply free_findOneAndUpdateTitle
            | apply free_findOneAndDelete | apply free_findByIdAndUpdateStatus ]
    | apply keeper_bind; [|intros ?]
    | apply keeper_tryCatch; [|intros ?]
    | progress cbv beta zeta
    | match goal with
      | |- Keeper (match ?x with _ => _ end) => destruct x
      | |- Keeper (if ?b then _ else _) => destruct b
      end ].

Ltac keeper :=
  unfold validateResumeId, authenticateToken, validateEnhanceRequest, validateMatchRequest,
    sanitizeCompanyName, GoogleAI.analyzeResume, GoogleAI.enhanceResume,
    GoogleAI.matchJobDescription, GoogleAI.getMockAnalysis, GoogleAI.getMockJobMatch,
    AuthRoutes.comparePassword;
  repeat keeper_step.

Lemma keeper_updateProfile env req : Keeper (UserRoutes.updateProfile env req).
Proof.
  unfold UserRoutes.updateProfile. apply keeper_bind; [keeper|intros claims].
  apply keeper_tryCatch; [|intros e; keeper].
  destruct (UserRoutes.updateData (Req.body req)) as [e|update] eqn:E; [keeper|].
  apply keeper_bind; [|intros found; keeper].
  apply keeper_findByIdAndUpdate, (keepsAccount_updateData _ _ E).
Qed.

Lemma keeper_routes env req handler : In handler allRoutes -> Keeper (handler env req).
Proof.
  intros Hin. simpl in Hin.
  destruct Hin as [<-|[<-|[<-|[<-|[<-|[<-|[<-|[<-|[<-|[<-|[<-|[<-|[<-|[]]]]]]]]]]]]]];
    try apply keeper_updateProfile;
    unfold AuthRoutes.register, AuthRoutes.login, AuthRoutes.me, UserRoutes.getProfile,
      ResumeRoutes.upload, ResumeRoutes.getResume, ResumeRoutes.updateTitle,
      ResumeRoutes.deleteResume, AiRoutes.analyze, AiRoutes.enhance, AiRoutes.matchResume,
      AiRoutes.history;
    keeper.
Qed.

(** X26.  None of the thirteen routes of [allRoutes] (every route of the
    four routers but [GET /list] and the [/test] probes) deletes a user or
    changes a user's id, e-mail, password hash, expiry, creation date or
    lifetime [total], whatever the request and whatever the database does.
    The tier is kept too, but for a document stored without one, into which
    the save of the quota gate writes the schema's default 'free'. *)
Theorem no_route_changes_an_account env req w handler id u :
  In handler allRoutes ->
  World.users w !! id = Some u ->
  exists u',
    World.users (snd (run env req handler w)) !! id = Some u'
    /\ User._id u' = User._id u /\ User.email u' = User.email u
    /\ User.password u' = User.password u
    /\ (User.subscriptionType u' = User.subscriptionType u
        \/ (User.subscriptionType u = None /\ User.subscriptionType u' = Some "free"))
    /\ User.subscriptionExpiry u' = User.subscriptionExpiry u
    /\ User.createdAt u' = User.createdAt u
    /\ ApiUsage.total <$> User.apiUsage u' = ApiUsage.total <$> User.apiUsage u.
Proof.
  intros Hin Hu.
  assert (E : World.users (snd (run env req handler w))
              = World.users (snd (handler env req w))).
  { unfold run, route. destruct (handler env req w) as [[a|e|r] w1]; reflexivity. }
  rewrite E. destruct (keeper_routes env req handler Hin w id u Hu) as (u' & Hu' & Ha & Ht).
  exists u'. split; [exact Hu'|]. unfold account in Ha. inversion Ha.
  repeat split; try assumption.
Qed.

Lemma no_route_changes_an_account_witness :
  let w := World.mk (<[4%positive := untiered]> ∅) ∅ [] [] [] in
  let req := Examples.request (Req.Verified 4 "erin@example.com") (Req.ValidId 7) ∅ in
  exists u',
    World.users (snd (run Examples.env req AiRoutes.analyze w)) !! 4%positive = Some u'
    /\ User._id u' = 4%positive /\ User.email u' = "erin@example.com"
    /\ User.password u' = Some "$2a$12$secret"
    /\ (User.subscriptionType u' = None
        \/ (User.subscriptionType untiered = None /\ User.subscriptionType u' = Some "free"))
    /\ User.subscriptionExpiry u' = None
    /\ User.createdAt u' = Examples.january
    /\ ApiUsage.total <$> User.apiUsage u' = Some 0.
Proof.
  apply (no_route_changes_an_account Examples.env
           (Examples.request (Req.Verified 4 "erin@example.com") (Req.ValidId 7) ∅)
           (World.mk (<[4%positive := untiered]> ∅) ∅ [] [] []) AiRoutes.analyze 4 untiered);
    [simpl; tauto | reflexivity].
Defined.

(** ** What no route changes in a record *)

Lemma recordsKept_refl m : recordsKept m m.
Proof. intros id r H. eauto. Qed.

Lemma recordsKept_insert base (now : gmap positive Resume.t) id cur r' :
  recordsKept base now -> now !! id = Some cur -> core r' = core cur ->
  recordsKept base (<[id := r']> now).
Proof.
  intros H Hcur Hcore k r Hk. destruct (H k r Hk) as (r1 & H1 & E1).
  destruct (decide (id = k)) as [<-|N].
  - exists r'. split; [apply lookup_insert_eq|]. congruence.
  - exists r1. split; [rewrite lookup_insert_ne by exact N; exact H1|exact E1].
Qed.

Lemma recordsKept_fresh base (now : gmap positive Resume.t) id r' :
  recordsKept base now -> now !! id = None -> recordsKept base (<[id := r']> now).
Proof.
  intros H Hnone k r Hk. destruct (H k r Hk) as (r1 & H1 & E1).
  exists r1. split; [|exact E1]. rewrite lookup_insert_ne; [exact H1|]. congruence.
Qed.

Section Holds.

Variable base : gmap positive Resume.t.

Lemma holds_bind {A B} P (m : M A) Q (k : A -> M B) Q' :
  Holds base P m Q -> (forall a, Holds base (Q a) (k a) Q') -> Holds base P (bind m k) Q'.
Proof.
  intros Hm Hk w Hb HP. unfold bind. destruct (Hm w Hb HP) as [H1 H2].
  destruct (m w) as [[a|e|r] w1]; simpl in *;
    try (split; [exact H1|intros ? [=]]).
  apply Hk; [exact H1|]. apply H2. reflexivity.
Qed.

Lemma holds_tryCatch {A} P (m : M A) Q (h : Error -> M A) :
  Holds base P m Q -> (forall e, Holds base (fun _ => True) (h e) Q) ->
  Holds base P (tryCatch m h) Q.
Proof.
  intros Hm Hh w Hb HP. unfold tryCatch. destruct (Hm w Hb HP) as [H1 H2].
  destruct (m w) as [[a|e|r] w1]; simpl in *.
  - split; [exact H1|exact H2].
  - apply Hh; [exact H1|exact I].
  - split; [exact H1|intros ? [=]].
Qed.

Lemma holds_weaken {A} (P P' : World.t -> Prop) (m : M A) (Q Q' : A -> World.t -> Prop) :
  (forall w, P' w -> P w) -> (forall a w, Q a w -> Q' a w) ->
  Holds base P m Q -> Holds base P' m Q'.
Proof.
  intros HP HQ Hm w Hb HP'. destruct (Hm w Hb (HP w HP')) as [H1 H2].
  split; [exact H1|]. intros a E. apply HQ, H2, E.
Qed.

(** A quiet computation keeps what is known of the resumes. *)
Lemma holds_quiet {A} (m : M A) (S : gmap positive Resume.t -> Prop) :
  Quiet m -> Holds base (fun w => S (World.resumes w)) m (fun _ w => S (World.resumes w)).
Proof.
  intros Hq w Hb HS. rewrite (Hq w). split; [exact Hb|]. intros a _. exact HS.
Qed.

Lemma holds_quiet_any {A} P (m : M A) : Quiet m -> Holds base P m (fun _ _ => True).
Proof. intros Hq w Hb _. rewrite (Hq w). split; [exact Hb|]. auto. Qed.

Lemma holds_findOne id owner :
  Holds base (fun _ => True) (Resumes.findOne id owner)
        (fun found w => found = Resumes.owned id owner (World.resumes w)).
Proof.
  intros w Hb _. unfold Resumes.findOne, bind.
  destruct (call_cases w) as [Hc|[e Hc]]; rewrite Hc; simpl.
  - split; [exact Hb|]. intros a [= <-]. reflexivity.
  - split; [exact Hb|]. intros a [=].
Qed.

Lemma core_saved env old doc :
  core (Resume.set_updatedAt (Env.now env) (Resume.versioned old doc)) = core doc.
Proof. unfold Resume.versioned. destruct (decide _); destruct doc; reflexivity. Qed.

Lemma holds_save env old doc :
  core doc = core old ->
  Holds base (fun w => World.resumes w !! Resume._id old = Some old)
        (Resumes.save env old doc)
        (fun saved w => World.resumes w !! Resume._id saved = Some saved
                        /\ core saved = core old).
Proof.
  intros Hcore w Hb HP. unfold Resumes.save.
  destruct (negb _); simpl.
  { split; [exact Hb|]. intros a [=]. }
  unfold bind. destruct (call_cases w) as [Hc|[e Hc]]; rewrite Hc; simpl.
  2:{ split; [exact Hb|]. intros a [=]. }
  pose proof (core_saved env old doc) as Hs.
  assert (Hd : Resume._id doc = Resume._id old) by (unfold core in Hcore; congruence).
  rewrite ?Hd.
  destruct (Resumes.byId (Resume._id old) (World.resumes w)); simpl.
  2:{ split; [exact Hb|]. intros a [=]. }
  destruct (decide (old = doc)) as [<-|N]; simpl.
  { split; [exact Hb|]. intros a [= <-]. simpl. auto. }
  rewrite ?versioned_id, ?Hd.
  split.
  - apply (recordsKept_insert base _ _ old); [exact Hb|exact HP|congruence].
  - intros a [= <-]. simpl. rewrite ?versioned_id, ?Hd.
    split; [apply lookup_insert_eq|congruence].
Qed.

Lemma holds_create env doc P :
  Holds base P (Resumes.create env doc) (fun _ _ => True).
Proof.
  intros w Hb _. unfold Resumes.create. destruct (negb _); simpl; [split; auto|].
  unfold bind. destruct (call_cases w) as [Hc|[e Hc]]; rewrite Hc; simpl; [|split; auto].
  destruct (World.resumes w !! _) eqn:E; simpl; [split; auto|].
  split; [|auto]. apply recordsKept_fresh; assumption.
Qed.

Lemma holds_updateTitle env id owner title P :
  Holds base P (Resumes.findOneAndUpdateTitle env id owner title) (fun _ _ => True).
Proof.
  intros w Hb _. unfold Resumes.findOneAndUpdateTitle, bind.
  destruct (call_cases w) as [Hc|[e Hc]]; rewrite Hc; simpl; [|split; auto].
  destruct (Resumes.owned id owner (World.resumes w)) as [r|] eqn:Ho; simpl; [|split; auto].
  destruct (owned_byId _ _ _ _ Ho) as (_ & _ & _ & Hlk).
  split; [|auto]. apply (recordsKept_insert base _ _ r); [exact Hb|exact Hlk|].
  destruct r; reflexivity.
Qed.

Lemma holds_updateStatus env id st P :
  Holds base P (Resumes.findByIdAndUpdateStatus env id st) (fun _ _ => True).
Proof.
  intros w Hb _. unfold Resumes.findByIdAndUpdateStatus, bind.
  destruct (call_cases w) as [Hc|[e Hc]]; rewrite Hc; simpl; [|split; auto].
  destruct (Resumes.byId id (World.resumes w)) as [r|] eqn:Ho; simpl; [|split; auto].
  assert (Hlk : World.resumes w !! id = Some r).
  { revert Ho. unfold Resumes.byId. destruct (World.resumes w !! id); [|discriminate].
    destruct (decide _); [congruence|discriminate]. }
  split; [|auto]. apply (recordsKept_insert base _ _ r); [exact Hb|exact Hlk|].
  destruct r; reflexivity.
Qed.

End Holds.

Lemma quiet_ret {A} (a : A) : Quiet (ret a).
Proof. intros w. reflexivity. Qed.

Lemma quiet_throw {A} e : Quiet (@throw A e).
Proof. intros w. reflexivity. Qed.

Lemma quiet_send {A} r : Quiet (@send A r).
Proof. intros w. reflexivity. Qed.

Lemma quiet_attempt {A} (t : Try A) : Quiet (attempt t).
Proof. destruct t; intros w; reflexivity. Qed.

Lemma quiet_bind {A B} (m : M A) (k : A -> M B) :
  Quiet m -> (forall a, Quiet (k a)) -> Quiet (bind m k).
Proof.
  intros Hm Hk w. unfold bind. pose proof (Hm w) as H1.
  destruct (m w) as [[a|e|r] w1]; simpl in *; try exact H1.
  rewrite (Hk a w1). exact H1.
Qed.

Lemma quiet_tryCatch {A} (m : M A) (h : Error -> M A) :
  Quiet m -> (forall e, Quiet (h e)) -> Quiet (tryCatch m h).
Proof.
  intros Hm Hh w. unfold tryCatch. pose proof (Hm w) as H1.
  destruct (m w) as [[a|e|r] w1]; simpl in *; try exact H1.
  rewrite (Hh e w1). exact H1.
Qed.

Ltac quiet_primitive :=
  intros w; destruct w as [us rs fs rd lg];
  unfold bind, Db.call, gets, modify, ret, throw, send; branches.

Lemma quiet_call : Quiet Db.call.
Proof. quiet_primitive. Qed.

Lemma quiet_randomBelow n : Quiet (randomBelow n).
Proof. unfold randomBelow. quiet_primitive. Qed.

Lemma quiet_called : Quiet GoogleAI.called.
Proof. unfold GoogleAI.called. quiet_primitive. Qed.

Lemma quiet_findOne id owner : Quiet (Resumes.findOne id owner).
Proof. unfold Resumes.findOne. quiet_primitive. Qed.

Lemma quiet_countDocuments f : Quiet (Resumes.countDocuments f).
Proof. unfold Resumes.countDocuments. quiet_primitive. Qed.

Lemma quiet_findById id : Quiet (Users.findById id).
Proof. unfold Users.findById. quiet_primitive. Qed.

Lemma quiet_findOne_user p email : Quiet (Users.findOne p email).
Proof. unfold Users.findOne. quiet_primitive. Qed.

Lemma quiet_create_user env doc : Quiet (Users.create env doc).
Proof. unfold Users.create. quiet_primitive. Qed.

Lemma quiet_findByIdAndUpdate env id update : Quiet (Users.findByIdAndUpdate env id update).
Proof. unfold Users.findByIdAndUpdate. quiet_primitive. Qed.

Lemma quiet_checkApiLimit env req claims : Quiet (checkApiLimit env req claims).
Proof. intros w. apply checkApiLimit_keeps_resumes. Qed.

Ltac quiet_step :=
  first
    [ apply quiet_ret | apply quiet_send | apply quiet_throw | apply quiet_attempt
    | apply quiet_call | apply quiet_randomBelow | apply quiet_called
    | apply quiet_findOne | apply quiet_countDocuments | apply quiet_findById
    | apply quiet_findOne_user | apply quiet_create_user | apply quiet_findByIdAndUpdate
    | apply quiet_checkApiLimit
    | apply quiet_bind; [|intros ?]
    | apply quiet_tryCatch; [|intros ?]
    | progress cbv beta zeta
    | match goal with
      | |- Quiet (match ?x with _ => _ end) => destruct x
      | |- Quiet (if ?b then _ else _) => destruct b
      end ].

Ltac quiet :=
  unfold validateResumeId, authenticateToken, validateEnhanceRequest, validateMatchRequest,
    sanitizeCompanyName, GoogleAI.analyzeResume, GoogleAI.enhanceResume,
    GoogleAI.matchJobDescription, GoogleAI.getMockAnalysis, GoogleAI.getMockJobMatch,
    AuthRoutes.comparePassword;
  repeat quiet_step.

Lemma quiet_routes env req handler : In handler readingRoutes -> Quiet (handler env req).
Proof.
  intros Hin. simpl in Hin.
  destruct Hin as [<-|[<-|[<-|[<-|[<-|[<-|[<-|[]]]]]]]];
    unfold AuthRoutes.register, AuthRoutes.login, AuthRoutes.me, UserRoutes.getProfile,
      UserRoutes.updateProfile, ResumeRoutes.getResume, AiRoutes.history;
    quiet.
Qed.

Lemma quiet_findOneByFileName owner name : Quiet (Resumes.findOneByFileName owner name).
Proof. unfold Resumes.findOneByFileName. quiet_primitive. Qed.

Lemma quiet_analyzeResume env text : Quiet (GoogleAI.analyzeResume env text).
Proof. quiet. Qed.

Lemma quiet_enhanceResume env text role industry :
  Quiet (GoogleAI.enhanceResume env text role industry).
Proof. quiet. Qed.

Lemma quiet_matchJobDescription env text title description company :
  Quiet (GoogleAI.matchJobDescription env text title description company).
Proof. quiet. Qed.

Section Routes.

Variable base : gmap positive Resume.t.

Variables (env : Env.t) (req : Req.t).

(** A step that needs nothing and promises nothing. *)
Ltac plain := solve [apply holds_quiet_any; quiet].

Ltac then_plain :=
  apply (holds_bind base _ _ (fun _ _ => True)); [plain|intros ?].

Lemma owned_lookup id owner w resume :
  Some resume = Resumes.owned id owner (World.resumes w) ->
  World.resumes w !! Resume._id resume = Some resume.
Proof.
  intros H. symmetry in H. destruct (owned_byId _ _ _ _ H) as (_ & _ & Hid & Hlk).
  rewrite Hid. exact Hlk.
Qed.

Lemma kept_upload :
  Kept base (ResumeRoutes.upload env req).
Proof.
  unfold Kept, ResumeRoutes.upload. then_plain.
  apply holds_tryCatch; [|intros e; plain].
  destruct (Req.file req) as [file|]; [|plain].
  then_plain. cbv zeta. destruct (strlen _ =? 0); [plain|].
  apply (holds_bind base _ _ (fun _ _ => True));
    [apply holds_quiet_any, quiet_findOneByFileName|intros existing].
  destruct existing; [plain|].
  apply (holds_bind base _ _ (fun _ _ => True)); [destruct (ResumeRoutes.titleOf _ _); plain|].
  intros title.
  apply (holds_bind base _ _ (fun _ _ => True)); [apply holds_create|intros resume; plain].
Qed.

Lemma kept_updateTitle :
  Kept base (ResumeRoutes.updateTitle env req).
Proof.
  unfold Kept, ResumeRoutes.updateTitle. then_plain. then_plain.
  apply holds_tryCatch; [|intros e; plain].
  cbv zeta. destruct (negb _); [plain|].
  destruct (Req.body req !! "title") as [[]|]; try plain.
  destruct (strlen _ =? 0); [plain|].
  apply (holds_bind base _ _ (fun _ _ => True)); [apply holds_updateTitle|].
  intros found. destruct found; plain.
Qed.

Lemma kept_rollback id error :
  Kept base (let* _ :=
          tryCatch (let* _ := Resumes.findByIdAndUpdateStatus env id uploaded in ret tt)
                   (fun _ => ret tt) in
        ret (failureWith 500 "Error analyzing resume" (detail env error) req)).
Proof.
  unfold Kept.
  apply (holds_bind base _ _ (fun _ _ => True)); [|intros ?; plain].
  apply holds_tryCatch; [|intros e; plain].
  apply (holds_bind base _ _ (fun _ _ => True)); [apply holds_updateStatus|intros ?; plain].
Qed.

Lemma kept_analyze :
  Kept base (AiRoutes.analyze env req).
Proof.
  unfold Kept, AiRoutes.analyze. then_plain. then_plain. then_plain.
  apply holds_tryCatch; [|intros e; apply kept_rollback].
  apply (holds_bind base _ _ _ _ _ (holds_findOne base _ _)). intros found.
  destruct found as [resume|]; [|plain].
  destruct (String.eqb _ _); [plain|].
  apply (holds_bind base _ _
           (fun saved w => World.resumes w !! Resume._id saved = Some saved
                           /\ core saved = core resume)).
  { apply (holds_weaken base (fun w => World.resumes w !! Resume._id resume = Some resume)
             _ _ (fun saved w => World.resumes w !! Resume._id saved = Some saved
                                 /\ core saved = core resume)).
    - intros w H. apply (owned_lookup _ _ _ _ H).
    - auto.
    - apply holds_save. destruct resume; reflexivity. }
  intros saved.
  apply (holds_bind base _ _
           (fun _ w => World.resumes w !! Resume._id saved = Some saved)).
  { apply (holds_weaken base (fun w => World.resumes w !! Resume._id saved = Some saved)
             _ _ (fun _ w => World.resumes w !! Resume._id saved = Some saved)).
    - intros w [H _]. exact H.
    - auto.
    - apply (holds_quiet base _ (fun m => m !! Resume._id saved = Some saved)),
        quiet_analyzeResume. }
  intros analysis.
  apply (holds_bind base _ _ (fun _ _ => True)); [|intros ?; plain].
  apply (holds_weaken base (fun w => World.resumes w !! Resume._id saved = Some saved)
           _ _ (fun s w => World.resumes w !! Resume._id s = Some s /\ core s = core saved)).
  - auto.
  - auto.
  - apply holds_save. destruct saved; reflexivity.
Qed.

Lemma kept_enhance :
  Kept base (AiRoutes.enhance env req).
Proof.
  unfold Kept, AiRoutes.enhance. then_plain. then_plain. then_plain. then_plain.
  apply holds_tryCatch; [|intros e; plain].
  cbv zeta.
  apply (holds_bind base _ _ _ _ _ (holds_findOne base _ _)). intros found.
  destruct found as [resume|]; [|plain].
  destruct (String.eqb _ _); [plain|].
  apply (holds_bind base _ _
           (fun _ w => World.resumes w !! Resume._id resume = Some resume)).
  { apply (holds_weaken base (fun w => World.resumes w !! Resume._id resume = Some resume)
             _ _ (fun _ w => World.resumes w !! Resume._id resume = Some resume)).
    - intros w H. apply (owned_lookup _ _ _ _ H).
    - auto.
    - apply (holds_quiet base _ (fun m => m !! Resume._id resume = Some resume)),
        quiet_enhanceResume. }
  intros enhancedText.
  apply (holds_bind base _ _ (fun _ _ => True)); [|intros ?; plain].
  apply (holds_weaken base (fun w => World.resumes w !! Resume._id resume = Some resume)
           _ _ (fun s w => World.resumes w !! Resume._id s = Some s /\ core s = core resume)).
  - auto.
  - auto.
  - apply holds_save. destruct resume; reflexivity.
Qed.

Lemma kept_matchResume :
  Kept base (AiRoutes.matchResume env req).
Proof.
  unfold Kept, AiRoutes.matchResume. then_plain. then_plain. then_plain. then_plain.
  apply holds_tryCatch; [|intros e; plain].
  cbv zeta.
  apply (holds_bind base _ _ _ _ _ (holds_findOne base _ _)). intros found.
  destruct found as [resume|]; [|plain].
  destruct (String.eqb _ _); [plain|].
  apply (holds_bind base _ _
           (fun _ w => World.resumes w !! Resume._id resume = Some resume)).
  { apply (holds_weaken base (fun w => World.resumes w !! Resume._id resume = Some resume)
             _ _ (fun _ w => World.resumes w !! Resume._id resume = Some resume)).
    - intros w H. apply (owned_lookup _ _ _ _ H).
    - auto.
    - apply (holds_quiet base _ (fun m => m !! Resume._id resume = Some resume)),
        quiet_matchJobDescription. }
  intros matchResults.
  apply (holds_bind base _ _ (fun _ _ => True)); [|intros ?; plain].
  apply (holds_weaken base (fun w => World.resumes w !! Resume._id resume = Some resume)
           _ _ (fun s w => World.resumes w !! Resume._id s = Some s /\ core s = core resume)).
  - auto.
  - auto.
  - apply holds_save. destruct resume; reflexivity.
Qed.

End Routes.

Lemma deleteResume_removes env req w id r' :
  World.resumes (snd (ResumeRoutes.deleteResume env req w)) !! id = Some r' ->
  World.resumes w !! id = Some r'.
Proof.
  unfold ResumeRoutes.deleteResume, bind, validateResumeId, authenticateToken, tryCatch.
  destruct (Req.resumeId req) as [|key]; simpl; [auto|].
  destruct (Req.authorization req) as [| |caller email]; simpl; [auto..|].
  unfold Resumes.findOneAndDelete, bind.
  destruct (call_cases w) as [Hc|[e Hc]]; rewrite Hc; simpl; [|auto].
  destruct (Resumes.owned key caller (World.resumes w)); simpl; [|auto].
  intros H. apply lookup_delete_Some in H as [_ H]. exact H.
Qed.

Lemma run_world env req handler w :
  snd (run env req handler w) = snd (handler env req w).
Proof. unfold run, route. destruct (handler env req w) as [[a|e|r] w1]; reflexivity. Qed.

Lemma routes_keep_records env req w handler :
  In handler (readingRoutes ++ writingRoutes) ->
  recordsKept (World.resumes w) (World.resumes (snd (handler env req w))).
Proof.
  intros Hin. apply in_app_or in Hin as [Hin|Hin].
  - rewrite (quiet_routes env req handler Hin w). apply recordsKept_refl.
  - assert (Hk : Kept (World.resumes w) (handler env req) ->
                 recordsKept (World.resumes w) (World.resumes (snd (handler env req w)))).
    { intros H. apply (H w (recordsKept_refl _) I). }
    simpl in Hin. destruct Hin as [<-|[<-|[<-|[<-|[<-|[]]]]]]; apply Hk;
      first [ apply kept_upload | apply kept_updateTitle | apply kept_analyze
            | apply kept_enhance | apply kept_matchResume ].
Qed.

(** X27.  None of the thirteen routes of [allRoutes] (every route of the
    four routers but [GET /list] and the [/test] probes) changes the id,
    owner, original text, file name, file type or creation date of a stored
    resume, whatever the request and whatever the database does; and every
    one of them but DELETE keeps every stored record. *)
Theorem no_route_rewrites_a_record env req w handler id r :
  In handler allRoutes ->
  World.resumes w !! id = Some r ->
  (forall r',
     World.resumes (snd (run env req handler w)) !! id = Some r' ->
     Resume._id r' = Resume._id r /\ Resume.userId r' = Resume.userId r
     /\ Resume.originalText r' = Resume.originalText r
     /\ Resume.fileName r' = Resume.fileName r /\ Resume.fileType r' = Resume.fileType r
     /\ Resume.createdAt r' = Resume.createdAt r)
  /\ (In handler (readingRoutes ++ writingRoutes) ->
      is_Some (World.resumes (snd (run env req handler w)) !! id)).
Proof.
  intros Hin Hr. rewrite run_world.
  assert (Hcore : forall r' : Resume.t, core r' = core r ->
            Resume._id r' = Resume._id r /\ Resume.userId r' = Resume.userId r
            /\ Resume.originalText r' = Resume.originalText r
            /\ Resume.fileName r' = Resume.fileName r /\ Resume.fileType r' = Resume.fileType r
            /\ Resume.createdAt r' = Resume.createdAt r).
  { intros r' E. unfold core in E. inversion E. repeat split; assumption. }
  assert (Hkeep : In handler (readingRoutes ++ writingRoutes) ->
            forall r', World.resumes (snd (handler env req w)) !! id = Some r' ->
                       core r' = core r).
  { intros H r' Hr'.
    destruct (routes_keep_records env req w handler H id r Hr) as (r1 & H1 & E1).
    congruence. }
  split.
  - intros r' Hr'. apply Hcore. simpl in Hin.
    destruct Hin as [<-|[<-|[<-|[<-|[<-|[<-|[<-|[<-|[<-|[<-|[<-|[<-|[<-|[]]]]]]]]]]]]]];
      first [ apply Hkeep; [simpl; tauto|exact Hr']
            | apply deleteResume_removes in Hr'; congruence ].
  - intros H. destruct (routes_keep_records env req w handler H id r Hr) as (r1 & H1 & _).
    eauto.
Qed.

Lemma no_route_rewrites_a_record_witness :
  exists r',
    World.resumes (snd (run Samples.mocked (Samples.bobOn 8 Samples.targets) AiRoutes.enhance
                            Samples.world)) !! 8%positive = Some r'
    /\ Resume.userId r' = 2%positive
    /\ Resume.originalText r' = "SQL and statistics"
    /\ Resume.fileName r' = "bob.pdf".
Proof.
  destruct (no_route_rewrites_a_record Samples.mocked (Samples.bobOn 8 Samples.targets)
              Samples.world AiRoutes.enhance 8 Samples.polished) as [same kept];
    [simpl; tauto | reflexivity |].
  destruct kept as [r' Hr']; [simpl; tauto|].
  exists r'. split; [exact Hr'|].
  destruct (same r' Hr') as (_ & owner & text & name & _). auto.
Defined.
